(** * tat controllers: users and presences

    A shallow embedding of [controllers/users.go] and
    [controllers/presences.go].  Go strings are byte strings ([string] of
    [ascii]), Go [int] is [Z], a handler is a function from the request and
    the store to the written response, the new store and the detached side
    effects it started. *)

From Stdlib Require Import Bool Arith ZArith List Ascii String.
From Stdlib Require Import DecimalString DecimalNat Lia.
Import ListNotations.

Open Scope list_scope.
Open Scope string_scope.

(** ** The Go standard library functions the controllers call *)

Module strings.

(** [strings.HasPrefix(s, prefix)]. *)
Definition HasPrefix (s pre : string) : bool := String.prefix pre s.

Fixpoint drop (n : nat) (s : string) : string :=
  match n, s with
  | O, _ => s
  | S _, EmptyString => EmptyString
  | S n', String _ s' => drop n' s'
  end.

(** [strings.HasSuffix(s, suffix)]:
    [len(s) >= len(suffix) && s[len(s)-len(suffix):] == suffix]. *)
Definition HasSuffix (s suf : string) : bool :=
  (String.length suf <=? String.length s)%nat
  && String.eqb (drop (String.length s - String.length suf) s) suf.

(** [strings.Index(s, sep)] for a one-byte [sep]: the offset of its first
    occurrence, [None] for Go's -1. *)
Fixpoint IndexByte (s : string) (c : ascii) : option nat :=
  match s with
  | EmptyString => None
  | String a s' =>
      if Ascii.eqb a c then Some O
      else match IndexByte s' c with
           | Some i => Some (S i)
           | None => None
           end
  end.

(** [strings.Split(s, sep)] for a one-byte [sep] (both call sites pass
    one): the pieces between the separators, one more than there are
    separators. *)
Fixpoint Split (s : string) (sep : ascii) : list string :=
  match s with
  | EmptyString => [EmptyString]
  | String a s' =>
      if Ascii.eqb a sep then EmptyString :: Split s' sep
      else match Split s' sep with
           | piece :: rest => String a piece :: rest
           | [] => [String a EmptyString]
           end
  end.

(** White space as [unicode.IsSpace] sees it on UTF-8 bytes: the six ASCII
    blanks, U+0085, U+00A0, U+1680, U+2000..U+200A, U+2028, U+2029,
    U+202F, U+205F and U+3000. *)
Definition asciiSpace (a : ascii) : bool :=
  let n := nat_of_ascii a in
  ((9 <=? n) && (n <=? 13))%nat || (n =? 32)%nat.

Definition spaceRunes : list string :=
  map (fun bs => string_of_list_ascii (map ascii_of_nat bs))
    (List.app [ [194; 133]; [194; 160]; [225; 154; 128] ]
       (List.app (map (fun k => [226; 128; 128 + k]) (seq 0 11))
          [ [226; 128; 168]; [226; 128; 169]; [226; 128; 175];
            [226; 129; 159]; [227; 128; 128] ]))%nat.

(** The width in bytes of the white-space rune [s] starts with, if any. *)
Definition leadingSpace (s : string) : option nat :=
  match s with
  | EmptyString => None
  | String a _ =>
      if asciiSpace a then Some 1%nat
      else match find (fun r => String.prefix r s) spaceRunes with
           | Some r => Some (String.length r)
           | None => None
           end
  end.

(** [strings.Contains(s, substr)]. *)
Definition Contains (s substr : string) : bool :=
  match String.index 0 substr s with
  | Some _ => true
  | None => false
  end.

Fixpoint rev (s : string) : string :=
  match s with
  | EmptyString => EmptyString
  | String a s' => rev s' ++ String a EmptyString
  end.

(** The same from the end, on the reversed string. *)
Definition trailingSpace (r : string) : option nat :=
  match r with
  | EmptyString => None
  | String a _ =>
      if asciiSpace a then Some 1%nat
      else match find (fun w => String.prefix (rev w) r) spaceRunes with
           | Some w => Some (String.length w)
           | None => None
           end
  end.

Fixpoint trimWith (width : string -> option nat) (fuel : nat) (s : string)
  : string :=
  match fuel with
  | O => s
  | S fuel' =>
      match width s with
      | Some w => trimWith width fuel' (drop w s)
      | None => s
      end
  end.

Definition TrimLeft (s : string) : string :=
  trimWith leadingSpace (String.length s) s.

Definition TrimRight (s : string) : string :=
  rev (trimWith trailingSpace (String.length s) (rev s)).

(** [strings.TrimSpace(s)]: leading white space goes first, then trailing
    white space of what is left. *)
Definition TrimSpace (s : string) : string := TrimRight (TrimLeft s).

End strings.

Module strconv.

Definition isDigit (a : ascii) : bool :=
  let n := nat_of_ascii a in ((48 <=? n) && (n <=? 57))%nat.

Fixpoint digits (acc : Z) (s : string) : option Z :=
  match s with
  | EmptyString => Some acc
  | String a s' =>
      if isDigit a
      then digits (10 * acc + Z.of_nat (nat_of_ascii a - 48)) s'
      else None
  end.

(** [ParseUint] in base 10: at least one byte, decimal digits only. *)
Definition parseUint (s : string) : option Z :=
  match s with
  | EmptyString => None
  | _ => digits 0 s
  end.

Definition minInt : Z := - 2 ^ 63.
Definition maxInt : Z := 2 ^ 63 - 1.

(** [strconv.Atoi(s)]: an optional sign, decimal digits, a value that fits
    a 64-bit [int]; [None] stands for a non-nil error. *)
Definition Atoi (s : string) : option Z :=
  let signed :=
    match s with
    | String "+" s' => option_map (fun n => n) (parseUint s')
    | String "-" s' => option_map Z.opp (parseUint s')
    | _ => parseUint s
    end in
  match signed with
  | Some n => if ((minInt <=? n) && (n <=? maxInt))%Z then Some n else None
  | None => None
  end.

(** [strconv.ParseBool(s)]. *)
Definition ParseBool (s : string) : option bool :=
  if existsb (String.eqb s) ["1"; "t"; "T"; "TRUE"; "true"; "True"] then Some true
  else if existsb (String.eqb s) ["0"; "f"; "F"; "FALSE"; "false"; "False"] then Some false
  else None.

End strconv.

(** ** The store: [models]

    The package [github.com/ovh/tat/models] is used by the controllers but
    is not part of these two files; its entities and operations are
    modelled from the specification's data model (section 3) and external
    interfaces (section 6). *)

Module models.

Module Contact.
Record t := mk { Username : string; Fullname : string }.
End Contact.

Module User.
(** Modelled from the spec: the [models.User] struct, with the fields of
    the data model; [Password] and [TokenVerify] stand for the stored
    credential and the pending verification or reset token. *)
Record t := mk {
  Username : string;
  Fullname : string;
  Email : string;
  IsSystem : bool;
  IsAdmin : bool;
  IsArchived : bool;
  CanWriteNotifications : bool;
  ConvertedBy : string;
  Contacts : list Contact.t;
  FavoritesTopics : list string;
  FavoritesTags : list string;
  OffNotificationsTopics : list string;
  Groups : list string;
  Password : string;
  TokenVerify : string
}.

(** The zero value [models.User{}]. *)
Definition zero : t :=
  mk "" "" "" false false false false "" [] [] [] [] [] "" "".

Definition withIdentity (u : t) (username fullname email : string) : t :=
  mk username fullname email (IsSystem u) (IsAdmin u) (IsArchived u)
     (CanWriteNotifications u) (ConvertedBy u) (Contacts u)
     (FavoritesTopics u) (FavoritesTags u) (OffNotificationsTopics u)
     (Groups u) (Password u) (TokenVerify u).

Definition withSystem (u : t) (by_ : string) (canWrite : bool)
           (password : string) : t :=
  mk (Username u) (Fullname u) (Email u) true (IsAdmin u) (IsArchived u)
     canWrite by_ (Contacts u) (FavoritesTopics u) (FavoritesTags u)
     (OffNotificationsTopics u) (Groups u) password (TokenVerify u).

Definition withPassword (u : t) (password : string) : t :=
  mk (Username u) (Fullname u) (Email u) (IsSystem u) (IsAdmin u)
     (IsArchived u) (CanWriteNotifications u) (ConvertedBy u)
     (Contacts u) (FavoritesTopics u) (FavoritesTags u)
     (OffNotificationsTopics u) (Groups u) password (TokenVerify u).

Definition withToken (u : t) (token : string) : t :=
  mk (Username u) (Fullname u) (Email u) (IsSystem u) (IsAdmin u)
     (IsArchived u) (CanWriteNotifications u) (ConvertedBy u)
     (Contacts u) (FavoritesTopics u) (FavoritesTags u)
     (OffNotificationsTopics u) (Groups u) (Password u) token.

Definition withFavoritesTopics (u : t) (l : list string) : t :=
  mk (Username u) (Fullname u) (Email u) (IsSystem u) (IsAdmin u)
     (IsArchived u) (CanWriteNotifications u) (ConvertedBy u)
     (Contacts u) l (FavoritesTags u) (OffNotificationsTopics u)
     (Groups u) (Password u) (TokenVerify u).

Definition withOffNotificationsTopics (u : t) (l : list string) : t :=
  mk (Username u) (Fullname u) (Email u) (IsSystem u) (IsAdmin u)
     (IsArchived u) (CanWriteNotifications u) (ConvertedBy u)
     (Contacts u) (FavoritesTopics u) (FavoritesTags u) l
     (Groups u) (Password u) (TokenVerify u).
Definition withAdmin (u : t) : t :=
  mk (Username u) (Fullname u) (Email u) (IsSystem u) true (IsArchived u)
     (CanWriteNotifications u) (ConvertedBy u) (Contacts u)
     (FavoritesTopics u) (FavoritesTags u) (OffNotificationsTopics u)
     (Groups u) (Password u) (TokenVerify u).

Definition withArchived (u : t) : t :=
  mk (Username u) (Fullname u) (Email u) (IsSystem u) (IsAdmin u) true
     (CanWriteNotifications u) (ConvertedBy u) (Contacts u)
     (FavoritesTopics u) (FavoritesTags u) (OffNotificationsTopics u)
     (Groups u) (Password u) (TokenVerify u).

Definition withGroups (u : t) (l : list string) : t :=
  mk (Username u) (Fullname u) (Email u) (IsSystem u) (IsAdmin u)
     (IsArchived u) (CanWriteNotifications u) (ConvertedBy u)
     (Contacts u) (FavoritesTopics u) (FavoritesTags u)
     (OffNotificationsTopics u) l (Password u) (TokenVerify u).

Definition withFavoritesTags (u : t) (l : list string) : t :=
  mk (Username u) (Fullname u) (Email u) (IsSystem u) (IsAdmin u)
     (IsArchived u) (CanWriteNotifications u) (ConvertedBy u)
     (Contacts u) (FavoritesTopics u) l (OffNotificationsTopics u)
     (Groups u) (Password u) (TokenVerify u).
End User.

Module Topic.
(** Modelled from the spec: the [models.Topic] struct, a path with read
    and write access lists of users and of groups. *)
Record t := mk {
  Topic : string;
  ROUsers : list string;
  RWUsers : list string;
  ROGroups : list string;
  RWGroups : list string
}.
End Topic.

Module Presence.
(** Modelled from the spec: the [models.Presence] struct, one liveness
    record of a user on a topic. *)
Record t := mk {
  ID : string;
  Status : string;
  Topic : string;
  Username : string;
  DatePresence : Z
}.
End Presence.

(** [models.PresenceCriteria], with the fields [buildCriteria] fills. *)
Module PresenceCriteria.
Record t := mk {
  Skip : Z;
  Limit : Z;
  IDPresence : string;
  Status : string;
  Topic : string;
  Username : string;
  DateMinPresence : string;
  DateMaxPresence : string
}.

Definition zero : t := mk 0 0 "" "" "" "" "" "".

Definition withTopic (c : t) (topic : string) : t :=
  mk (Skip c) (Limit c) (IDPresence c) (Status c) topic (Username c)
     (DateMinPresence c) (DateMaxPresence c).
End PresenceCriteria.

(** [models.UserCriteria], with the fields [buildCriteria] fills. *)
Module UserCriteria.
Record t := mk {
  Skip : Z;
  Limit : Z;
  WithGroups : bool;
  IDUser : string;
  Username : string;
  Fullname : string;
  DateMinCreation : string;
  DateMaxCreation : string
}.
End UserCriteria.

(** Modelled from the spec: the collections of the backing store.  [nonce]
    is the state of the token and password generator; [uniqueIndexes] tells
    whether the store carries the unique constraints section 5 asks of
    it. *)
Record Store := mkStore {
  users : list User.t;
  topics : list Topic.t;
  presences : list Presence.t;
  nonce : nat;
  uniqueIndexes : bool
}.

(** Modelled from the spec: the store with one collection or the generator
    state replaced. *)
Definition withUsers (st : Store) (l : list User.t) : Store :=
  mkStore l (topics st) (presences st) (nonce st) (uniqueIndexes st).

Definition withTopics (st : Store) (l : list Topic.t) : Store :=
  mkStore (users st) l (presences st) (nonce st) (uniqueIndexes st).

Definition tick (st : Store) : Store :=
  mkStore (users st) (topics st) (presences st) (S (nonce st))
          (uniqueIndexes st).

(** *** Operations of the store *)

(** Modelled from the spec: token and password generation (section 5 asks
    for unguessable single-use values and leaves their making out of
    scope); the generator is a counter and its output the counter's
    decimal rendering, so that two draws never agree. *)
Definition generate (kind : string) (n : nat) : string :=
  kind ++ "-" ++ NilEmpty.string_of_uint (Nat.to_uint n).

(** Modelled from the spec: [FindUserByUsername], the method
    [user.FindByUsername]; [None] stands for its error. *)
Definition FindByUsername (st : Store) (username : string) : option User.t :=
  find (fun u => String.eqb (User.Username u) username) (users st).

(** Modelled from the spec: [UniquenessCheck(field, value)], the three
    probes [IsEmailExists], [IsUsernameExists] and [IsFullnameExists]: a
    persisted user holds exactly that value in that field. *)
Definition IsEmailExists (st : Store) (email : string) : bool :=
  existsb (fun u => String.eqb (User.Email u) email) (users st).

(** Modelled from the spec: the probe on the username. *)
Definition IsUsernameExists (st : Store) (username : string) : bool :=
  existsb (fun u => String.eqb (User.Username u) username) (users st).

(** Modelled from the spec: the probe on the fullname. *)
Definition IsFullnameExists (st : Store) (fullname : string) : bool :=
  existsb (fun u => String.eqb (User.Fullname u) fullname) (users st).

(** Modelled from the spec: [InsertUser], the method [user.Insert]: the
    user is persisted pending, with a fresh verification token that is
    returned.  A store with unique constraints refuses a user whose
    username, email or fullname is already persisted. *)
Definition Insert (st : Store) (userIn : User.t) : option (Store * string) :=
  if uniqueIndexes st
     && (IsUsernameExists st (User.Username userIn)
         || IsEmailExists st (User.Email userIn)
         || IsFullnameExists st (User.Fullname userIn))
  then None
  else
    let token := generate "verify" (nonce st) in
    Some (tick (withUsers st (users st ++ [User.withToken userIn token])),
          token).

(** Modelled from the spec: an update of a persisted user in place; the
    first user called [username] is replaced by its image under [f]. *)
Fixpoint update (f : User.t -> User.t) (username : string)
         (l : list User.t) : option (list User.t) :=
  match l with
  | [] => None
  | u :: l' =>
      if String.eqb (User.Username u) username then Some (f u :: l')
      else option_map (cons u) (update f username l')
  end.

(** Modelled from the spec: the same on the store; [None] when no user has
    that username. *)
Definition save (st : Store) (f : User.t -> User.t) (username : string)
  : option Store :=
  option_map (withUsers st) (update f username (users st)).

(** Modelled from the spec: [user.AskReset], which issues a single-use
    reset token for the persisted user of that username and email. *)
Definition AskReset (st : Store) (userIn : User.t) : option (Store * string) :=
  match FindByUsername st (User.Username userIn) with
  | Some u =>
      if String.eqb (User.Email u) (User.Email userIn)
      then
        let token := generate "reset" (nonce st) in
        option_map (fun st' => (tick st', token))
          (save st (fun u => User.withToken u token) (User.Username u))
      else None
  | None => None
  end.

(** Modelled from the spec: [user.ConvertToSystem]: sets [IsSystem],
    regenerates and returns the password, records the converter. *)
Definition ConvertToSystem (st : Store) (user : User.t)
           (actingAdmin : string) (canWriteNotifications : bool)
  : option (Store * string) :=
  let password := generate "password" (nonce st) in
  option_map (fun st' => (tick st', password))
    (save st
       (fun u => User.withSystem u actingAdmin canWriteNotifications password)
       (User.Username user)).

(** Modelled from the spec: [user.ResetSystemUserPassword]: regenerates
    and returns the password, no other change. *)
Definition ResetSystemUserPassword (st : Store) (user : User.t)
  : option (Store * string) :=
  let password := generate "password" (nonce st) in
  option_map (fun st' => (tick st', password))
    (save st (fun u => User.withPassword u password) (User.Username user)).

(** Modelled from the spec: topics are identified by paths with the leading
    separator (section 3), routed paths come without it (section 4.2). *)
Definition rooted (path : string) : string :=
  match path with
  | String "/" _ => path
  | _ => "/" ++ path
  end.

(** Modelled from the spec: the sets of the data model (favorite topics,
    topics with notifications off) as duplicate-free lists. *)
Definition member (x : string) (l : list string) : bool :=
  existsb (String.eqb x) l.

Definition remove (x : string) (l : list string) : list string :=
  filter (fun y => negb (String.eqb x y)) l.

Definition add (x : string) (l : list string) : list string :=
  if member x l then l else l ++ [x].

(** Modelled from the spec: [user.AddFavoriteTopic]; the favorites are a
    set, adding a member again changes nothing. *)
Definition AddFavoriteTopic (st : Store) (user : User.t) (topic : string)
  : option Store :=
  save st
    (fun u => User.withFavoritesTopics u (add topic (User.FavoritesTopics u)))
    (User.Username user).

(** Modelled from the spec: [user.RemoveFavoriteTopic], a tolerant
    removal; the path is the routed one and gets its separator back. *)
Definition RemoveFavoriteTopic (st : Store) (user : User.t) (topic : string)
  : option Store :=
  save st
    (fun u => User.withFavoritesTopics u
                (remove (rooted topic) (User.FavoritesTopics u)))
    (User.Username user).

(** Modelled from the spec: [user.EnableNotificationsTopic]: the topic
    leaves the set of topics whose notifications are suppressed. *)
Definition EnableNotificationsTopic (st : Store) (user : User.t)
           (topic : string) : option Store :=
  save st
    (fun u => User.withOffNotificationsTopics u
                (remove topic (User.OffNotificationsTopics u)))
    (User.Username user).

(** Modelled from the spec: the text of an error the store returns
    (an internal error, section 7). *)
Definition failure : string := "store failure".

(** Modelled from the spec: [FindTopicByPath(path, flag)], the method
    [topic.FindByTopic]; [None] stands for its error, returned when no
    topic has that path.  Topics are identified by rooted paths and routed
    paths come without the leading separator, so the lookup restores it.
    The flag does not change whether the topic is found. *)
Definition FindByTopic (st : Store) (path : string) (flag : bool)
  : option Topic.t :=
  find (fun t => String.eqb (Topic.Topic t) (rooted path)) (topics st).

(** Modelled from the spec: [HasReadAccess(topic, user)], the method
    [topic.IsUserReadAccess]: membership of the user, or of one of the
    user's groups, in the topic's access lists. *)
Definition IsUserReadAccess (topic : Topic.t) (user : User.t) : bool :=
  member (User.Username user) (Topic.ROUsers topic ++ Topic.RWUsers topic)
  || existsb (fun g => member g (Topic.ROGroups topic ++ Topic.RWGroups topic))
       (User.Groups user).

(** Modelled from the spec: the path of a canonical private topic,
    [/Private/<username>[/<short name>]]. *)
Definition privateTopic (username shortName : string) : string :=
  match shortName with
  | EmptyString => "/Private/" ++ username
  | _ => "/Private/" ++ username ++ "/" ++ shortName
  end.

(** Modelled from the spec: [CreateTopic(path)] as [checkTopics] uses it,
    the method [user.CreatePrivateTopic(shortName)]: the private topic of
    that short name is created for its owner; creating a topic that exists
    is an error. *)
Definition CreatePrivateTopic (st : Store) (user : User.t)
           (shortName : string) : option Store :=
  let path := privateTopic (User.Username user) shortName in
  if existsb (fun t => String.eqb (Topic.Topic t) path) (topics st)
  then None
  else Some (withTopics st
               (topics st ++ [Topic.mk path [] [User.Username user] [] []])).

(** Modelled from the spec: how the query layer reads a criterion that
    holds a comma-joined list (section 9): the value is one of the
    comma-separated alternatives. *)
Definition oneOf (criterion value : string) : bool :=
  existsb (String.eqb value) (strings.Split criterion ",").

(** Modelled from the spec: an empty criterion, and the bounds of the time
    window ([DateMinPresence], [DateMaxPresence]) given as decimal
    timestamps. *)
Definition unset (criterion : string) : bool := String.eqb criterion "".

Definition since (criterion : string) (date : Z) : bool :=
  match strconv.Atoi criterion with
  | Some d => (d <=? date)%Z
  | None => true
  end.

Definition until (criterion : string) (date : Z) : bool :=
  match strconv.Atoi criterion with
  | Some d => (date <=? d)%Z
  | None => true
  end.

(** Modelled from the spec: the presence filter a criteria value denotes;
    an empty criterion does not constrain. *)
Definition selects (c : PresenceCriteria.t) (p : Presence.t) : bool :=
  (unset (PresenceCriteria.Topic c)
   || oneOf (PresenceCriteria.Topic c) (Presence.Topic p))
  && (unset (PresenceCriteria.Username c)
      || oneOf (PresenceCriteria.Username c) (Presence.Username p))
  && (unset (PresenceCriteria.Status c)
      || String.eqb (PresenceCriteria.Status c) (Presence.Status p))
  && (unset (PresenceCriteria.IDPresence c)
      || String.eqb (PresenceCriteria.IDPresence c) (Presence.ID p))
  && since (PresenceCriteria.DateMinPresence c) (Presence.DatePresence p)
  && until (PresenceCriteria.DateMaxPresence c) (Presence.DatePresence p).

(** Modelled from the spec: [ListPresences(filter) -> (count, records)]:
    the number of presences the filter selects and the page of them that
    [Skip] and [Limit] cut out. *)
Definition ListPresences (st : Store) (c : PresenceCriteria.t)
  : option (Z * list Presence.t) :=
  let selected := filter (selects c) (presences st) in
  Some (Z.of_nat (List.length selected),
        firstn (Z.to_nat (PresenceCriteria.Limit c))
               (skipn (Z.to_nat (PresenceCriteria.Skip c)) selected)).

(** Modelled from the spec: [user.ConvertToAdmin(actingAdmin)]: sets
    [IsAdmin]. *)
Definition ConvertToAdmin (st : Store) (user : User.t) (actingAdmin : string)
  : option Store :=
  save st User.withAdmin (User.Username user).

(** Modelled from the spec: [user.Archive(actingAdmin)]: sets
    [IsArchived]. *)
Definition Archive (st : Store) (user : User.t) (actingAdmin : string)
  : option Store :=
  save st User.withArchived (User.Username user).

(** Modelled from the spec: [user.DisableNotificationsTopic]: the topic
    joins the set of topics whose notifications are suppressed; the path is
    the routed one and gets its separator back. *)
Definition DisableNotificationsTopic (st : Store) (user : User.t)
           (topic : string) : option Store :=
  save st
    (fun u => User.withOffNotificationsTopics u
                (add (rooted topic) (User.OffNotificationsTopics u)))
    (User.Username user).

(** Modelled from the spec: [user.AddFavoriteTag] and
    [user.RemoveFavoriteTag] on the set of favorite tags. *)
Definition AddFavoriteTag (st : Store) (user : User.t) (tag : string)
  : option Store :=
  save st
    (fun u => User.withFavoritesTags u (add tag (User.FavoritesTags u)))
    (User.Username user).

Definition RemoveFavoriteTag (st : Store) (user : User.t) (tag : string)
  : option Store :=
  save st
    (fun u => User.withFavoritesTags u (remove tag (User.FavoritesTags u)))
    (User.Username user).

(** Modelled from the spec: [ResolveGroups(user)], the method
    [user.GetGroupsOnlyName]: the names of the groups of the persisted
    user. *)
Definition GetGroupsOnlyName (st : Store) (user : User.t)
  : option (list string) :=
  option_map User.Groups (FindByUsername st (User.Username user)).

(** Modelled from the spec: [AddUserToGroup], the method
    [user.AddDefaultGroup]: the user joins the configured default group. *)
Definition AddDefaultGroup (st : Store) (user : User.t) (defaultGroup : string)
  : option Store :=
  save st
    (fun u => User.withGroups u (add defaultGroup (User.Groups u)))
    (User.Username user).

End models.

(** ** The request context, the configuration and the replies *)

Module http.
Definition StatusOK : Z := 200.
Definition StatusCreated : Z := 201.
Definition StatusBadRequest : Z := 400.
Definition StatusForbidden : Z := 403.
Definition StatusInternalServerError : Z := 500.
End http.

Module gin.

(** What a handler reads from [*gin.Context]: the authenticated user
    ([utils.GetCtxUsername]), the routed parameters and the query string,
    both in request order. *)
Record Context := mkContext {
  CtxUsername : string;
  Params : list (string * string);
  Values : list (string * string)
}.

Definition lookup (key : string) (l : list (string * string)) : option string :=
  option_map snd (find (fun kv => String.eqb (fst kv) key) l).

(** [ctx.GetQuery(key)]: the first value of the key, if the key occurs. *)
Definition GetQuery (ctx : Context) (key : string) : option string :=
  lookup key (Values ctx).

(** [ctx.DefaultQuery(key, defaultValue)]. *)
Definition DefaultQuery (ctx : Context) (key defaultValue : string) : string :=
  match GetQuery ctx key with
  | Some value => value
  | None => defaultValue
  end.

(** [ctx.Query(key)]. *)
Definition Query (ctx : Context) (key : string) : string :=
  DefaultQuery ctx key "".

(** The JSON values the handlers reply with: a [gin.H] object of strings
    (fields in source order), a bare string, and [presencesJSON]. *)
Inductive Body :=
| H (fields : list (string * string))
| Text (s : string)
| presencesJSON (Count : Z) (Presences : list models.Presence.t).

(** How a handler ends: [ctx.JSON], [ctx.AbortWithError], the package's
    helper [AbortWithReturnError] (abort, and reply with the error), or
    the reply [GetParam] writes itself when a routed parameter is
    missing. *)
Inductive Response :=
| JSON (code : Z) (obj : Body)
| AbortWithError (code : Z) (err : string)
| AbortWithReturnError (code : Z) (err : string)
| ParamMissing (name : string).

End gin.

Module viper.
(** The configuration keys the controllers read. *)
Record Config := mkConfig {
  username_from_email : bool;
  allowed_domains : string;
  default_group : string;
  exposed_scheme : string;
  exposed_host : string;
  exposed_port : string;
  exposed_path : string
}.
End viper.

(** A detached call ([go f(...)]): started, never waited for. *)
Inductive Effect :=
| SendVerifyEmail (username email token callback : string)
| SendAskResetEmail (username email token callback : string)
| WSUser (action username : string).

(** What running a handler leaves behind. *)
Record Result := mkResult {
  response : gin.Response;
  store : models.Store;
  spawned : list Effect
}.

(** The handler returns after writing [r], the store untouched. *)
Definition reply (st : models.Store) (r : gin.Response) : Result :=
  mkResult r st [].

(** Modelled from the spec: [GetParam(ctx, name)], a helper of the package
    outside these files (parameter binding, section 1): the value of the
    routed parameter, or the helper's own reply when the route has none. *)
Definition GetParam (ctx : gin.Context) (name : string) : gin.Response + string :=
  match gin.lookup name (gin.Params ctx) with
  | Some value => inr value
  | None => inl (gin.ParamMissing name)
  end.

(** Modelled from the spec: [PreCheckUser(ctx)], a helper of the package
    outside these files, which resolves the requesting user; it is the
    package-level twin of [PresencesController.preCheckUser] below. *)
Definition PreCheckUser (ctx : gin.Context) (st : models.Store)
  : gin.Response + models.User.t :=
  match models.FindByUsername st (gin.CtxUsername ctx) with
  | None => inl (gin.AbortWithError http.StatusInternalServerError
                   "Error while fetching user.")
  | Some user => inr user
  end.

(** ** controllers/presences.go *)

Module PresencesController.

Import models.

Definition buildCriteria (ctx : gin.Context) : PresenceCriteria.t :=
  let skip :=
    match strconv.Atoi (gin.DefaultQuery ctx "skip" "0") with
    | Some skip => skip
    | None => 0%Z
    end in
  let limit :=
    match strconv.Atoi (gin.DefaultQuery ctx "limit" "100") with
    | Some limit => limit
    | None => 10%Z
    end in
  PresenceCriteria.mk skip limit
    (gin.Query ctx "idPresence") (gin.Query ctx "status") ""
    (gin.Query ctx "username")
    (gin.Query ctx "dateMinPresence") (gin.Query ctx "dateMaxPresence").

Definition preCheckUser (ctx : gin.Context) (st : Store)
  : gin.Response + User.t :=
  match FindByUsername st (gin.CtxUsername ctx) with
  | None => inl (gin.AbortWithError http.StatusInternalServerError
                   "Error while fetching user.")
  | Some user => inr user
  end.

(** Lines 84-86: the leading separator is put back. *)
Definition normalize (topic : string) : string :=
  match topic with
  | EmptyString => topic
  | String "/" _ => topic
  | _ => "/" ++ topic
  end.

(** Lines 100-109: the query and the reply. *)
Definition query (st : Store) (criteria : PresenceCriteria.t) : Result :=
  match ListPresences st criteria with
  | None => reply st (gin.AbortWithError http.StatusInternalServerError failure)
  | Some (count, presences) =>
      reply st (gin.JSON http.StatusOK (gin.presencesJSON count presences))
  end.

Definition listWithCriteria (ctx : gin.Context)
           (criteria : PresenceCriteria.t) (st : Store) : Result :=
  match preCheckUser ctx st with
  | inl aborted => reply st aborted
  | inr user =>
    match FindByTopic st (PresenceCriteria.Topic criteria) true with
    | None =>
        reply st (gin.AbortWithError http.StatusBadRequest
                    ("topic " ++ PresenceCriteria.Topic criteria
                     ++ " does not exist"))
    | Some topic =>
      if negb (IsUserReadAccess topic user)
      then reply st (gin.AbortWithError http.StatusForbidden
                       "No Read Access to this topic.")
      else
        let criteria :=
          PresenceCriteria.withTopic criteria
            (normalize (PresenceCriteria.Topic criteria)) in
        let topicDM := "/Private/" ++ gin.CtxUsername ctx ++ "/DM/" in
        if strings.HasPrefix (PresenceCriteria.Topic criteria) topicDM
        then
          let part := strings.Split (PresenceCriteria.Topic criteria) "/" in
          if negb (List.length part =? 5)%nat
          then reply st (gin.AbortWithError http.StatusInternalServerError
                           ("Wrong topic name for DM:"
                            ++ PresenceCriteria.Topic criteria))
          else
            let topicInverse :=
              "/Private/" ++ nth 4 part "" ++ "/DM/" ++ gin.CtxUsername ctx in
            query st (PresenceCriteria.withTopic criteria
                       (PresenceCriteria.Topic criteria ++ ","
                        ++ topicInverse))
        else query st criteria
    end
  end.

(** [List]: the routed topic goes into the criteria built from the query. *)
Definition List (ctx : gin.Context) (st : Store) : Result :=
  match GetParam ctx "topic" with
  | inl written => reply st written
  | inr topicIn =>
      listWithCriteria ctx
        (PresenceCriteria.withTopic (buildCriteria ctx) topicIn) st
  end.

End PresencesController.

(** ** controllers/users.go *)

Module UsersController.

Definition buildCriteria (ctx : gin.Context) : models.UserCriteria.t :=
  let skip :=
    match strconv.Atoi (gin.DefaultQuery ctx "skip" "0") with
    | Some skip => skip
    | None => 0%Z
    end in
  let limit :=
    match strconv.Atoi (gin.DefaultQuery ctx "limit" "100") with
    | Some limit => limit
    | None => 100%Z
    end in
  let withGroups :=
    match strconv.ParseBool (gin.DefaultQuery ctx "withGroups" "false") with
    | Some withGroups => withGroups
    | None => false
    end in
  models.UserCriteria.mk skip limit withGroups
    (gin.Query ctx "idUser") (gin.Query ctx "username")
    (gin.Query ctx "fullname")
    (gin.Query ctx "dateMinCreation") (gin.Query ctx "dateMaxCreation").

Module userCreateJSON.
Record t := mk {
  Username : string;
  Fullname : string;
  Email : string;
  Callback : string
}.
End userCreateJSON.

Definition checkAllowedDomains (cfg : viper.Config) (userJSON : userCreateJSON.t)
  : option string :=
  if negb (String.eqb (viper.allowed_domains cfg) "")
  then
    let allowedDomains := strings.Split (viper.allowed_domains cfg) "," in
    if existsb
         (fun domain =>
            strings.HasSuffix (userCreateJSON.Email userJSON) ("@" ++ domain))
         allowedDomains
    then None
    else Some "Your email domain is not allowed on this instance of Tat."
  else None.

Definition computeUsername (cfg : viper.Config) (userJSON : userCreateJSON.t)
  : string :=
  if viper.username_from_email cfg
  then
    match strings.IndexByte (userCreateJSON.Email userJSON) "@" with
    | Some i =>
        if (0 <? i)%nat
        then String.substring 0 i (userCreateJSON.Email userJSON)
        else userCreateJSON.Username userJSON
    | None => userCreateJSON.Username userJSON
    end
  else userCreateJSON.Username userJSON.

Definition Create (cfg : viper.Config) (userJSON : userCreateJSON.t)
           (st : models.Store) : Result :=
  let userIn :=
    models.User.withIdentity models.User.zero
      (computeUsername cfg userJSON)
      (strings.TrimSpace (userCreateJSON.Fullname userJSON))
      (strings.TrimSpace (userCreateJSON.Email userJSON)) in
  let callback := strings.TrimSpace (userCreateJSON.Callback userJSON) in
  if (String.length (models.User.Username userIn) <? 3)%nat
     || (String.length (models.User.Fullname userIn) <? 3)%nat
     || (String.length (models.User.Email userIn) <? 7)%nat
  then
    reply st (gin.AbortWithReturnError http.StatusInternalServerError
                ("Invalid username (" ++ models.User.Username userIn
                 ++ ") or fullname (" ++ models.User.Fullname userIn
                 ++ ") or email (" ++ models.User.Email userIn ++ ")"))
  else
    match checkAllowedDomains cfg userJSON with
    | Some err =>
        reply st (gin.JSON http.StatusForbidden (gin.H [("error", err)]))
    | None =>
      if models.IsEmailExists st (userCreateJSON.Email userJSON)
         || models.IsUsernameExists st (userCreateJSON.Username userJSON)
         || models.IsFullnameExists st (userCreateJSON.Fullname userJSON)
      then
        reply st (gin.AbortWithReturnError http.StatusBadRequest
                    "Please check your username, email or fullname. If you are already registered, please reset your password")
      else
        match models.Insert st userIn with
        | None =>
            reply st (gin.AbortWithError http.StatusInternalServerError
                        models.failure)
        | Some (st', tokenVerify) =>
            let info :=
              if viper.username_from_email cfg
              then " Note that configuration of Tat forced your username to "
                   ++ models.User.Username userIn
              else "" in
            mkResult
              (gin.JSON http.StatusCreated
                 (gin.H [("info",
                          "please check your mail to validate your account."
                          ++ info)]))
              st'
              [SendVerifyEmail (models.User.Username userIn)
                 (models.User.Email userIn) tokenVerify callback;
               WSUser "create" (models.User.Username userIn)]
        end
    end.

Module userResetJSON.
Record t := mk {
  Username : string;
  Email : string;
  Callback : string
}.
End userResetJSON.

Definition Reset (userJSON : userResetJSON.t) (st : models.Store) : Result :=
  let userIn :=
    models.User.withIdentity models.User.zero
      (strings.TrimSpace (userResetJSON.Username userJSON))
      ""
      (strings.TrimSpace (userResetJSON.Email userJSON)) in
  let callback := strings.TrimSpace (userResetJSON.Callback userJSON) in
  if (String.length (models.User.Username userIn) <? 3)%nat
     || (String.length (models.User.Email userIn) <? 7)%nat
  then
    reply st (gin.AbortWithReturnError http.StatusInternalServerError
                ("Invalid username (" ++ models.User.Username userIn
                 ++ ") or email (" ++ models.User.Email userIn ++ ")"))
  else
    match models.AskReset st userIn with
    | None =>
        reply st (gin.AbortWithError http.StatusInternalServerError
                    models.failure)
    | Some (st', tokenVerify) =>
        mkResult
          (gin.JSON http.StatusCreated
             (gin.H [("info",
                      "please check your mail to validate your account")]))
          st'
          [SendAskResetEmail (models.User.Username userIn)
             (models.User.Email userIn) tokenVerify callback]
    end.

Definition AddFavoriteTopic (ctx : gin.Context) (st : models.Store) : Result :=
  match GetParam ctx "topic" with
  | inl written => reply st written
  | inr topicIn =>
    match PreCheckUser ctx st with
    | inl aborted => reply st aborted
    | inr user =>
      match models.FindByTopic st topicIn true with
      | None =>
          reply st (gin.AbortWithReturnError http.StatusBadRequest
                      ("topic " ++ topicIn ++ " does not exist"))
      | Some topic =>
        if negb (models.IsUserReadAccess topic user)
        then reply st (gin.AbortWithReturnError http.StatusForbidden
                         "No Read Access to this topic")
        else
          match models.AddFavoriteTopic st user (models.Topic.Topic topic) with
          | None =>
              reply st (gin.AbortWithReturnError
                          http.StatusInternalServerError
                          ("Error while add favorite topic to user:"
                           ++ models.User.Username user))
          | Some st' =>
              mkResult
                (gin.JSON http.StatusCreated
                   (gin.H [("info", "Topic " ++ models.Topic.Topic topic
                                    ++ " added to favorites")]))
                st' []
          end
      end
    end
  end.

Definition RemoveFavoriteTopic (ctx : gin.Context) (st : models.Store)
  : Result :=
  match GetParam ctx "topic" with
  | inl written => reply st written
  | inr topicIn =>
    match PreCheckUser ctx st with
    | inl aborted => reply st aborted
    | inr user =>
      match models.RemoveFavoriteTopic st user topicIn with
      | None =>
          reply st (gin.JSON http.StatusInternalServerError
                      (gin.H [("error",
                               "Error while remove favorite topic " ++ topicIn
                               ++ " to user:" ++ models.User.Username user
                               ++ " err:" ++ models.failure)]))
      | Some st' =>
          mkResult
            (gin.JSON http.StatusOK
               (gin.H [("info", "Topic " ++ topicIn
                                ++ " removed from favorites")]))
            st' []
      end
    end
  end.

Definition EnableNotificationsTopic (ctx : gin.Context) (st : models.Store)
  : Result :=
  match GetParam ctx "topic" with
  | inl written => reply st written
  | inr topicIn =>
    match PreCheckUser ctx st with
    | inl aborted => reply st aborted
    | inr user =>
      match models.FindByTopic st topicIn true with
      | None =>
          reply st (gin.AbortWithReturnError http.StatusBadRequest
                      ("topic " ++ topicIn ++ " does not exist"))
      | Some topic =>
        if negb (models.IsUserReadAccess topic user)
        then reply st (gin.AbortWithReturnError http.StatusForbidden
                         "No Read Access to this topic")
        else
          match models.EnableNotificationsTopic st user
                  (models.Topic.Topic topic) with
          | None =>
              reply st (gin.AbortWithReturnError
                          http.StatusInternalServerError
                          ("Error while enable notication on topic "
                           ++ models.Topic.Topic topic ++ " to user:"
                           ++ models.User.Username user))
          | Some st' =>
              mkResult
                (gin.JSON http.StatusCreated
                   (gin.H [("info", "Notications enabled on Topic "
                                    ++ models.Topic.Topic topic)]))
                st' []
          end
      end
    end
  end.

Definition exposedURL (cfg : viper.Config) : string :=
  viper.exposed_scheme cfg ++ "://" ++ viper.exposed_host cfg ++ ":"
  ++ viper.exposed_port cfg ++ viper.exposed_path cfg.

Module convertUserJSON.
Record t := mk {
  Username : string;
  CanWriteNotifications : bool
}.
End convertUserJSON.

Definition Convert (cfg : viper.Config) (ctx : gin.Context)
           (convertJSON : convertUserJSON.t) (st : models.Store) : Result :=
  let username := convertUserJSON.Username convertJSON in
  if negb (strings.HasPrefix username "tat.system")
  then
    reply st (gin.AbortWithReturnError http.StatusBadRequest
                ("Username does not begin with tat.system (" ++ username
                 ++ "), it's not possible to convert this user"))
  else
    match models.FindByUsername st username with
    | None =>
        reply st (gin.AbortWithReturnError http.StatusBadRequest
                    ("user with username " ++ username ++ " does not exist"))
    | Some userToConvert =>
      if models.User.IsSystem userToConvert
      then
        reply st (gin.AbortWithReturnError http.StatusBadRequest
                    ("user with username " ++ username
                     ++ " is already a system user"))
      else
        match models.ConvertToSystem st userToConvert (gin.CtxUsername ctx)
                (convertUserJSON.CanWriteNotifications convertJSON) with
        | None =>
            reply st (gin.AbortWithReturnError http.StatusBadRequest
                        ("Convert " ++ username ++ " to system user failed"))
        | Some (st', newPassword) =>
            mkResult
              (gin.JSON http.StatusOK
                 (gin.H [("message", "Verification successfull");
                         ("username", models.User.Username userToConvert);
                         ("password", newPassword);
                         ("url", exposedURL cfg)]))
              st' []
        end
    end.

Module resetSystemUserJSON.
Record t := mk { Username : string }.
End resetSystemUserJSON.

Definition ResetSystemUser (cfg : viper.Config)
           (systemUserJSON : resetSystemUserJSON.t) (st : models.Store)
  : Result :=
  let username := resetSystemUserJSON.Username systemUserJSON in
  if negb (strings.HasPrefix username "tat.system")
  then
    reply st (gin.AbortWithReturnError http.StatusBadRequest
                ("Username does not begin with tat.system (" ++ username
                 ++ "), it's not possible to reset password for this user"))
  else
    match models.FindByUsername st username with
    | None =>
        reply st (gin.AbortWithReturnError http.StatusBadRequest
                    ("user with username " ++ username ++ " does not exist"))
    | Some systemUserToReset =>
      if negb (models.User.IsSystem systemUserToReset)
      then
        reply st (gin.AbortWithReturnError http.StatusBadRequest
                    ("user with username " ++ username
                     ++ " is not a system user"))
      else
        match models.ResetSystemUserPassword st systemUserToReset with
        | None =>
            reply st (gin.AbortWithReturnError http.StatusBadRequest
                        ("Reset password for " ++ username
                         ++ " (system user) failed"))
        | Some (st', newPassword) =>
            mkResult
              (gin.JSON http.StatusOK
                 (gin.H [("message", "Reset password successfull");
                         ("username", models.User.Username systemUserToReset);
                         ("password", newPassword);
                         ("url", exposedURL cfg)]))
              st' []
        end
    end.

Definition topicNames : list string :=
  [""; "Tasks"; "Bookmarks"; "Notifications"].

(** The path [checkTopics] formats for a short name (lines 709-712). *)
Definition topicName (userToCheck : models.User.t) (shortName : string)
  : string :=
  let topicName := "/Private/" ++ models.User.Username userToCheck in
  if negb (String.eqb shortName "")
  then topicName ++ "/" ++ shortName
  else topicName.

(** One turn of the loop of [checkTopics], on the text gathered so far and
    the store. *)
Definition checkTopic (fixTopics : bool) (userToCheck : models.User.t)
           (state : string * models.Store) (shortName : string)
  : string * models.Store :=
  let (topicsInfo, st) := state in
  let topicName := topicName userToCheck shortName in
  match models.FindByTopic st topicName false with
  | None =>
      let topicsInfo := topicsInfo ++ " " ++ topicName ++ " KO : not exist; " in
      if fixTopics
      then
        match models.CreatePrivateTopic st userToCheck shortName with
        | None =>
            (topicsInfo ++ " Error while creating " ++ topicName ++ "; ", st)
        | Some st' =>
            (topicsInfo ++ " " ++ topicName ++ " created; ", st')
        end
      else (topicsInfo, st)
  | Some _ => (topicsInfo ++ " " ++ topicName ++ " OK; ", st)
  end.

Definition checkTopics (fixTopics : bool) (userToCheck : models.User.t)
           (st : models.Store) : string * models.Store :=
  fold_left (checkTopic fixTopics userToCheck) topicNames ("", st).

(** [DisableNotificationsTopic] (lines 397-414). *)
Definition DisableNotificationsTopic (ctx : gin.Context) (st : models.Store)
  : Result :=
  match GetParam ctx "topic" with
  | inl written => reply st written
  | inr topicIn =>
    match PreCheckUser ctx st with
    | inl aborted => reply st aborted
    | inr user =>
      match models.DisableNotificationsTopic st user topicIn with
      | None =>
          reply st (gin.JSON http.StatusInternalServerError
                      (gin.H [("error",
                               "Error while disable notications on topic "
                               ++ topicIn ++ " to user:"
                               ++ models.User.Username user
                               ++ " err:" ++ models.failure)]))
      | Some st' =>
          mkResult
            (gin.JSON http.StatusOK
               (gin.H [("info", "Notications disabled on topic " ++ topicIn)]))
            st' []
      end
    end
  end.

(** [AddFavoriteTag] (lines 417-433). *)
Definition AddFavoriteTag (ctx : gin.Context) (st : models.Store) : Result :=
  match GetParam ctx "tag" with
  | inl written => reply st written
  | inr tagIn =>
    match PreCheckUser ctx st with
    | inl aborted => reply st aborted
    | inr user =>
      match models.AddFavoriteTag st user tagIn with
      | None =>
          reply st (gin.AbortWithReturnError http.StatusInternalServerError
                      ("Error while add favorite tag to user:"
                       ++ models.User.Username user))
      | Some st' => mkResult (gin.JSON http.StatusCreated (gin.Text "")) st' []
      end
    end
  end.

(** [RemoveFavoriteTag] (lines 436-452). *)
Definition RemoveFavoriteTag (ctx : gin.Context) (st : models.Store) : Result :=
  match GetParam ctx "tag" with
  | inl written => reply st written
  | inr tagIn =>
    match PreCheckUser ctx st with
    | inl aborted => reply st aborted
    | inr user =>
      match models.RemoveFavoriteTag st user tagIn with
      | None =>
          reply st (gin.AbortWithReturnError http.StatusInternalServerError
                      ("Error while remove favorite tag to user:"
                       ++ models.User.Username user))
      | Some st' => mkResult (gin.JSON http.StatusOK (gin.Text "")) st' []
      end
    end
  end.

(** [SetAdmin] (lines 536-559); it binds a [convertUserJSON] and reads its
    username only. *)
Definition SetAdmin (ctx : gin.Context) (convertJSON : convertUserJSON.t)
           (st : models.Store) : Result :=
  let username := convertUserJSON.Username convertJSON in
  match models.FindByUsername st username with
  | None =>
      reply st (gin.AbortWithReturnError http.StatusBadRequest
                  ("user with username " ++ username ++ " does not exist"))
  | Some userToGrant =>
    if models.User.IsAdmin userToGrant
    then
      reply st (gin.AbortWithReturnError http.StatusBadRequest
                  ("user with username " ++ username
                   ++ " is already an admin user"))
    else
      match models.ConvertToAdmin st userToGrant (gin.CtxUsername ctx) with
      | None =>
          reply st (gin.AbortWithReturnError http.StatusBadRequest
                      ("Convert " ++ username ++ " to admin user failed"))
      | Some st' => mkResult (gin.JSON http.StatusCreated (gin.Text "")) st' []
      end
  end.

Module usernameUserJSON.
Record t := mk { Username : string }.
End usernameUserJSON.

(** [Archive] (lines 566-589). *)
Definition Archive (ctx : gin.Context) (archiveJSON : usernameUserJSON.t)
           (st : models.Store) : Result :=
  let username := usernameUserJSON.Username archiveJSON in
  match models.FindByUsername st username with
  | None =>
      reply st (gin.AbortWithReturnError http.StatusBadRequest
                  ("user with username " ++ username ++ " does not exist"))
  | Some userToArchive =>
    if models.User.IsArchived userToArchive
    then
      reply st (gin.AbortWithReturnError http.StatusBadRequest
                  ("user with username " ++ username ++ " is already archived"))
    else
      match models.Archive st userToArchive (gin.CtxUsername ctx) with
      | None =>
          reply st (gin.AbortWithReturnError http.StatusBadRequest
                      ("archive user " ++ username ++ " failed"))
      | Some st' => mkResult (gin.JSON http.StatusCreated (gin.Text "")) st' []
      end
  end.

(** [checkDefaultGroup] (lines 675-703): the text it returns and the store
    it leaves. *)
Definition checkDefaultGroup (cfg : viper.Config) (fixDefaultGroup : bool)
           (userToCheck : models.User.t) (st : models.Store)
  : string * models.Store :=
  match models.GetGroupsOnlyName st userToCheck with
  | None => ("Error while fetching user groups", st)
  | Some userGroups =>
    if existsb (fun g => String.eqb g (viper.default_group cfg)) userGroups
    then ("user in " ++ viper.default_group cfg ++ " OK", st)
    else
      if fixDefaultGroup
      then
        match models.AddDefaultGroup st userToCheck (viper.default_group cfg) with
        | None => (models.failure, st)
        | Some st' =>
            ("user added in default group " ++ viper.default_group cfg, st')
        end
      else ("user in default group " ++ viper.default_group cfg ++ " KO", st)
  end.

End UsersController.

(** ** Reading the report of [checkTopics] *)

Module CheckReport.

(** Whether a lookup of the path finds a topic. *)
Definition present (st : models.Store) (path : string) : bool :=
  match models.FindByTopic st path false with
  | Some _ => true
  | None => false
  end.

(** How many topics of the store have that path. *)
Definition count (st : models.Store) (path : string) : nat :=
  List.length
    (filter (fun t => String.eqb (models.Topic.Topic t) path)
            (models.topics st)).

(** What the loop writes for one topic, given whether it was found and
    whether missing topics are to be created (creation going well). *)
Definition entry (fixTopics found : bool) (topicName : string) : string :=
  if found then " " ++ topicName ++ " OK; "
  else if fixTopics
       then (" " ++ topicName ++ " KO : not exist; ")
            ++ " " ++ topicName ++ " created; "
       else " " ++ topicName ++ " KO : not exist; ".

Definition report (entries : list string) : string :=
  fold_right String.append "" entries.

(** The store after one turn of the loop on [shortName]. *)
Definition settle (fixTopics : bool) (user : models.User.t)
           (st : models.Store) (shortName : string) : models.Store :=
  let topicName := UsersController.topicName user shortName in
  if present st topicName then st
  else if fixTopics
       then models.withTopics st
              (models.topics st
               ++ [models.Topic.mk topicName []
                     [models.User.Username user] [] []])
       else st.

(** The four canonical private topics of a user, in the order of the
    loop. *)
Definition canonical (user : models.User.t) : list string :=
  map (UsersController.topicName user) UsersController.topicNames.

(** A topic a fixing pass adds for [user]: canonical and missing in [st]. *)
Definition fresh (user : models.User.t) (st : models.Store)
           (t : models.Topic.t) : Prop :=
  exists shortName,
    In shortName UsersController.topicNames
    /\ models.Topic.Topic t = UsersController.topicName user shortName
    /\ present st (UsersController.topicName user shortName) = false.

End CheckReport.

(** ** Reading the presence filter *)

Module Visibility.

(** The checks of lines 66-81 of [listWithCriteria] all pass: the
    requesting user is persisted, the topic of the criteria exists and the
    user may read it. *)
Definition cleared (ctx : gin.Context) (criteria : models.PresenceCriteria.t)
           (st : models.Store) (user : models.User.t) (topic : models.Topic.t)
  : Prop :=
  models.FindByUsername st (gin.CtxUsername ctx) = Some user
  /\ models.FindByTopic st (models.PresenceCriteria.Topic criteria) true
     = Some topic
  /\ models.IsUserReadAccess topic user = true.

(** The DM topic of [username] with [peer]; the mirror path is the DM
    topic of [peer] with [username]. *)
Definition dm (username peer : string) : string :=
  "/Private/" ++ username ++ "/DM/" ++ peer.

(** The criteria other than the topic. *)
Definition others (criteria : models.PresenceCriteria.t)
           (p : models.Presence.t) : bool :=
  models.selects (models.PresenceCriteria.withTopic criteria "") p.

(** The presence is on one of the two topics. *)
Definition onEither (a b : string) (p : models.Presence.t) : bool :=
  String.eqb (models.Presence.Topic p) a
  || String.eqb (models.Presence.Topic p) b.

End Visibility.

(** ** Reading [Create] *)

Module Registration.

(** The user [Create] hands to [Insert] (lines 79-82). *)
Definition userIn (cfg : viper.Config) (userJSON : UsersController.userCreateJSON.t)
  : models.User.t :=
  models.User.withIdentity models.User.zero
    (UsersController.computeUsername cfg userJSON)
    (strings.TrimSpace (UsersController.userCreateJSON.Fullname userJSON))
    (strings.TrimSpace (UsersController.userCreateJSON.Email userJSON)).

(** The three uniqueness probes as line 97 calls them. *)
Definition probes (st : models.Store) (userJSON : UsersController.userCreateJSON.t)
  : bool :=
  models.IsEmailExists st (UsersController.userCreateJSON.Email userJSON)
  || models.IsUsernameExists st (UsersController.userCreateJSON.Username userJSON)
  || models.IsFullnameExists st (UsersController.userCreateJSON.Fullname userJSON).

(** The length check of line 85 rejects. *)
Definition short (user : models.User.t) : bool :=
  (String.length (models.User.Username user) <? 3)%nat
  || (String.length (models.User.Fullname user) <? 3)%nat
  || (String.length (models.User.Email user) <? 7)%nat.

(** The rejection of line 99, the conflict of the spec's taxonomy. *)
Definition conflict : gin.Response :=
  gin.AbortWithReturnError http.StatusBadRequest
    "Please check your username, email or fullname. If you are already registered, please reset your password".

(** The rejection of line 87. *)
Definition invalid (user : models.User.t) : gin.Response :=
  gin.AbortWithReturnError http.StatusInternalServerError
    ("Invalid username (" ++ models.User.Username user
     ++ ") or fullname (" ++ models.User.Fullname user
     ++ ") or email (" ++ models.User.Email user ++ ")").

(** The reply of line 117. *)
Definition created (cfg : viper.Config) (user : models.User.t) : gin.Response :=
  gin.JSON http.StatusCreated
    (gin.H [("info",
             "please check your mail to validate your account."
             ++ (if viper.username_from_email cfg
                 then " Note that configuration of Tat forced your username to "
                      ++ models.User.Username user
                 else ""))]).

End Registration.

(** ** Sample requests and stores *)

Module Sample.

Definition badLimit : gin.Context :=
  gin.mkContext "alice" [("topic", "Private/alice")] [("limit", "ten")].

Definition cfg : viper.Config :=
  viper.mkConfig false "" "Everyone" "https" "tat.example.org" "443" "/tat".

(** The same instance with the username-from-email policy on. *)
Definition cfgFromEmail : viper.Config :=
  viper.mkConfig true "" "Everyone" "https" "tat.example.org" "443" "/tat".

Definition person (username fullname email : string) : models.User.t :=
  models.User.withIdentity models.User.zero username fullname email.

(** A system user whose name lacks the reserved prefix. *)
Definition robot : models.User.t :=
  models.User.withSystem (person "robot" "Robot" "robot@example.org")
    "root" false "old".

Definition admin : gin.Context := gin.mkContext "root" [] [].

Definition systemStore : models.Store :=
  models.mkStore
    [robot; person "tat.system.bob" "Bob Bot" "bot@example.org"] [] [] 7 false.

Definition alice : models.User.t :=
  person "alice" "Alice Liddell" "alice@example.org".

Definition bob : models.User.t := person "bob" "Bob Hope" "bob@example.org".

(** A topic alice may read and one she may not. *)
Definition open_ : models.Topic.t :=
  models.Topic.mk "/Internal/News" ["alice"] [] [] [].

Definition closed : models.Topic.t :=
  models.Topic.mk "/Internal/Board" [] ["bob"] [] [].

Definition topicStore : models.Store :=
  models.mkStore
    [models.User.withFavoritesTopics alice ["/Internal/Board"]; bob]
    [open_; closed] [] 0 false.

Definition onTopic (username topic : string) : gin.Context :=
  gin.mkContext username [("topic", topic)] [].

Definition carol : models.User.t :=
  person "carol" "Carol Danvers" "carol@example.org".

(** Carol is persisted and has none of her private topics. *)
Definition bareStore : models.Store :=
  models.mkStore [carol] [] [] 0 false.

Definition own (path owner : string) : models.Topic.t :=
  models.Topic.mk path [] [owner] [] [].

Definition seen (id username topic : string) (date : Z) : models.Presence.t :=
  models.Presence.mk id "online" topic username date.

(** Alice and bob each have their side of the DM topic and a presence on
    it; alice also owns two ill-named topics under her DM prefix; mallory
    has a presence on a topic called [x]. *)
Definition dmStore : models.Store :=
  models.mkStore
    [alice; bob]
    [own "/Private/alice/DM/bob" "alice"; own "/Private/bob/DM/alice" "bob";
     own "/Private/alice/DM/bob/extra" "alice";
     own "/Private/alice/DM/bob,x" "alice"]
    [seen "p1" "alice" "/Private/alice/DM/bob" 10;
     seen "p2" "bob" "/Private/bob/DM/alice" 11;
     seen "p3" "alice" "/Private/alice/DM/bob,x" 12;
     seen "p4" "mallory" "x" 13;
     seen "p5" "carol" "/Private/carol" 14]
    0 false.

Definition window (topic : string) : models.PresenceCriteria.t :=
  models.PresenceCriteria.mk 0 100 "" "" topic "" "" "".

Definition emptyStore (uniqueIndexes : bool) : models.Store :=
  models.mkStore [] [] [] 0 uniqueIndexes.

(** Two registrations with the same email, written with a leading
    blank. *)
Definition bob1 : UsersController.userCreateJSON.t :=
  UsersController.userCreateJSON.mk "bob1" "Bob One" " bob@example.org" "".

Definition bob2 : UsersController.userCreateJSON.t :=
  UsersController.userCreateJSON.mk "bob2" "Bob Two" " bob@example.org" "".

(** A registration whose username is two letters and a blank. *)
Definition padded : UsersController.userCreateJSON.t :=
  UsersController.userCreateJSON.mk "ab " "Alice Liddell" "alice@example.org" "".

(** A registration with blanks around every field. *)
Definition blanks : UsersController.userCreateJSON.t :=
  UsersController.userCreateJSON.mk "dave" " Dave Bowman " " dave@example.org " "".

(** An instance that admits two mail domains. *)
Definition cfgDomains : viper.Config :=
  viper.mkConfig false "example.org,example.net" "Everyone" "https"
    "tat.example.org" "443" "/tat".

Definition erin : UsersController.userCreateJSON.t :=
  UsersController.userCreateJSON.mk "erin" "Erin Brockovich" "erin@example.net" "".

(** Carol before and after joining the default group. *)
Definition groupStore : models.Store :=
  models.mkStore [carol; models.User.withGroups bob ["Everyone"]] [] [] 0 false.

(** Alice asks for a reset, her name and address padded with blanks. *)
Definition forgot : UsersController.userResetJSON.t :=
  UsersController.userResetJSON.mk " alice " "alice@example.org  " "".

Definition tagged : gin.Context := gin.mkContext "alice" [("tag", "urgent")] [].

(** A registration under a username that holds a comma. *)
Definition bobx : UsersController.userCreateJSON.t :=
  UsersController.userCreateJSON.mk "bob,x" "Bob Comma" "bobx@example.org" "".

(** Alice has a DM topic with the user [bob,x], each side with a presence
    on it; bob keeps a presence on his private topic, which only he may
    read. *)
Definition leakStore : models.Store :=
  models.mkStore
    [alice; bob; person "bob,x" "Bob Comma" "bobx@example.org"]
    [own "/Private/alice/DM/bob,x" "alice";
     own "/Private/bob,x/DM/alice" "bob,x"; own "/Private/bob" "bob"]
    [seen "q1" "alice" "/Private/alice/DM/bob,x" 20;
     seen "q2" "bob" "/Private/bob" 21;
     seen "q3" "bob,x" "/Private/bob,x/DM/alice" 22]
    0 false.

End Sample.

(** * Properties *)

(** ** Limits of the list criteria *)

Section Limits.

Variable ctx : gin.Context.

Lemma presences_limit_absent :
  gin.GetQuery ctx "limit" = None ->
  models.PresenceCriteria.Limit (PresencesController.buildCriteria ctx) = 100%Z.
Proof.
  intros Habsent. unfold PresencesController.buildCriteria, gin.DefaultQuery.
  rewrite Habsent. reflexivity.
Qed.

Lemma presences_limit_present (value : string) :
  gin.GetQuery ctx "limit" = Some value ->
  models.PresenceCriteria.Limit (PresencesController.buildCriteria ctx)
  = match strconv.Atoi value with Some n => n | None => 10%Z end.
Proof.
  intros Hpresent. unfold PresencesController.buildCriteria, gin.DefaultQuery.
  rewrite Hpresent. reflexivity.
Qed.

Lemma users_limit_absent :
  gin.GetQuery ctx "limit" = None ->
  models.UserCriteria.Limit (UsersController.buildCriteria ctx) = 100%Z.
Proof.
  intros Habsent. unfold UsersController.buildCriteria, gin.DefaultQuery.
  rewrite Habsent. reflexivity.
Qed.

Lemma users_limit_present (value : string) :
  gin.GetQuery ctx "limit" = Some value ->
  models.UserCriteria.Limit (UsersController.buildCriteria ctx)
  = match strconv.Atoi value with Some n => n | None => 100%Z end.
Proof.
  intros Hpresent. unfold UsersController.buildCriteria, gin.DefaultQuery.
  rewrite Hpresent. reflexivity.
Qed.

End Limits.

(** C10.  A [limit] query parameter that is present but is not an integer
    makes the presence list use the limit 10; an absent one makes it use
    100; the user list uses 100 in both cases.  The presence fallback is
    not the declared default. *)
Theorem limit_fallback_differs (ctx : gin.Context) :
  (forall value,
      gin.GetQuery ctx "limit" = Some value ->
      strconv.Atoi value = None ->
      models.PresenceCriteria.Limit (PresencesController.buildCriteria ctx) = 10%Z
      /\ models.UserCriteria.Limit (UsersController.buildCriteria ctx) = 100%Z)
  /\ (gin.GetQuery ctx "limit" = None ->
      models.PresenceCriteria.Limit (PresencesController.buildCriteria ctx) = 100%Z
      /\ models.UserCriteria.Limit (UsersController.buildCriteria ctx) = 100%Z)
  /\ 10%Z <> 100%Z.
Proof.
  split; [| split].
  - intros value Hpresent Hbad.
    rewrite (presences_limit_present ctx value Hpresent).
    rewrite (users_limit_present ctx value Hpresent).
    rewrite Hbad. split; reflexivity.
  - intros Habsent.
    rewrite (presences_limit_absent ctx Habsent).
    rewrite (users_limit_absent ctx Habsent). split; reflexivity.
  - discriminate.
Qed.

Lemma limit_fallback_differs_witness :
  gin.GetQuery Sample.badLimit "limit" = Some "ten"
  /\ strconv.Atoi "ten" = None
  /\ models.PresenceCriteria.Limit (PresencesController.buildCriteria Sample.badLimit) = 10%Z
  /\ models.UserCriteria.Limit (UsersController.buildCriteria Sample.badLimit) = 100%Z.
Proof.
  split; [reflexivity | split; [reflexivity |]].
  apply (proj1 (limit_fallback_differs Sample.badLimit) "ten"); reflexivity.
Defined.

(** ** The store *)

Section StoreFacts.

Import models.

Lemma FindByUsername_name (st : Store) (name : string) (u : User.t) :
  FindByUsername st name = Some u -> User.Username u = name.
Proof.
  unfold FindByUsername. intros Hfind.
  apply find_some in Hfind. destruct Hfind as [_ Heq].
  now apply String.eqb_eq.
Qed.

Lemma update_found (f : User.t -> User.t) (name : string) :
  forall (l : list User.t) (u : User.t),
    find (fun u => String.eqb (User.Username u) name) l = Some u ->
    User.Username (f u) = name ->
    exists l',
      update f name l = Some l'
      /\ find (fun u => String.eqb (User.Username u) name) l' = Some (f u).
Proof.
  induction l as [| v l IH]; intros u Hfind Hname; simpl in *.
  - discriminate.
  - destruct (String.eqb (User.Username v) name) eqn:Hv.
    + injection Hfind as ->. eexists; split; [reflexivity |].
      simpl. rewrite Hname, String.eqb_refl. reflexivity.
    + destruct (IH u Hfind Hname) as [l' [Hupd Hfind']].
      rewrite Hupd. eexists; split; [reflexivity |].
      simpl. rewrite Hv. exact Hfind'.
Qed.

(** Saving a change that keeps the username of a user that is found
    succeeds; the changed user is the one found afterwards and nothing
    but the users changes. *)
Lemma save_found (st : Store) (f : User.t -> User.t) (name : string)
      (u : User.t) :
  FindByUsername st name = Some u ->
  User.Username (f u) = name ->
  exists st',
    save st f name = Some st'
    /\ FindByUsername st' name = Some (f u)
    /\ topics st' = topics st
    /\ nonce st' = nonce st.
Proof.
  intros Hfind Hname. unfold save.
  destruct (update_found f name (users st) u Hfind Hname) as [l' [Hupd Hfind']].
  rewrite Hupd. eexists; split; [reflexivity |]. repeat split. exact Hfind'.
Qed.

Lemma FindByUsername_tick (st : Store) (name : string) :
  FindByUsername (tick st) name = FindByUsername st name.
Proof. reflexivity. Qed.

Lemma append_cancel (p a b : string) : p ++ a = p ++ b -> a = b.
Proof.
  induction p as [| c p IH]; simpl; intros Heq; [exact Heq |].
  injection Heq as Heq. now apply IH.
Qed.

(** Two draws of the generator agree only at the same counter. *)
Lemma generate_inj (kind : string) (n m : nat) :
  generate kind n = generate kind m -> n = m.
Proof.
  unfold generate. intros Heq.
  apply append_cancel in Heq. apply append_cancel in Heq.
  assert (Hd : Some (Nat.to_uint n) = Some (Nat.to_uint m)).
  { rewrite <- (NilEmpty.usu (Nat.to_uint n)), <- (NilEmpty.usu (Nat.to_uint m)).
    now rewrite Heq. }
  injection Hd as Hd.
  rewrite <- (DecimalNat.Unsigned.of_to n), <- (DecimalNat.Unsigned.of_to m).
  now rewrite Hd.
Qed.

End StoreFacts.

(** ** System users *)

(** C9.  [ResetSystemUser] turns down a username that does not start with
    [tat.system] whatever the store holds, leaving the store as it is; a
    password is reset only for a prefixed username of a persisted system
    user.  So a system user whose name lacks the prefix keeps its
    password. *)
Theorem reset_system_user_needs_prefix
        (cfg : viper.Config) (username : string) (st : models.Store) :
  (strings.HasPrefix username "tat.system" = false ->
   UsersController.ResetSystemUser cfg
     (UsersController.resetSystemUserJSON.mk username) st
   = reply st (gin.AbortWithReturnError http.StatusBadRequest
                 ("Username does not begin with tat.system (" ++ username
                  ++ "), it's not possible to reset password for this user")))
  /\ (forall obj,
         response (UsersController.ResetSystemUser cfg
                     (UsersController.resetSystemUserJSON.mk username) st)
         = gin.JSON http.StatusOK obj ->
         strings.HasPrefix username "tat.system" = true
         /\ exists user,
             models.FindByUsername st username = Some user
             /\ models.User.IsSystem user = true).
Proof.
  unfold UsersController.ResetSystemUser. simpl.
  split.
  - intros Hprefix. rewrite Hprefix. reflexivity.
  - intros obj.
    destruct (strings.HasPrefix username "tat.system"); simpl; [| discriminate].
    destruct (models.FindByUsername st username) as [user |]; simpl;
      [| discriminate].
    destruct (models.User.IsSystem user) eqn:Hsystem; simpl; [| discriminate].
    intros _. split; [reflexivity |]. exists user. now split.
Qed.

Lemma reset_system_user_needs_prefix_witness :
  strings.HasPrefix "robot" "tat.system" = false
  /\ models.FindByUsername Sample.systemStore "robot" = Some Sample.robot
  /\ models.User.IsSystem Sample.robot = true
  /\ store (UsersController.ResetSystemUser Sample.cfg
              (UsersController.resetSystemUserJSON.mk "robot")
              Sample.systemStore)
     = Sample.systemStore.
Proof.
  split; [reflexivity | split; [reflexivity | split; [reflexivity |]]].
  rewrite (proj1 (reset_system_user_needs_prefix Sample.cfg "robot"
                    Sample.systemStore) eq_refl).
  reflexivity.
Defined.

(** C4.  [Convert] turns down a username that does not start with
    [tat.system]; for a persisted user with the prefix that is not a system
    user it replies 200 with the password drawn from the generator, and the
    persisted user is then a system user holding that password; asked again
    on the resulting store it turns the request down as a conflict (400,
    already a system user) and changes nothing. *)
Theorem convert_to_system
        (cfg : viper.Config) (ctx : gin.Context) (username : string)
        (canWrite : bool) (st : models.Store) :
  (strings.HasPrefix username "tat.system" = false ->
   UsersController.Convert cfg ctx
     (UsersController.convertUserJSON.mk username canWrite) st
   = reply st (gin.AbortWithReturnError http.StatusBadRequest
                 ("Username does not begin with tat.system (" ++ username
                  ++ "), it's not possible to convert this user")))
  /\ (forall user,
         strings.HasPrefix username "tat.system" = true ->
         models.FindByUsername st username = Some user ->
         models.User.IsSystem user = false ->
         exists st',
           let newPassword := models.generate "password" (models.nonce st) in
           UsersController.Convert cfg ctx
             (UsersController.convertUserJSON.mk username canWrite) st
           = mkResult
               (gin.JSON http.StatusOK
                  (gin.H [("message", "Verification successfull");
                          ("username", username);
                          ("password", newPassword);
                          ("url", UsersController.exposedURL cfg)]))
               st' []
           /\ models.FindByUsername st' username
              = Some (models.User.withSystem user (gin.CtxUsername ctx)
                        canWrite newPassword)
           /\ models.nonce st' = S (models.nonce st)
           /\ UsersController.Convert cfg ctx
                (UsersController.convertUserJSON.mk username canWrite) st'
              = reply st'
                  (gin.AbortWithReturnError http.StatusBadRequest
                     ("user with username " ++ username
                      ++ " is already a system user"))).
Proof.
  split.
  - intros Hprefix. unfold UsersController.Convert. simpl.
    rewrite Hprefix. reflexivity.
  - intros user Hprefix Hfind Hplain.
    pose proof (FindByUsername_name st username user Hfind) as Hname.
    destruct (save_found st
                (fun u => models.User.withSystem u (gin.CtxUsername ctx) canWrite
                            (models.generate "password" (models.nonce st)))
                username user Hfind Hname)
      as [st1 [Hsave [Hfind1 [_ Hnonce]]]].
    exists (models.tick st1). cbv zeta.
    assert (Hagain : models.FindByUsername (models.tick st1) username
                     = Some (models.User.withSystem user (gin.CtxUsername ctx)
                               canWrite
                               (models.generate "password" (models.nonce st))))
      by (rewrite FindByUsername_tick; exact Hfind1).
    repeat split.
    + unfold UsersController.Convert. simpl.
      rewrite Hprefix, Hfind, Hplain. simpl.
      unfold models.ConvertToSystem. rewrite Hname, Hsave. reflexivity.
    + exact Hagain.
    + simpl. now rewrite Hnonce.
    + unfold UsersController.Convert. simpl.
      rewrite Hprefix, Hagain. reflexivity.
Qed.

Lemma convert_to_system_witness :
  strings.HasPrefix "tat.system.bob" "tat.system" = true
  /\ models.FindByUsername Sample.systemStore "tat.system.bob"
     = Some (Sample.person "tat.system.bob" "Bob Bot" "bot@example.org")
  /\ models.User.IsSystem
       (Sample.person "tat.system.bob" "Bob Bot" "bot@example.org") = false
  /\ exists st',
      store (UsersController.Convert Sample.cfg Sample.admin
               (UsersController.convertUserJSON.mk "tat.system.bob" true)
               Sample.systemStore) = st'
      /\ option_map models.User.IsSystem
           (models.FindByUsername st' "tat.system.bob") = Some true
      /\ response (UsersController.Convert Sample.cfg Sample.admin
                     (UsersController.convertUserJSON.mk "tat.system.bob" true)
                     st')
         = gin.AbortWithReturnError http.StatusBadRequest
             "user with username tat.system.bob is already a system user".
Proof.
  split; [reflexivity | split; [reflexivity | split; [reflexivity |]]].
  destruct (proj2 (convert_to_system Sample.cfg Sample.admin "tat.system.bob"
                     true Sample.systemStore)
              (Sample.person "tat.system.bob" "Bob Bot" "bot@example.org")
              eq_refl eq_refl eq_refl)
    as [st' [Hfirst [Hfind [_ Hsecond]]]].
  exists st'. rewrite Hfirst, Hfind, Hsecond.
  split; [reflexivity | split; reflexivity].
Defined.

Example convert_twice :
  let first :=
    UsersController.Convert Sample.cfg Sample.admin
      (UsersController.convertUserJSON.mk "tat.system.bob" true)
      Sample.systemStore in
  let second :=
    UsersController.Convert Sample.cfg Sample.admin
      (UsersController.convertUserJSON.mk "tat.system.bob" true)
      (store first) in
  response first
  = gin.JSON 200%Z
      (gin.H [("message", "Verification successfull");
              ("username", "tat.system.bob");
              ("password", "password-7");
              ("url", "https://tat.example.org:443/tat")])
  /\ option_map models.User.IsSystem
       (models.FindByUsername (store first) "tat.system.bob") = Some true
  /\ response second
     = gin.AbortWithReturnError 400%Z
         "user with username tat.system.bob is already a system user"
  /\ store second = store first.
Proof. repeat split. Qed.

(** ** Favorite topics and notifications *)

Section Favorites.

Variable ctx : gin.Context.
Variable st : models.Store.
Variable topicIn : string.
Variable user : models.User.t.

Hypothesis routed : GetParam ctx "topic" = inr topicIn.
Hypothesis known : models.FindByUsername st (gin.CtxUsername ctx) = Some user.

Let username_known : models.User.Username user = gin.CtxUsername ctx :=
  FindByUsername_name st (gin.CtxUsername ctx) user known.

Lemma PreCheckUser_known : PreCheckUser ctx st = inr user.
Proof. unfold PreCheckUser. now rewrite known. Qed.

Lemma AddFavoriteTopic_missing :
  models.FindByTopic st topicIn true = None ->
  UsersController.AddFavoriteTopic ctx st
  = reply st (gin.AbortWithReturnError http.StatusBadRequest
                ("topic " ++ topicIn ++ " does not exist")).
Proof.
  intros Hmissing. unfold UsersController.AddFavoriteTopic.
  now rewrite routed, PreCheckUser_known, Hmissing.
Qed.

Lemma AddFavoriteTopic_forbidden (topic : models.Topic.t) :
  models.FindByTopic st topicIn true = Some topic ->
  models.IsUserReadAccess topic user = false ->
  UsersController.AddFavoriteTopic ctx st
  = reply st (gin.AbortWithReturnError http.StatusForbidden
                "No Read Access to this topic").
Proof.
  intros Hfound Hdenied. unfold UsersController.AddFavoriteTopic.
  now rewrite routed, PreCheckUser_known, Hfound, Hdenied.
Qed.

Lemma AddFavoriteTopic_granted (topic : models.Topic.t) :
  models.FindByTopic st topicIn true = Some topic ->
  models.IsUserReadAccess topic user = true ->
  exists st',
    UsersController.AddFavoriteTopic ctx st
    = mkResult
        (gin.JSON http.StatusCreated
           (gin.H [("info", "Topic " ++ models.Topic.Topic topic
                            ++ " added to favorites")]))
        st' []
    /\ models.FindByUsername st' (gin.CtxUsername ctx)
       = Some (models.User.withFavoritesTopics user
                 (models.add (models.Topic.Topic topic)
                    (models.User.FavoritesTopics user))).
Proof.
  intros Hfound Hgranted.
  destruct (save_found st
              (fun u => models.User.withFavoritesTopics u
                          (models.add (models.Topic.Topic topic)
                             (models.User.FavoritesTopics u)))
              (gin.CtxUsername ctx) user known username_known)
    as [st' [Hsave [Hfind _]]].
  exists st'. split; [| exact Hfind].
  unfold UsersController.AddFavoriteTopic, models.AddFavoriteTopic.
  now rewrite routed, PreCheckUser_known, Hfound, Hgranted, username_known,
    Hsave.
Qed.

Lemma EnableNotificationsTopic_missing :
  models.FindByTopic st topicIn true = None ->
  UsersController.EnableNotificationsTopic ctx st
  = reply st (gin.AbortWithReturnError http.StatusBadRequest
                ("topic " ++ topicIn ++ " does not exist")).
Proof.
  intros Hmissing. unfold UsersController.EnableNotificationsTopic.
  now rewrite routed, PreCheckUser_known, Hmissing.
Qed.

Lemma EnableNotificationsTopic_forbidden (topic : models.Topic.t) :
  models.FindByTopic st topicIn true = Some topic ->
  models.IsUserReadAccess topic user = false ->
  UsersController.EnableNotificationsTopic ctx st
  = reply st (gin.AbortWithReturnError http.StatusForbidden
                "No Read Access to this topic").
Proof.
  intros Hfound Hdenied. unfold UsersController.EnableNotificationsTopic.
  now rewrite routed, PreCheckUser_known, Hfound, Hdenied.
Qed.

Lemma EnableNotificationsTopic_granted (topic : models.Topic.t) :
  models.FindByTopic st topicIn true = Some topic ->
  models.IsUserReadAccess topic user = true ->
  exists st',
    UsersController.EnableNotificationsTopic ctx st
    = mkResult
        (gin.JSON http.StatusCreated
           (gin.H [("info", "Notications enabled on Topic "
                            ++ models.Topic.Topic topic)]))
        st' []
    /\ models.FindByUsername st' (gin.CtxUsername ctx)
       = Some (models.User.withOffNotificationsTopics user
                 (models.remove (models.Topic.Topic topic)
                    (models.User.OffNotificationsTopics user))).
Proof.
  intros Hfound Hgranted.
  destruct (save_found st
              (fun u => models.User.withOffNotificationsTopics u
                          (models.remove (models.Topic.Topic topic)
                             (models.User.OffNotificationsTopics u)))
              (gin.CtxUsername ctx) user known username_known)
    as [st' [Hsave [Hfind _]]].
  exists st'. split; [| exact Hfind].
  unfold UsersController.EnableNotificationsTopic,
    models.EnableNotificationsTopic.
  now rewrite routed, PreCheckUser_known, Hfound, Hgranted, username_known,
    Hsave.
Qed.

(** The removal never consults the topics of the store. *)
Lemma RemoveFavoriteTopic_done :
  exists st',
    UsersController.RemoveFavoriteTopic ctx st
    = mkResult
        (gin.JSON http.StatusOK
           (gin.H [("info", "Topic " ++ topicIn ++ " removed from favorites")]))
        st' []
    /\ models.FindByUsername st' (gin.CtxUsername ctx)
       = Some (models.User.withFavoritesTopics user
                 (models.remove (models.rooted topicIn)
                    (models.User.FavoritesTopics user)))
    /\ models.topics st' = models.topics st.
Proof.
  destruct (save_found st
              (fun u => models.User.withFavoritesTopics u
                          (models.remove (models.rooted topicIn)
                             (models.User.FavoritesTopics u)))
              (gin.CtxUsername ctx) user known username_known)
    as [st' [Hsave [Hfind [Htopics _]]]].
  exists st'. split; [| split; [exact Hfind | exact Htopics]].
  unfold UsersController.RemoveFavoriteTopic, models.RemoveFavoriteTopic.
  now rewrite routed, PreCheckUser_known, username_known, Hsave.
Qed.

End Favorites.

Lemma member_add (x : string) (l : list string) :
  models.member x (models.add x l) = true.
Proof.
  unfold models.add. destruct (models.member x l) eqn:Hin; [exact Hin |].
  unfold models.member. rewrite existsb_app. simpl.
  rewrite String.eqb_refl. now rewrite orb_true_r.
Qed.

Lemma member_remove (x : string) (l : list string) :
  models.member x (models.remove x l) = false.
Proof.
  unfold models.member, models.remove.
  induction l as [| y l IH]; simpl; [reflexivity |].
  destruct (String.eqb x y) eqn:Hxy; simpl; [exact IH |].
  now rewrite Hxy, IH.
Qed.

(** ** What saving a user leaves alone *)

Section SaveFrame.

Variable f : models.User.t -> models.User.t.
Hypothesis keeps_name : forall u, models.User.Username (f u) = models.User.Username u.

Lemma update_others (name other : string) :
  other <> name ->
  forall l l',
    models.update f name l = Some l' ->
    find (fun u => String.eqb (models.User.Username u) other) l'
    = find (fun u => String.eqb (models.User.Username u) other) l.
Proof.
  intros Hother. induction l as [| v l IH]; intros l' Hupdate; simpl in Hupdate;
    [discriminate |].
  destruct (String.eqb (models.User.Username v) name) eqn:Hv.
  - injection Hupdate as <-. simpl. rewrite keeps_name.
    apply String.eqb_eq in Hv. rewrite Hv.
    apply String.eqb_neq in Hother. rewrite String.eqb_sym in Hother.
    now rewrite Hother.
  - destruct (models.update f name l) as [l1 |]; [| discriminate].
    injection Hupdate as <-. simpl. now rewrite (IH l1 eq_refl).
Qed.

(** A save changes the first user of that name and nothing else: the
    topics, the presences and every user of another name are as before. *)
Lemma save_frame (st st' : models.Store) (name : string) :
  models.save st f name = Some st' ->
  models.topics st' = models.topics st
  /\ models.presences st' = models.presences st
  /\ forall other,
      other <> name ->
      models.FindByUsername st' other = models.FindByUsername st other.
Proof.
  unfold models.save. intros Hsave.
  destruct (models.update f name (models.users st)) as [l' |] eqn:Hupdate;
    [| discriminate].
  injection Hsave as <-. repeat split.
  intros other Hother. unfold models.FindByUsername. simpl.
  now apply update_others with (name := name).
Qed.

Lemma save_found_frame (st : models.Store) (name : string) (u : models.User.t) :
  models.FindByUsername st name = Some u ->
  exists st',
    models.save st f name = Some st'
    /\ models.FindByUsername st' name = Some (f u)
    /\ models.topics st' = models.topics st
    /\ models.presences st' = models.presences st
    /\ forall other,
        other <> name ->
        models.FindByUsername st' other = models.FindByUsername st other.
Proof.
  intros Hfound.
  pose proof (FindByUsername_name st name u Hfound) as Hname.
  destruct (save_found st f name u Hfound) as [st' [Hsave [Hfound' _]]];
    [now rewrite keeps_name |].
  exists st'. split; [exact Hsave | split; [exact Hfound' |]].
  now apply save_frame.
Qed.

End SaveFrame.

(** C6.  For a routed topic and a persisted requesting user:
    [AddFavoriteTopic] and [EnableNotificationsTopic] reply 201 only when
    the topic exists and the user has read access to it.  With read access
    they do, and the persisted user is then the same user with the topic
    added to the favorites (respectively taken out of the topics with
    notifications off).  Without read access both reply 403, and for a topic
    that does not exist both reply 400; in either case the store is left as
    it is.  [RemoveFavoriteTopic] replies 200 whatever the topics and their
    access lists are, which it does not look at, and the persisted user is
    then the same user with the topic taken out of the favorites.  A
    successful call changes that one user only: the topics and the users
    of another name are as before. *)
Theorem favorite_topic_needs_read_access
        (ctx : gin.Context) (st : models.Store) (topicIn : string)
        (user : models.User.t) :
  GetParam ctx "topic" = inr topicIn ->
  models.FindByUsername st (gin.CtxUsername ctx) = Some user ->
  (forall obj,
      response (UsersController.AddFavoriteTopic ctx st)
      = gin.JSON http.StatusCreated obj
      \/ response (UsersController.EnableNotificationsTopic ctx st)
         = gin.JSON http.StatusCreated obj ->
      exists topic,
        models.FindByTopic st topicIn true = Some topic
        /\ models.IsUserReadAccess topic user = true)
  /\ (forall topic,
         models.FindByTopic st topicIn true = Some topic ->
         models.IsUserReadAccess topic user = true ->
         exists added enabled,
           UsersController.AddFavoriteTopic ctx st
           = mkResult
               (gin.JSON http.StatusCreated
                  (gin.H [("info", "Topic " ++ models.Topic.Topic topic
                                   ++ " added to favorites")]))
               added []
           /\ models.FindByUsername added (gin.CtxUsername ctx)
              = Some (models.User.withFavoritesTopics user
                        (models.add (models.Topic.Topic topic)
                           (models.User.FavoritesTopics user)))
           /\ models.member (models.Topic.Topic topic)
                (models.add (models.Topic.Topic topic)
                   (models.User.FavoritesTopics user)) = true
           /\ models.topics added = models.topics st
           /\ (forall other,
                  other <> gin.CtxUsername ctx ->
                  models.FindByUsername added other
                  = models.FindByUsername st other)
           /\ UsersController.EnableNotificationsTopic ctx st
              = mkResult
                  (gin.JSON http.StatusCreated
                     (gin.H [("info", "Notications enabled on Topic "
                                      ++ models.Topic.Topic topic)]))
                  enabled []
           /\ models.FindByUsername enabled (gin.CtxUsername ctx)
              = Some (models.User.withOffNotificationsTopics user
                        (models.remove (models.Topic.Topic topic)
                           (models.User.OffNotificationsTopics user)))
           /\ models.member (models.Topic.Topic topic)
                (models.remove (models.Topic.Topic topic)
                   (models.User.OffNotificationsTopics user)) = false
           /\ models.topics enabled = models.topics st
           /\ (forall other,
                  other <> gin.CtxUsername ctx ->
                  models.FindByUsername enabled other
                  = models.FindByUsername st other))
  /\ (forall topic,
         models.FindByTopic st topicIn true = Some topic ->
         models.IsUserReadAccess topic user = false ->
         UsersController.AddFavoriteTopic ctx st
         = reply st (gin.AbortWithReturnError http.StatusForbidden
                       "No Read Access to this topic")
         /\ UsersController.EnableNotificationsTopic ctx st
            = reply st (gin.AbortWithReturnError http.StatusForbidden
                          "No Read Access to this topic"))
  /\ (models.FindByTopic st topicIn true = None ->
      UsersController.AddFavoriteTopic ctx st
      = reply st (gin.AbortWithReturnError http.StatusBadRequest
                    ("topic " ++ topicIn ++ " does not exist"))
      /\ UsersController.EnableNotificationsTopic ctx st
         = reply st (gin.AbortWithReturnError http.StatusBadRequest
                       ("topic " ++ topicIn ++ " does not exist")))
  /\ (exists removed,
         UsersController.RemoveFavoriteTopic ctx st
         = mkResult
             (gin.JSON http.StatusOK
                (gin.H [("info", "Topic " ++ topicIn
                                 ++ " removed from favorites")]))
             removed []
         /\ models.FindByUsername removed (gin.CtxUsername ctx)
            = Some (models.User.withFavoritesTopics user
                      (models.remove (models.rooted topicIn)
                         (models.User.FavoritesTopics user)))
         /\ models.member (models.rooted topicIn)
              (models.remove (models.rooted topicIn)
                 (models.User.FavoritesTopics user)) = false
         /\ models.topics removed = models.topics st
         /\ (forall other,
                other <> gin.CtxUsername ctx ->
                models.FindByUsername removed other
                = models.FindByUsername st other)).
Proof.
  intros routed known.
  pose proof (FindByUsername_name st _ user known) as Hname.
  split; [| split; [| split; [| split]]].
  - intros obj Hcreated.
    destruct (models.FindByTopic st topicIn true) as [topic |] eqn:Hfound.
    + destruct (models.IsUserReadAccess topic user) eqn:Haccess.
      * exists topic. now split.
      * rewrite (AddFavoriteTopic_forbidden ctx st topicIn user routed known
                   topic Hfound Haccess) in Hcreated.
        rewrite (EnableNotificationsTopic_forbidden ctx st topicIn user routed
                   known topic Hfound Haccess) in Hcreated.
        destruct Hcreated as [Hcreated | Hcreated]; discriminate Hcreated.
    + rewrite (AddFavoriteTopic_missing ctx st topicIn user routed known Hfound)
        in Hcreated.
      rewrite (EnableNotificationsTopic_missing ctx st topicIn user routed known
                 Hfound) in Hcreated.
      destruct Hcreated as [Hcreated | Hcreated]; discriminate Hcreated.
  - intros topic Hfound Haccess.
    destruct (save_found_frame
                (fun u => models.User.withFavoritesTopics u
                            (models.add (models.Topic.Topic topic)
                               (models.User.FavoritesTopics u)))
                (fun u => eq_refl) st (gin.CtxUsername ctx) user known)
      as [added [Hadd [Hfavorite [Htopics [_ Hothers]]]]].
    destruct (save_found_frame
                (fun u => models.User.withOffNotificationsTopics u
                            (models.remove (models.Topic.Topic topic)
                               (models.User.OffNotificationsTopics u)))
                (fun u => eq_refl) st (gin.CtxUsername ctx) user known)
      as [enabled [Henable [Hnotified [Htopics' [_ Hothers']]]]].
    exists added, enabled.
    split; [| split; [exact Hfavorite | split; [apply member_add |
      split; [exact Htopics | split; [exact Hothers |
      split; [| split; [exact Hnotified | split; [apply member_remove |
      split; [exact Htopics' | exact Hothers']]]]]]]]].
    + unfold UsersController.AddFavoriteTopic, models.AddFavoriteTopic.
      now rewrite routed, (PreCheckUser_known ctx st user known), Hfound,
        Haccess, Hname, Hadd.
    + unfold UsersController.EnableNotificationsTopic,
        models.EnableNotificationsTopic.
      now rewrite routed, (PreCheckUser_known ctx st user known), Hfound,
        Haccess, Hname, Henable.
  - intros topic Hfound Hdenied. split.
    + exact (AddFavoriteTopic_forbidden ctx st topicIn user routed known topic
               Hfound Hdenied).
    + exact (EnableNotificationsTopic_forbidden ctx st topicIn user routed
               known topic Hfound Hdenied).
  - intros Hmissing. split.
    + exact (AddFavoriteTopic_missing ctx st topicIn user routed known
               Hmissing).
    + exact (EnableNotificationsTopic_missing ctx st topicIn user routed known
               Hmissing).
  - destruct (save_found_frame
                (fun u => models.User.withFavoritesTopics u
                            (models.remove (models.rooted topicIn)
                               (models.User.FavoritesTopics u)))
                (fun u => eq_refl) st (gin.CtxUsername ctx) user known)
      as [removed [Hremove [Hplain [Htopics [_ Hothers]]]]].
    exists removed.
    split; [| split; [exact Hplain | split; [apply member_remove |
      split; [exact Htopics | exact Hothers]]]].
    unfold UsersController.RemoveFavoriteTopic, models.RemoveFavoriteTopic.
    now rewrite routed, (PreCheckUser_known ctx st user known), Hname, Hremove.
Qed.

Lemma favorite_topic_needs_read_access_witness :
  GetParam (Sample.onTopic "alice" "Internal/Board") "topic"
  = inr "Internal/Board"
  /\ models.FindByUsername Sample.topicStore "alice"
     = Some (models.User.withFavoritesTopics Sample.alice ["/Internal/Board"])
  /\ models.FindByTopic Sample.topicStore "Internal/Board" true
     = Some Sample.closed
  /\ models.IsUserReadAccess Sample.closed
       (models.User.withFavoritesTopics Sample.alice ["/Internal/Board"])
     = false
  /\ UsersController.AddFavoriteTopic
       (Sample.onTopic "alice" "Internal/Board") Sample.topicStore
     = reply Sample.topicStore
         (gin.AbortWithReturnError http.StatusForbidden
            "No Read Access to this topic")
  /\ exists removed,
      UsersController.RemoveFavoriteTopic
        (Sample.onTopic "alice" "Internal/Board") Sample.topicStore
      = mkResult
          (gin.JSON http.StatusOK
             (gin.H [("info", "Topic Internal/Board removed from favorites")]))
          removed []
      /\ option_map models.User.FavoritesTopics
           (models.FindByUsername removed "alice") = Some [].
Proof.
  split; [reflexivity |]. split; [reflexivity |].
  split; [reflexivity |]. split; [reflexivity |].
  pose proof (favorite_topic_needs_read_access
                (Sample.onTopic "alice" "Internal/Board") Sample.topicStore
                "Internal/Board"
                (models.User.withFavoritesTopics Sample.alice
                   ["/Internal/Board"])
                eq_refl eq_refl)
    as [_ [_ [Hdenied [_ [removed [Hremove [Hplain _]]]]]]].
  destruct (Hdenied Sample.closed eq_refl eq_refl) as [Hadd _].
  split; [exact Hadd |].
  exists removed. split; [exact Hremove |].
  change (gin.CtxUsername (Sample.onTopic "alice" "Internal/Board"))
    with "alice" in Hplain.
  rewrite Hplain. reflexivity.
Defined.

Example favorites_run :
  let added :=
    UsersController.AddFavoriteTopic (Sample.onTopic "alice" "Internal/News")
      Sample.topicStore in
  let removed :=
    UsersController.RemoveFavoriteTopic
      (Sample.onTopic "alice" "Internal/Board") (store added) in
  response added
  = gin.JSON 201%Z (gin.H [("info", "Topic /Internal/News added to favorites")])
  /\ option_map models.User.FavoritesTopics
       (models.FindByUsername (store added) "alice")
     = Some ["/Internal/Board"; "/Internal/News"]
  /\ option_map models.User.FavoritesTopics
       (models.FindByUsername (store removed) "alice")
     = Some ["/Internal/News"].
Proof. repeat split. Qed.

(** ** The private topics check *)

Section Strings.

Lemma append_assoc (a b c : string) : (a ++ b) ++ c = a ++ b ++ c.
Proof. induction a as [| x a IH]; simpl; [reflexivity | now rewrite IH]. Qed.

Lemma append_nil_r (a : string) : a ++ "" = a.
Proof. induction a as [| x a IH]; simpl; [reflexivity | now rewrite IH]. Qed.

Lemma length_append (a b : string) :
  String.length (a ++ b) = String.length a + String.length b.
Proof. induction a as [| x a IH]; simpl; [reflexivity | now rewrite IH]. Qed.

Lemma append_differ (p a b : string) : a <> b -> p ++ a <> p ++ b.
Proof. intros Hab Heq. apply Hab. now apply append_cancel with (p := p). Qed.

End Strings.

Section CheckTopics.

Import models.

Variable fixTopics : bool.
Variable user : User.t.

Let name := UsersController.topicName user.

Lemma topicName_private (shortName : string) :
  name shortName = privateTopic (User.Username user) shortName.
Proof.
  unfold name, UsersController.topicName, privateTopic.
  destruct shortName; reflexivity.
Qed.

Lemma rooted_name (shortName : string) : rooted (name shortName) = name shortName.
Proof. rewrite topicName_private. destruct shortName; reflexivity. Qed.

Lemma find_existsb {A : Type} (f : A -> bool) (l : list A) :
  existsb f l = match find f l with Some _ => true | None => false end.
Proof.
  induction l as [| x l IH]; simpl; [reflexivity |].
  destruct (f x); [reflexivity | exact IH].
Qed.

Lemma present_existsb (st : Store) (shortName : string) :
  CheckReport.present st (name shortName)
  = existsb (fun t => String.eqb (Topic.Topic t) (name shortName)) (topics st).
Proof.
  unfold CheckReport.present, FindByTopic.
  rewrite rooted_name. symmetry. apply find_existsb.
Qed.

Let settle := CheckReport.settle fixTopics user.

Lemma checkTopic_turn (info : string) (st : Store) (shortName : string) :
  UsersController.checkTopic fixTopics user (info, st) shortName
  = (info ++ CheckReport.entry fixTopics
               (CheckReport.present st (name shortName)) (name shortName),
     settle st shortName).
Proof.
  unfold UsersController.checkTopic, settle, CheckReport.settle.
  fold (name shortName).
  pose proof (present_existsb st shortName) as Hpresent.
  unfold CheckReport.present in *.
  destruct (FindByTopic st (name shortName) false) as [topic |]; simpl.
  - reflexivity.
  - destruct fixTopics; simpl; [| reflexivity].
    unfold CreatePrivateTopic. rewrite <- topicName_private, <- Hpresent.
    f_equal. apply append_assoc.
Qed.

Lemma present_settle (st : Store) (shortName other : string) :
  name other <> name shortName ->
  CheckReport.present (settle st shortName) (name other)
  = CheckReport.present st (name other).
Proof.
  intros Hother. unfold settle, CheckReport.settle. fold (name shortName).
  destruct (CheckReport.present st (name shortName)); [reflexivity |].
  destruct fixTopics; [| reflexivity].
  rewrite !present_existsb. simpl. rewrite existsb_app. simpl.
  apply String.eqb_neq in Hother. rewrite String.eqb_sym in Hother.
  rewrite Hother. now rewrite !orb_false_r.
Qed.

Lemma present_kept (st : Store) (shortName other : string) :
  CheckReport.present st (name other) = true ->
  CheckReport.present (settle st shortName) (name other) = true.
Proof.
  intros Hpresent. unfold settle, CheckReport.settle. fold (name shortName).
  destruct (CheckReport.present st (name shortName)); [exact Hpresent |].
  destruct fixTopics; [| exact Hpresent].
  rewrite present_existsb in *. simpl. rewrite existsb_app, Hpresent.
  reflexivity.
Qed.

Lemma present_settled (st : Store) (shortName : string) :
  fixTopics = true ->
  CheckReport.present (settle st shortName) (name shortName) = true.
Proof.
  intros Hfix. unfold settle, CheckReport.settle. fold (name shortName).
  destruct (CheckReport.present st (name shortName)) eqn:Hpresent;
    [exact Hpresent |].
  rewrite Hfix, present_existsb. simpl. rewrite existsb_app. simpl.
  rewrite String.eqb_refl. now rewrite orb_true_r.
Qed.

(** The text of the whole loop is read off the store it starts from: a
    turn changes the store only at its own path. *)
Lemma loop_text :
  forall (names : list string) (info : string) (st : Store),
    NoDup (map name names) ->
    fst (fold_left (UsersController.checkTopic fixTopics user) names (info, st))
    = info ++ CheckReport.report
                (map (fun shortName =>
                        CheckReport.entry fixTopics
                          (CheckReport.present st (name shortName))
                          (name shortName))
                     names).
Proof.
  induction names as [| shortName names IH]; intros info st Hnodup;
    cbn [fold_left map CheckReport.report fold_right].
  - now rewrite append_nil_r.
  - rewrite checkTopic_turn. inversion Hnodup as [| ? ? Hfresh Hrest]; subst.
    rewrite (IH _ _ Hrest), append_assoc. do 2 f_equal.
    fold (CheckReport.report
            (map (fun shortName =>
                    CheckReport.entry fixTopics
                      (CheckReport.present st (name shortName))
                      (name shortName))
                 names)).
    f_equal. apply map_ext_in. intros other Hin.
    rewrite present_settle; [reflexivity |].
    intros Heq. apply Hfresh. rewrite <- Heq. now apply in_map.
Qed.

Lemma loop_present :
  forall (names : list string) (info : string) (st : Store) (other : string),
    CheckReport.present st (name other) = true
    \/ (fixTopics = true /\ In other names) ->
    CheckReport.present
      (snd (fold_left (UsersController.checkTopic fixTopics user) names
              (info, st)))
      (name other) = true.
Proof.
  induction names as [| shortName names IH]; intros info st other Hcase;
    cbn [fold_left].
  - destruct Hcase as [Hpresent | [_ []]]. exact Hpresent.
  - rewrite checkTopic_turn. apply IH.
    destruct Hcase as [Hpresent | [Hfix [Hhere | Hlater]]].
    + left. now apply present_kept.
    + subst other. left. now apply present_settled.
    + right. now split.
Qed.

(** With every topic in place the loop writes OK throughout and leaves the
    store as it is. *)
Lemma loop_settled :
  forall (names : list string) (info : string) (st : Store),
    (forall shortName, In shortName names ->
                       CheckReport.present st (name shortName) = true) ->
    fold_left (UsersController.checkTopic fixTopics user) names (info, st)
    = (info ++ CheckReport.report
                 (map (fun shortName => " " ++ name shortName ++ " OK; ") names),
       st).
Proof.
  induction names as [| shortName names IH]; intros info st Hall;
    cbn [fold_left map CheckReport.report fold_right].
  - now rewrite append_nil_r.
  - rewrite checkTopic_turn. unfold settle, CheckReport.settle.
    fold (name shortName).
    rewrite (Hall shortName (or_introl eq_refl)). simpl.
    rewrite IH by (intros other Hin; apply Hall; now right).
    now rewrite append_assoc.
Qed.

End CheckTopics.

Section CheckCounts.

Import models.

Variable user : User.t.

Let name := UsersController.topicName user.

Lemma topicName_form (shortName : string) :
  name shortName
  = ("/Private/" ++ User.Username user)
    ++ (if String.eqb shortName "" then "" else "/" ++ shortName).
Proof.
  unfold name, UsersController.topicName.
  destruct shortName; simpl; [now rewrite append_nil_r | reflexivity].
Qed.

Lemma canonical_NoDup : NoDup (CheckReport.canonical user).
Proof.
  unfold CheckReport.canonical, UsersController.topicNames. fold name.
  assert (Hdiffer : forall a b,
             (if String.eqb a "" then "" else "/" ++ a)
             <> (if String.eqb b "" then "" else "/" ++ b) ->
             name a <> name b).
  { intros a b Hab. rewrite !topicName_form. now apply append_differ. }
  cbn [map].
  repeat (apply NoDup_cons; [cbn [In]; intuition |]); try apply NoDup_nil;
    match goal with
    | Heq : name _ = name _ |- _ => revert Heq; apply Hdiffer; discriminate
    end.
Qed.

Lemma count_present (st : Store) (shortName : string) :
  CheckReport.present st (name shortName)
  = (1 <=? CheckReport.count st (name shortName))%nat.
Proof.
  unfold name. rewrite present_existsb. unfold CheckReport.count.
  induction (topics st) as [| t l IH]; simpl; [reflexivity |].
  destruct (String.eqb (Topic.Topic t) _); simpl; [reflexivity | exact IH].
Qed.

Lemma count_settle_other (fixTopics : bool) (st : Store)
      (shortName other : string) :
  name other <> name shortName ->
  CheckReport.count (CheckReport.settle fixTopics user st shortName) (name other)
  = CheckReport.count st (name other).
Proof.
  intros Hother. unfold CheckReport.settle. fold (name shortName).
  destruct (CheckReport.present st (name shortName)); [reflexivity |].
  destruct fixTopics; [| reflexivity].
  unfold CheckReport.count. simpl. rewrite filter_app, length_app. simpl.
  apply String.eqb_neq in Hother. rewrite String.eqb_sym in Hother.
  rewrite Hother. simpl. lia.
Qed.

Lemma count_settle_self (st : Store) (shortName : string) :
  CheckReport.count (CheckReport.settle true user st shortName) (name shortName)
  = Nat.max 1 (CheckReport.count st (name shortName)).
Proof.
  unfold CheckReport.settle. fold (name shortName).
  rewrite count_present.
  destruct (Nat.leb_spec 1 (CheckReport.count st (name shortName)))
    as [Hsome | Hnone]; cbv iota; [lia |].
  unfold CheckReport.count in *. cbn [topics withTopics].
  rewrite filter_app, length_app. cbn [filter Topic.Topic].
  rewrite String.eqb_refl. cbn [List.length]. lia.
Qed.

Lemma loop_count_outside (fixTopics : bool) :
  forall (names : list string) (info : string) (st : Store) (other : string),
    ~ In (name other) (map name names) ->
    CheckReport.count
      (snd (fold_left (UsersController.checkTopic fixTopics user) names
              (info, st)))
      (name other)
    = CheckReport.count st (name other).
Proof.
  induction names as [| shortName names IH]; intros info st other Hout;
    cbn [fold_left]; [reflexivity |].
  rewrite checkTopic_turn, IH by (intros Hin; apply Hout; now right).
  apply count_settle_other. intros Heq. apply Hout. left. now symmetry.
Qed.

Lemma loop_count_inside :
  forall (names : list string) (info : string) (st : Store) (other : string),
    NoDup (map name names) ->
    In other names ->
    CheckReport.count
      (snd (fold_left (UsersController.checkTopic true user) names (info, st)))
      (name other)
    = Nat.max 1 (CheckReport.count st (name other)).
Proof.
  induction names as [| shortName names IH]; intros info st other Hnodup Hin;
    cbn [fold_left]; [destruct Hin |].
  inversion Hnodup as [| ? ? Hfresh Hrest]; subst.
  rewrite checkTopic_turn.
  destruct (String.eqb_spec (name other) (name shortName)) as [Hsame | Hother].
  - rewrite loop_count_outside by (rewrite Hsame; exact Hfresh).
    rewrite Hsame. apply count_settle_self.
  - destruct Hin as [Hhere | Hlater]; [now subst |].
    rewrite (IH _ _ _ Hrest Hlater). f_equal.
    now apply count_settle_other.
Qed.

End CheckCounts.

(** C5 as the code has it.  [checkTopics] visits the four canonical private
    topics in the order of [topicNames] and writes one entry per topic: 
    [ <topic> OK; ] when the topic is found; [ <topic> KO : not exist; ] when
    it is missing, followed, when missing topics are to be fixed, by
    [ <topic> created; ] after creating it.  The pass is idempotent: run on
    the store a fixing pass leaves, with or without fixing, it writes OK for
    all four topics and leaves the store as it is; and the fixing pass
    leaves each canonical path on exactly as many topics as before, or on
    one if there was none. *)
Theorem check_topics_report
        (fixTopics : bool) (user : models.User.t) (st : models.Store) :
  fst (UsersController.checkTopics fixTopics user st)
  = CheckReport.report
      (map (fun topicName =>
              CheckReport.entry fixTopics (CheckReport.present st topicName)
                topicName)
           (CheckReport.canonical user))
  /\ (forall fixAgain,
         UsersController.checkTopics fixAgain user
           (snd (UsersController.checkTopics true user st))
         = (CheckReport.report
              (map (fun topicName => " " ++ topicName ++ " OK; ")
                   (CheckReport.canonical user)),
            snd (UsersController.checkTopics true user st)))
  /\ (forall topicName,
         In topicName (CheckReport.canonical user) ->
         CheckReport.count (snd (UsersController.checkTopics true user st))
           topicName
         = Nat.max 1 (CheckReport.count st topicName)).
Proof.
  pose proof (canonical_NoDup user) as Hnodup.
  unfold CheckReport.canonical in *. unfold UsersController.checkTopics.
  split; [| split].
  - rewrite (loop_text fixTopics user _ "" st Hnodup), map_map. reflexivity.
  - intros fixAgain.
    rewrite (loop_settled fixAgain user UsersController.topicNames ""), map_map;
      [reflexivity |].
    intros shortName Hin. apply loop_present. right. now split.
  - intros topicName Hin. apply in_map_iff in Hin.
    destruct Hin as [shortName [<- Hin]].
    now apply loop_count_inside.
Qed.

Lemma check_topics_report_witness :
  In "/Private/carol/Tasks" (CheckReport.canonical Sample.carol)
  /\ CheckReport.count
       (snd (UsersController.checkTopics true Sample.carol Sample.bareStore))
       "/Private/carol/Tasks" = 1%nat.
Proof.
  split; [right; left; reflexivity |].
  rewrite (proj2 (proj2 (check_topics_report true Sample.carol
                           Sample.bareStore))
             "/Private/carol/Tasks" (or_intror (or_introl eq_refl))).
  reflexivity.
Defined.

(** C5 as the spec words it fails: a pass that does not fix writes
    [KO : not exist] for a missing topic, not [KO: not exist], and a fixing
    pass writes that entry too, before [created]. *)
Lemma check_topics_report_counterexample :
  CheckReport.present Sample.bareStore "/Private/carol" = false
  /\ strings.Contains
       (fst (UsersController.checkTopics false Sample.carol Sample.bareStore))
       "KO: not exist" = false
  /\ fst (UsersController.checkTopics true Sample.carol Sample.bareStore)
     = " /Private/carol KO : not exist;  /Private/carol created; "
       ++ " /Private/carol/Tasks KO : not exist;  /Private/carol/Tasks created; "
       ++ " /Private/carol/Bookmarks KO : not exist;  /Private/carol/Bookmarks created; "
       ++ " /Private/carol/Notifications KO : not exist;  /Private/carol/Notifications created; ".
Proof. split; [| split]; reflexivity. Qed.

Example check_twice :
  let first := UsersController.checkTopics true Sample.carol Sample.bareStore in
  let second := UsersController.checkTopics true Sample.carol (snd first) in
  fst second
  = " /Private/carol OK;  /Private/carol/Tasks OK;  /Private/carol/Bookmarks OK;  /Private/carol/Notifications OK; "
  /\ snd second = snd first
  /\ map models.Topic.Topic (models.topics (snd first))
     = ["/Private/carol"; "/Private/carol/Tasks"; "/Private/carol/Bookmarks";
        "/Private/carol/Notifications"].
Proof. repeat split. Qed.

(** ** Splitting paths *)

Section Splitting.

Variable sep : ascii.

Lemma Split_cons (s : string) :
  exists piece rest, strings.Split s sep = piece :: rest.
Proof.
  induction s as [| a s [piece [rest IH]]]; simpl.
  - now exists "", [].
  - destruct (Ascii.eqb a sep).
    + now exists "", (strings.Split s sep).
    + rewrite IH. now exists (String a piece), rest.
Qed.

(** The pieces around one separator are the pieces before it followed by
    the pieces after it. *)
Lemma Split_app (a b : string) :
  strings.Split (a ++ String sep b) sep
  = (strings.Split a sep ++ strings.Split b sep)%list.
Proof.
  induction a as [| c a IH]; simpl.
  - now rewrite Ascii.eqb_refl.
  - destruct (Ascii.eqb c sep); [now rewrite IH |].
    rewrite IH. destruct (Split_cons a) as [piece [rest ->]]. reflexivity.
Qed.

Lemma Split_whole (s : string) :
  strings.IndexByte s sep = None -> strings.Split s sep = [s].
Proof.
  induction s as [| a s IH]; simpl; [reflexivity |].
  destruct (Ascii.eqb a sep); [discriminate |].
  destruct (strings.IndexByte s sep); [discriminate |].
  intros _. now rewrite IH.
Qed.

Lemma Split_single (s : string) :
  List.length (strings.Split s sep) = 1%nat ->
  strings.IndexByte s sep = None.
Proof.
  induction s as [| a s IH]; simpl; [reflexivity |].
  destruct (Ascii.eqb a sep); simpl.
  - destruct (Split_cons s) as [piece [rest ->]]. discriminate.
  - destruct (Split_cons s) as [piece [rest Hs]]. rewrite Hs in *. simpl.
    intros Hone. now rewrite IH.
Qed.

Lemma Split_length (s : string) : (1 <= List.length (strings.Split s sep))%nat.
Proof. destruct (Split_cons s) as [piece [rest ->]]. simpl. lia. Qed.

Lemma IndexByte_app (a b : string) :
  strings.IndexByte (a ++ b) sep = None ->
  strings.IndexByte a sep = None /\ strings.IndexByte b sep = None.
Proof.
  induction a as [| c a IH]; simpl; [now split |].
  destruct (Ascii.eqb c sep); [discriminate |].
  destruct (strings.IndexByte (a ++ b) sep) eqn:Hab; [discriminate |].
  intros _. destruct (IH eq_refl) as [-> ->]. now split.
Qed.

Lemma IndexByte_app_None (a b : string) :
  strings.IndexByte a sep = None ->
  strings.IndexByte b sep = None ->
  strings.IndexByte (a ++ b) sep = None.
Proof.
  induction a as [| c a IH]; simpl; [auto |].
  destruct (Ascii.eqb c sep); [discriminate |].
  destruct (strings.IndexByte a sep); [discriminate |].
  intros _ Hb. now rewrite IH.
Qed.

End Splitting.

Lemma HasPrefix_app (s pre : string) :
  strings.HasPrefix s pre = true -> exists rest, s = pre ++ rest.
Proof.
  unfold strings.HasPrefix. revert s.
  induction pre as [| c pre IH]; intros s Hpre.
  - now exists s.
  - destruct s as [| a s]; simpl in Hpre; [discriminate Hpre |].
    destruct (Ascii.ascii_dec c a) as [-> | Hca]; [| discriminate Hpre].
    destruct (IH s Hpre) as [rest ->]. now exists rest.
Qed.

(** A path under the requesting user's DM prefix that has five pieces is
    the DM topic of that user with the last piece, and neither name holds a
    separator. *)
Lemma DM_path (username path : string) :
  strings.HasPrefix path ("/Private/" ++ username ++ "/DM/") = true ->
  List.length (strings.Split path "/") = 5%nat ->
  exists peer,
    path = "/Private/" ++ username ++ "/DM/" ++ peer
    /\ strings.Split path "/" = [""; "Private"; username; "DM"; peer].
Proof.
  intros Hprefix Hfive.
  destruct (HasPrefix_app _ _ Hprefix) as [peer Hpath].
  assert (Hshape : path = "/Private/" ++ username ++ "/DM/" ++ peer).
  { rewrite Hpath. now rewrite !append_assoc. }
  exists peer. split; [exact Hshape |].
  assert (Hpieces : strings.Split path "/"
                    = ([""; "Private"] ++ strings.Split username "/"
                       ++ ["DM"] ++ strings.Split peer "/")%list).
  { rewrite Hshape.
    change ("/Private/" ++ username ++ "/DM/" ++ peer)
      with ("" ++ String "/"
              ("Private" ++ String "/"
                 (username ++ String "/" ("DM" ++ String "/" peer)))).
    rewrite !Split_app. reflexivity. }
  rewrite Hpieces in Hfive |- *.
  rewrite !length_app in Hfive. simpl in Hfive.
  pose proof (Split_length "/" username) as Hu.
  pose proof (Split_length "/" peer) as Hp.
  rewrite (Split_whole "/" username), (Split_whole "/" peer);
    [reflexivity | |]; apply Split_single; lia.
Qed.

(** ** Presences of a DM topic *)

Section ListWithCriteria.

Import models.

Variable ctx : gin.Context.
Variable criteria : PresenceCriteria.t.
Variable st : Store.

Let path := PresencesController.normalize (PresenceCriteria.Topic criteria).

Let cleared := Visibility.cleared ctx criteria st.

Lemma listWithCriteria_never_lists :
  strings.HasPrefix path ("/Private/" ++ gin.CtxUsername ctx ++ "/DM/") = true ->
  List.length (strings.Split path "/") <> 5%nat ->
  exists code err,
    PresencesController.listWithCriteria ctx criteria st
    = reply st (gin.AbortWithError code err).
Proof.
  intros Hprefix Hpieces. apply Nat.eqb_neq in Hpieces.
  unfold PresencesController.listWithCriteria, PresencesController.preCheckUser.
  destruct (FindByUsername st (gin.CtxUsername ctx)) as [user |];
    [| now eexists; eexists].
  destruct (FindByTopic st (PresenceCriteria.Topic criteria) true) as [topic |];
    [| now eexists; eexists].
  destruct (IsUserReadAccess topic user); [| now eexists; eexists].
  cbn [negb PresenceCriteria.withTopic PresenceCriteria.Topic].
  fold path. rewrite Hprefix, Hpieces. now eexists; eexists.
Qed.

Lemma listWithCriteria_malformed (user : User.t) (topic : Topic.t) :
  cleared user topic ->
  strings.HasPrefix path ("/Private/" ++ gin.CtxUsername ctx ++ "/DM/") = true ->
  List.length (strings.Split path "/") <> 5%nat ->
  PresencesController.listWithCriteria ctx criteria st
  = reply st (gin.AbortWithError http.StatusInternalServerError
                ("Wrong topic name for DM:" ++ path)).
Proof.
  intros [Huser [Htopic Haccess]] Hprefix Hpieces.
  apply Nat.eqb_neq in Hpieces.
  unfold PresencesController.listWithCriteria, PresencesController.preCheckUser.
  rewrite Huser, Htopic, Haccess.
  cbn [negb PresenceCriteria.withTopic PresenceCriteria.Topic].
  fold path. now rewrite Hprefix, Hpieces.
Qed.

Lemma listWithCriteria_dm (user : User.t) (topic : Topic.t) :
  cleared user topic ->
  strings.HasPrefix path ("/Private/" ++ gin.CtxUsername ctx ++ "/DM/") = true ->
  List.length (strings.Split path "/") = 5%nat ->
  exists peer,
    path = "/Private/" ++ gin.CtxUsername ctx ++ "/DM/" ++ peer
    /\ PresencesController.listWithCriteria ctx criteria st
       = PresencesController.query st
           (PresenceCriteria.withTopic criteria
              (path ++ "," ++ "/Private/" ++ peer ++ "/DM/"
               ++ gin.CtxUsername ctx)).
Proof.
  intros [Huser [Htopic Haccess]] Hprefix Hpieces.
  destruct (DM_path _ _ Hprefix Hpieces) as [peer [Hshape Hparts]].
  exists peer. split; [exact Hshape |].
  unfold PresencesController.listWithCriteria, PresencesController.preCheckUser.
  rewrite Huser, Htopic, Haccess.
  cbn [negb PresenceCriteria.withTopic PresenceCriteria.Topic
       PresenceCriteria.Skip PresenceCriteria.Limit PresenceCriteria.IDPresence
       PresenceCriteria.Status PresenceCriteria.Username
       PresenceCriteria.DateMinPresence PresenceCriteria.DateMaxPresence].
  fold path. rewrite Hprefix, Hparts.
  reflexivity.
Qed.

Lemma listWithCriteria_plain (user : User.t) (topic : Topic.t) :
  cleared user topic ->
  strings.HasPrefix path ("/Private/" ++ gin.CtxUsername ctx ++ "/DM/") = false ->
  PresencesController.listWithCriteria ctx criteria st
  = PresencesController.query st (PresenceCriteria.withTopic criteria path).
Proof.
  intros [Huser [Htopic Haccess]] Hprefix.
  unfold PresencesController.listWithCriteria, PresencesController.preCheckUser.
  rewrite Huser, Htopic, Haccess.
  cbn [negb PresenceCriteria.withTopic PresenceCriteria.Topic].
  fold path. now rewrite Hprefix.
Qed.

End ListWithCriteria.

(** C2.  A request whose normalized topic is under the requesting user's
    DM prefix without having exactly five pieces never gets a list: the
    handler aborts with an error and leaves the store alone; once the user,
    the topic and the read access are cleared, the abort is the 500
    [Wrong topic name for DM:] error. *)
Theorem malformed_dm_path_fails
        (ctx : gin.Context) (criteria : models.PresenceCriteria.t)
        (st : models.Store) :
  strings.HasPrefix
    (PresencesController.normalize (models.PresenceCriteria.Topic criteria))
    ("/Private/" ++ gin.CtxUsername ctx ++ "/DM/") = true ->
  List.length
    (strings.Split
       (PresencesController.normalize (models.PresenceCriteria.Topic criteria))
       "/") <> 5%nat ->
  (exists code err,
      PresencesController.listWithCriteria ctx criteria st
      = reply st (gin.AbortWithError code err))
  /\ (forall user topic,
         Visibility.cleared ctx criteria st user topic ->
         PresencesController.listWithCriteria ctx criteria st
         = reply st
             (gin.AbortWithError http.StatusInternalServerError
                ("Wrong topic name for DM:"
                 ++ PresencesController.normalize
                      (models.PresenceCriteria.Topic criteria)))).
Proof.
  intros Hprefix Hpieces. split.
  - now apply listWithCriteria_never_lists.
  - intros user topic Hcleared.
    now apply listWithCriteria_malformed with (user := user) (topic := topic).
Qed.

Lemma malformed_dm_path_fails_witness :
  strings.HasPrefix
    (PresencesController.normalize "Private/alice/DM/bob/extra")
    ("/Private/" ++ "alice" ++ "/DM/") = true
  /\ List.length
       (strings.Split
          (PresencesController.normalize "Private/alice/DM/bob/extra") "/")
     = 6%nat
  /\ PresencesController.listWithCriteria
       (Sample.onTopic "alice" "Private/alice/DM/bob/extra")
       (Sample.window "Private/alice/DM/bob/extra") Sample.dmStore
     = reply Sample.dmStore
         (gin.AbortWithError http.StatusInternalServerError
            "Wrong topic name for DM:/Private/alice/DM/bob/extra").
Proof.
  split; [reflexivity | split; [reflexivity |]].
  refine (proj2 (malformed_dm_path_fails
                   (Sample.onTopic "alice" "Private/alice/DM/bob/extra")
                   (Sample.window "Private/alice/DM/bob/extra") Sample.dmStore
                   eq_refl _)
            Sample.alice
            (Sample.own "/Private/alice/DM/bob/extra" "alice") _).
  - discriminate.
  - repeat split.
Defined.

Section Filter.

Import models.

Lemma oneOf_pair (a b value : string) :
  strings.IndexByte a "," = None ->
  strings.IndexByte b "," = None ->
  oneOf (a ++ "," ++ b) value = String.eqb value a || String.eqb value b.
Proof.
  intros Ha Hb. unfold oneOf.
  change (a ++ "," ++ b) with (a ++ String "," b).
  rewrite Split_app, (Split_whole "," a Ha), (Split_whole "," b Hb).
  simpl. now rewrite orb_false_r.
Qed.

Lemma unset_pair (a b : string) : unset (a ++ "," ++ b) = false.
Proof. unfold unset. destruct a; reflexivity. Qed.

Lemma selects_topic (criteria : PresenceCriteria.t) (topic : string)
      (p : Presence.t) :
  selects (PresenceCriteria.withTopic criteria topic) p
  = (unset topic || oneOf topic (Presence.Topic p))
    && Visibility.others criteria p.
Proof.
  unfold Visibility.others, selects. simpl.
  now rewrite <- !andb_assoc.
Qed.

Lemma dm_no_comma (username peer : string) :
  strings.IndexByte (Visibility.dm username peer) "," = None ->
  strings.IndexByte (Visibility.dm peer username) "," = None.
Proof.
  unfold Visibility.dm. intros Hpath.
  apply IndexByte_app in Hpath. destruct Hpath as [_ Hpath].
  apply IndexByte_app in Hpath. destruct Hpath as [Husername Hpath].
  apply IndexByte_app in Hpath. destruct Hpath as [_ Hpeer].
  repeat apply IndexByte_app_None; auto.
Qed.

End Filter.

(** On a path that holds no comma the filter is the intended one.  When the
    user, the topic and the read access are cleared, the normalized topic is
    under the requesting user's DM prefix, has exactly five pieces and holds
    no comma, the handler replies with the query on the criterion
    [<path>,<mirror path>], and that criterion selects exactly the presences
    on the path or on the mirror path [/Private/<peer>/DM/<requesting user>]
    (among those the other criteria keep). *)
Theorem dm_presences_both_sides
        (ctx : gin.Context) (criteria : models.PresenceCriteria.t)
        (st : models.Store) (user : models.User.t) (topic : models.Topic.t) :
  Visibility.cleared ctx criteria st user topic ->
  strings.HasPrefix
    (PresencesController.normalize (models.PresenceCriteria.Topic criteria))
    ("/Private/" ++ gin.CtxUsername ctx ++ "/DM/") = true ->
  List.length
    (strings.Split
       (PresencesController.normalize (models.PresenceCriteria.Topic criteria))
       "/") = 5%nat ->
  strings.IndexByte
    (PresencesController.normalize (models.PresenceCriteria.Topic criteria))
    "," = None ->
  exists peer,
    PresencesController.normalize (models.PresenceCriteria.Topic criteria)
    = Visibility.dm (gin.CtxUsername ctx) peer
    /\ PresencesController.listWithCriteria ctx criteria st
       = PresencesController.query st
           (models.PresenceCriteria.withTopic criteria
              (Visibility.dm (gin.CtxUsername ctx) peer ++ ","
               ++ Visibility.dm peer (gin.CtxUsername ctx)))
    /\ forall p,
        models.selects
          (models.PresenceCriteria.withTopic criteria
             (Visibility.dm (gin.CtxUsername ctx) peer ++ ","
              ++ Visibility.dm peer (gin.CtxUsername ctx))) p
        = Visibility.onEither (Visibility.dm (gin.CtxUsername ctx) peer)
            (Visibility.dm peer (gin.CtxUsername ctx)) p
          && Visibility.others criteria p.
Proof.
  intros Hcleared Hprefix Hpieces Hcomma.
  destruct (listWithCriteria_dm ctx criteria st user topic Hcleared Hprefix
              Hpieces) as [peer [Hshape Hreply]].
  exists peer. fold (Visibility.dm (gin.CtxUsername ctx) peer) in Hshape.
  rewrite Hshape in Hreply, Hcomma.
  split; [exact Hshape | split; [exact Hreply |]].
  intros p. rewrite selects_topic, unset_pair.
  rewrite oneOf_pair; [reflexivity | exact Hcomma | now apply dm_no_comma].
Qed.

Lemma dm_presences_both_sides_witness :
  Visibility.cleared (Sample.onTopic "bob" "Private/bob/DM/alice")
    (Sample.window "Private/bob/DM/alice") Sample.dmStore
    Sample.bob (Sample.own "/Private/bob/DM/alice" "bob")
  /\ List.length (strings.Split "/Private/bob/DM/alice" "/") = 5%nat
  /\ strings.IndexByte "/Private/bob/DM/alice" "," = None
  /\ response
       (PresencesController.listWithCriteria
          (Sample.onTopic "bob" "Private/bob/DM/alice")
          (Sample.window "Private/bob/DM/alice") Sample.dmStore)
     = gin.JSON http.StatusOK
         (gin.presencesJSON 2
            [Sample.seen "p1" "alice" "/Private/alice/DM/bob" 10;
             Sample.seen "p2" "bob" "/Private/bob/DM/alice" 11]).
Proof.
  split; [repeat split | split; [reflexivity | split; [reflexivity |]]].
  destruct (dm_presences_both_sides
              (Sample.onTopic "bob" "Private/bob/DM/alice")
              (Sample.window "Private/bob/DM/alice") Sample.dmStore
              Sample.bob (Sample.own "/Private/bob/DM/alice" "bob")
              (conj eq_refl (conj eq_refl eq_refl)) eq_refl eq_refl eq_refl)
    as [peer [Hshape [Hreply _]]].
  apply (append_cancel "/Private/bob/DM/" "alice" peer) in Hshape.
  subst peer. rewrite Hreply. reflexivity.
Defined.

(** With a comma in the peer piece the criterion [<path>,<mirror path>]
    reads as four alternatives, none of which is the path; the presence on
    the path is left out and one on the topic [x] comes back. *)
Lemma dm_presences_counterexample :
  Visibility.cleared (Sample.onTopic "alice" "Private/alice/DM/bob,x")
    (Sample.window "Private/alice/DM/bob,x") Sample.dmStore
    Sample.alice (Sample.own "/Private/alice/DM/bob,x" "alice")
  /\ strings.HasPrefix
       (PresencesController.normalize "Private/alice/DM/bob,x")
       "/Private/alice/DM/" = true
  /\ strings.Split (PresencesController.normalize "Private/alice/DM/bob,x") "/"
     = [""; "Private"; "alice"; "DM"; "bob,x"]
  /\ response
       (PresencesController.listWithCriteria
          (Sample.onTopic "alice" "Private/alice/DM/bob,x")
          (Sample.window "Private/alice/DM/bob,x") Sample.dmStore)
     = gin.JSON http.StatusOK
         (gin.presencesJSON 2
            [Sample.seen "p1" "alice" "/Private/alice/DM/bob" 10;
             Sample.seen "p4" "mallory" "x" 13]).
Proof. split; [repeat split | split; [| split]]; reflexivity. Qed.

(** C1, on the code.  Lines 96-97 join the path and the mirror path with a
    comma and escape nothing.  The username [bob,x] passes [Create]; alice
    lists her DM topic with that user, [Private/alice/DM/bob,x], which has
    five pieces under her prefix.  The criterion handed to the query is
    [/Private/alice/DM/bob,x,/Private/bob,x/DM/alice], four alternatives of
    which neither is the path or the mirror path: the reply leaves out
    alice's own presence on the path and holds bob's presence on
    [/Private/bob], a topic on which alice, asking directly, is refused
    with 403. *)
Theorem dm_comma_peer_leaks :
  response (UsersController.Create Sample.cfg Sample.bobx
              (Sample.emptyStore false))
  = Registration.created Sample.cfg (Registration.userIn Sample.cfg Sample.bobx)
  /\ models.User.Username (Registration.userIn Sample.cfg Sample.bobx) = "bob,x"
  /\ Visibility.cleared (Sample.onTopic "alice" "Private/alice/DM/bob,x")
       (models.PresenceCriteria.withTopic
          (PresencesController.buildCriteria
             (Sample.onTopic "alice" "Private/alice/DM/bob,x"))
          "Private/alice/DM/bob,x")
       Sample.leakStore Sample.alice
       (Sample.own "/Private/alice/DM/bob,x" "alice")
  /\ strings.HasPrefix
       (PresencesController.normalize "Private/alice/DM/bob,x")
       ("/Private/" ++ "alice" ++ "/DM/") = true
  /\ strings.Split (PresencesController.normalize "Private/alice/DM/bob,x") "/"
     = [""; "Private"; "alice"; "DM"; "bob,x"]
  /\ strings.Split
       ("/Private/alice/DM/bob,x" ++ "," ++ "/Private/bob,x/DM/alice") ","
     = ["/Private/alice/DM/bob"; "x"; "/Private/bob"; "x/DM/alice"]
  /\ PresencesController.List
       (Sample.onTopic "alice" "Private/alice/DM/bob,x") Sample.leakStore
     = reply Sample.leakStore
         (gin.JSON http.StatusOK
            (gin.presencesJSON 1 [Sample.seen "q2" "bob" "/Private/bob" 21]))
  /\ models.presences Sample.leakStore
     = [Sample.seen "q1" "alice" "/Private/alice/DM/bob,x" 20;
        Sample.seen "q2" "bob" "/Private/bob" 21;
        Sample.seen "q3" "bob,x" "/Private/bob,x/DM/alice" 22]
  /\ PresencesController.List (Sample.onTopic "alice" "Private/bob")
       Sample.leakStore
     = reply Sample.leakStore
         (gin.AbortWithError http.StatusForbidden
            "No Read Access to this topic.").
Proof.
  split; [reflexivity | split; [reflexivity |]].
  split; [repeat split |].
  repeat (split; [reflexivity |]). reflexivity.
Qed.

Example dm_alice_sees_bob :
  response
    (PresencesController.List
       (Sample.onTopic "alice" "Private/alice/DM/bob") Sample.dmStore)
  = gin.JSON 200%Z
      (gin.presencesJSON 2
         [Sample.seen "p1" "alice" "/Private/alice/DM/bob" 10;
          Sample.seen "p2" "bob" "/Private/bob/DM/alice" 11]).
Proof. reflexivity. Qed.

(** ** Registration *)

Section Create.

Variable cfg : viper.Config.
Variable userJSON : UsersController.userCreateJSON.t.
Variable st : models.Store.

Let userIn := Registration.userIn cfg userJSON.

(** [Create], case by case. *)
Lemma Create_cases :
  UsersController.Create cfg userJSON st
  = if Registration.short userIn
    then reply st (Registration.invalid userIn)
    else
      match UsersController.checkAllowedDomains cfg userJSON with
      | Some err =>
          reply st (gin.JSON http.StatusForbidden (gin.H [("error", err)]))
      | None =>
          if Registration.probes st userJSON
          then reply st Registration.conflict
          else
            match models.Insert st userIn with
            | None =>
                reply st (gin.AbortWithError http.StatusInternalServerError
                            models.failure)
            | Some (st', tokenVerify) =>
                mkResult (Registration.created cfg userIn) st'
                  [SendVerifyEmail (models.User.Username userIn)
                     (models.User.Email userIn) tokenVerify
                     (strings.TrimSpace
                        (UsersController.userCreateJSON.Callback userJSON));
                   WSUser "create" (models.User.Username userIn)]
            end
      end.
Proof. reflexivity. Qed.

(** A request that fails the length check changes nothing and starts
    nothing. *)
Lemma Create_rejects_short :
  Registration.short userIn = true ->
  UsersController.Create cfg userJSON st
  = reply st (Registration.invalid userIn).
Proof. intros Hshort. now rewrite Create_cases, Hshort. Qed.

Lemma Create_conflict_probed :
  response (UsersController.Create cfg userJSON st) = Registration.conflict ->
  Registration.probes st userJSON = true.
Proof.
  rewrite Create_cases.
  destruct (Registration.short userIn); [discriminate |].
  destruct (UsersController.checkAllowedDomains cfg userJSON); [discriminate |].
  destruct (Registration.probes st userJSON); [reflexivity |].
  destruct (models.Insert st userIn) as [[st' token] |]; discriminate.
Qed.

Lemma Insert_appends (user : models.User.t) (st' : models.Store)
      (token : string) :
  models.Insert st user = Some (st', token) ->
  models.users st' = (models.users st ++ [models.User.withToken user token])%list.
Proof.
  unfold models.Insert.
  destruct (models.uniqueIndexes st && _); [discriminate |].
  intros Hinsert. injection Hinsert as <- <-. reflexivity.
Qed.

Lemma Create_created_persists (obj : gin.Body) :
  response (UsersController.Create cfg userJSON st)
  = gin.JSON http.StatusCreated obj ->
  Registration.probes st userJSON = false
  /\ exists token,
      models.users (store (UsersController.Create cfg userJSON st))
      = (models.users st ++ [models.User.withToken userIn token])%list.
Proof.
  rewrite Create_cases.
  destruct (Registration.short userIn); [discriminate |].
  destruct (UsersController.checkAllowedDomains cfg userJSON); [discriminate |].
  destruct (Registration.probes st userJSON); [discriminate |].
  destruct (models.Insert st userIn) as [[st' token] |] eqn:Hinsert;
    [| discriminate].
  intros _. split; [reflexivity |]. exists token.
  now apply Insert_appends.
Qed.

End Create.

Lemma Reset_rejects_short (userJSON : UsersController.userResetJSON.t)
      (st : models.Store) :
  (String.length
     (strings.TrimSpace (UsersController.userResetJSON.Username userJSON)) < 3
   \/ String.length
        (strings.TrimSpace (UsersController.userResetJSON.Email userJSON)) < 7)%nat ->
  UsersController.Reset userJSON st
  = reply st
      (gin.AbortWithReturnError http.StatusInternalServerError
         ("Invalid username ("
          ++ strings.TrimSpace (UsersController.userResetJSON.Username userJSON)
          ++ ") or email ("
          ++ strings.TrimSpace (UsersController.userResetJSON.Email userJSON)
          ++ ")")).
Proof.
  intros Hshort. unfold UsersController.Reset. simpl.
  destruct Hshort as [Hshort | Hshort]; apply Nat.ltb_lt in Hshort;
    rewrite Hshort; [| rewrite orb_true_r]; reflexivity.
Qed.

(** A second request that repeats a value the first one persisted is turned
    down as a conflict. *)
Lemma Create_second_conflict
      (cfg : viper.Config) (first second : UsersController.userCreateJSON.t)
      (st : models.Store) (obj : gin.Body) :
  response (UsersController.Create cfg first st)
  = gin.JSON http.StatusCreated obj ->
  UsersController.userCreateJSON.Email second
  = models.User.Email (Registration.userIn cfg first)
  \/ UsersController.userCreateJSON.Username second
     = models.User.Username (Registration.userIn cfg first)
  \/ UsersController.userCreateJSON.Fullname second
     = models.User.Fullname (Registration.userIn cfg first) ->
  Registration.short (Registration.userIn cfg second) = false ->
  UsersController.checkAllowedDomains cfg second = None ->
  UsersController.Create cfg second
    (store (UsersController.Create cfg first st))
  = reply (store (UsersController.Create cfg first st)) Registration.conflict.
Proof.
  intros Hcreated Hsame Hlong Hallowed.
  destruct (Create_created_persists cfg first st obj Hcreated)
    as [_ [token Husers]].
  rewrite (Create_cases cfg second), Hlong, Hallowed.
  assert (Hprobes : Registration.probes
                      (store (UsersController.Create cfg first st)) second
                    = true).
  { unfold Registration.probes, models.IsEmailExists, models.IsUsernameExists,
      models.IsFullnameExists.
    rewrite Husers, !existsb_app. cbn [existsb].
    destruct Hsame as [Hsame | [Hsame | Hsame]]; rewrite Hsame;
      cbn [models.User.withToken models.User.Email models.User.Username
           models.User.Fullname];
      rewrite String.eqb_refl; now rewrite ?orb_true_r. }
  now rewrite Hprobes.
Qed.

(** C8.  [Create] decides the conflict on the values of the request as
    they came: it answers with the conflict only if one of the three probes
    on the raw email, username and fullname finds a user.  The user it
    persists on success has the trimmed fullname and email, and as username
    the email's local part when the username-from-email policy is on and
    the email has one, the submitted username when the policy is off.  For
    some requests every probed value differs from the persisted one. *)
Theorem create_probes_raw_persists_trimmed
        (cfg : viper.Config) (userJSON : UsersController.userCreateJSON.t)
        (st : models.Store) :
  (response (UsersController.Create cfg userJSON st) = Registration.conflict ->
   Registration.probes st userJSON = true)
  /\ (forall obj,
         response (UsersController.Create cfg userJSON st)
         = gin.JSON http.StatusCreated obj ->
         Registration.probes st userJSON = false
         /\ exists token,
             models.users (store (UsersController.Create cfg userJSON st))
             = (models.users st
                ++ [models.User.withToken (Registration.userIn cfg userJSON)
                      token])%list)
  /\ models.User.Fullname (Registration.userIn cfg userJSON)
     = strings.TrimSpace (UsersController.userCreateJSON.Fullname userJSON)
  /\ models.User.Email (Registration.userIn cfg userJSON)
     = strings.TrimSpace (UsersController.userCreateJSON.Email userJSON)
  /\ (forall i,
         viper.username_from_email cfg = true ->
         strings.IndexByte (UsersController.userCreateJSON.Email userJSON) "@"
         = Some i ->
         (0 < i)%nat ->
         models.User.Username (Registration.userIn cfg userJSON)
         = String.substring 0 i (UsersController.userCreateJSON.Email userJSON))
  /\ (viper.username_from_email cfg = false ->
      models.User.Username (Registration.userIn cfg userJSON)
      = UsersController.userCreateJSON.Username userJSON)
  /\ (exists cfg' userJSON' st' obj,
         response (UsersController.Create cfg' userJSON' st')
         = gin.JSON http.StatusCreated obj
         /\ UsersController.userCreateJSON.Email userJSON'
            <> models.User.Email (Registration.userIn cfg' userJSON')
         /\ UsersController.userCreateJSON.Username userJSON'
            <> models.User.Username (Registration.userIn cfg' userJSON')
         /\ UsersController.userCreateJSON.Fullname userJSON'
            <> models.User.Fullname (Registration.userIn cfg' userJSON')).
Proof.
  split; [apply Create_conflict_probed |].
  split; [apply Create_created_persists |].
  split; [reflexivity |]. split; [reflexivity |].
  split; [| split].
  - intros i Hpolicy Hat Hpos. simpl. unfold UsersController.computeUsername.
    apply Nat.ltb_lt in Hpos. now rewrite Hpolicy, Hat, Hpos.
  - intros Hpolicy. simpl. unfold UsersController.computeUsername.
    now rewrite Hpolicy.
  - exists Sample.cfgFromEmail, Sample.blanks, (Sample.emptyStore false).
    eexists. split; [reflexivity |]. repeat split; discriminate.
Qed.

Lemma create_probes_raw_persists_trimmed_witness :
  response (UsersController.Create Sample.cfgFromEmail Sample.blanks
              (Sample.emptyStore false))
  = Registration.created Sample.cfgFromEmail
      (Registration.userIn Sample.cfgFromEmail Sample.blanks)
  /\ Registration.probes (Sample.emptyStore false) Sample.blanks = false
  /\ map (fun u => (models.User.Username u, models.User.Fullname u,
                    models.User.Email u))
       (models.users
          (store (UsersController.Create Sample.cfgFromEmail Sample.blanks
                    (Sample.emptyStore false))))
     = [(" dave", "Dave Bowman", "dave@example.org")].
Proof.
  split; [reflexivity |].
  destruct (proj1 (proj2 (create_probes_raw_persists_trimmed
                            Sample.cfgFromEmail Sample.blanks
                            (Sample.emptyStore false)))
              _ eq_refl) as [Hprobes [token Husers]].
  split; [exact Hprobes |].
  rewrite Husers. reflexivity.
Defined.

(** C3, on the code.  Two registrations carry the same email, written with
    a leading blank.  The first is created and persisted with the trimmed
    email; the probes of the second look for the untrimmed one and find
    nothing, so the second is not turned down as a conflict: in a store
    without unique constraints it is created, two persisted users then
    share the email; in a store with them [Insert] fails and the reply is
    the 500 abort. *)
Theorem create_same_email_twice :
  UsersController.userCreateJSON.Email Sample.bob1
  = UsersController.userCreateJSON.Email Sample.bob2
  /\ response (UsersController.Create Sample.cfg Sample.bob1
                 (Sample.emptyStore false))
     = Registration.created Sample.cfg
         (Registration.userIn Sample.cfg Sample.bob1)
  /\ response
       (UsersController.Create Sample.cfg Sample.bob2
          (store (UsersController.Create Sample.cfg Sample.bob1
                    (Sample.emptyStore false))))
     = Registration.created Sample.cfg
         (Registration.userIn Sample.cfg Sample.bob2)
  /\ map (fun u => (models.User.Username u, models.User.Email u))
       (models.users
          (store
             (UsersController.Create Sample.cfg Sample.bob2
                (store (UsersController.Create Sample.cfg Sample.bob1
                          (Sample.emptyStore false))))))
     = [("bob1", "bob@example.org"); ("bob2", "bob@example.org")]
  /\ response (UsersController.Create Sample.cfg Sample.bob1
                 (Sample.emptyStore true))
     = Registration.created Sample.cfg
         (Registration.userIn Sample.cfg Sample.bob1)
  /\ response
       (UsersController.Create Sample.cfg Sample.bob2
          (store (UsersController.Create Sample.cfg Sample.bob1
                    (Sample.emptyStore true))))
     = gin.AbortWithError http.StatusInternalServerError models.failure
  /\ gin.AbortWithError http.StatusInternalServerError models.failure
     <> Registration.conflict
  /\ Registration.created Sample.cfg
       (Registration.userIn Sample.cfg Sample.bob2)
     <> Registration.conflict.
Proof. repeat split; discriminate. Qed.

(** C7, on the code.  A registration whose username is two letters and a
    blank has a trimmed username of length 2, yet [Create] does not reject
    it: the username it checks and persists is not trimmed.  The user is
    persisted and the mail and the event are started.  [Reset] trims the
    username and rejects the same one. *)
Theorem create_accepts_padded_username :
  String.length
    (strings.TrimSpace (UsersController.userCreateJSON.Username Sample.padded))
  = 2%nat
  /\ UsersController.Create Sample.cfg Sample.padded (Sample.emptyStore false)
     = mkResult
         (gin.JSON http.StatusCreated
            (gin.H [("info", "please check your mail to validate your account.")]))
         (models.mkStore
            [models.User.withToken
               (Sample.person "ab " "Alice Liddell" "alice@example.org")
               "verify-0"]
            [] [] 1 false)
         [SendVerifyEmail "ab " "alice@example.org" "verify-0" "";
          WSUser "create" "ab "]
  /\ UsersController.Reset
       (UsersController.userResetJSON.mk "ab " "alice@example.org" "")
       (Sample.emptyStore false)
     = reply (Sample.emptyStore false)
         (gin.AbortWithReturnError http.StatusInternalServerError
            "Invalid username (ab) or email (alice@example.org)").
Proof. repeat split. Qed.

(** ** The library functions on small inputs *)

Example Split_dm :
  strings.Split "/Private/alice/DM/bob" "/" = [""; "Private"; "alice"; "DM"; "bob"].
Proof. reflexivity. Qed.

Example TrimSpace_ex :
  strings.TrimSpace (String (ascii_of_nat 9) "  a b " ++ String (ascii_of_nat 194) (String (ascii_of_nat 160) "")) = "a b".
Proof. reflexivity. Qed.

Example Atoi_ex :
  strconv.Atoi "-12" = Some (-12)%Z /\ strconv.Atoi "1x" = None /\ strconv.Atoi "" = None
  /\ strconv.Atoi "9223372036854775808" = None /\ strconv.Atoi "+7" = Some 7%Z.
Proof. repeat split; reflexivity. Qed.

Example TrimSpace_runes :
  strings.TrimSpace
    (string_of_list_ascii (map ascii_of_nat [226; 128; 131; 97; 227; 128; 128]))
  = "a"
  /\ strings.TrimSpace (string_of_list_ascii (map ascii_of_nat [226; 128; 139]))
     = string_of_list_ascii (map ascii_of_nat [226; 128; 139]).
Proof. split; reflexivity. Qed.

Example HasSuffix_domain :
  strings.HasSuffix "alice@example.org" "@example.org" = true
  /\ strings.HasSuffix "alice@example.org" "@example.com" = false
  /\ strings.HasSuffix "org" "@example.org" = false.
Proof. repeat split. Qed.

Example computeUsername_local_part :
  UsersController.computeUsername Sample.cfgFromEmail
    (UsersController.userCreateJSON.mk "x" "Alice Liddell" "alice@example.org" "")
  = "alice"
  /\ UsersController.computeUsername Sample.cfgFromEmail
       (UsersController.userCreateJSON.mk "x" "Alice Liddell" "@example.org" "")
     = "x"
  /\ UsersController.computeUsername Sample.cfg
       (UsersController.userCreateJSON.mk "x" "Alice Liddell" "alice@example.org" "")
     = "x".
Proof. repeat split. Qed.

(** * Further properties of the controllers *)

(** ** Suffixes and the first occurrence of a byte *)

Section Suffixes.

Lemma drop_app_length (p q : string) :
  strings.drop (String.length p) (p ++ q) = q.
Proof. induction p as [| c p IH]; simpl; [now destruct q | exact IH]. Qed.

Lemma take_drop (n : nat) :
  forall s : string, String.substring 0 n s ++ strings.drop n s = s.
Proof.
  induction n as [| n IH]; intros s; destruct s as [| c s]; simpl;
    try reflexivity.
  now rewrite IH.
Qed.

(** [HasSuffix] holds exactly of the strings that end with the suffix. *)
Lemma HasSuffix_iff (s suf : string) :
  strings.HasSuffix s suf = true <-> exists p, s = p ++ suf.
Proof.
  unfold strings.HasSuffix. split.
  - intros Hsuf. apply andb_true_iff in Hsuf. destruct Hsuf as [_ Hdrop].
    apply String.eqb_eq in Hdrop.
    exists (String.substring 0 (String.length s - String.length suf) s).
    transitivity
      (String.substring 0 (String.length s - String.length suf) s
       ++ strings.drop (String.length s - String.length suf) s).
    + symmetry. apply take_drop.
    + f_equal. exact Hdrop.
  - intros [p ->]. rewrite length_append. apply andb_true_iff. split.
    + apply Nat.leb_le. lia.
    + replace (String.length p + String.length suf - String.length suf)
        with (String.length p) by lia.
      rewrite drop_app_length. apply String.eqb_refl.
Qed.

(** The first occurrence of a byte cuts the string in two, the byte absent
    from the first part. *)
Lemma IndexByte_cut (c : ascii) :
  forall (s : string) (i : nat),
    strings.IndexByte s c = Some i ->
    exists rest,
      s = String.substring 0 i s ++ String c rest
      /\ String.length (String.substring 0 i s) = i
      /\ strings.IndexByte (String.substring 0 i s) c = None.
Proof.
  induction s as [| a s IH]; intros i Hi; simpl in Hi; [discriminate |].
  destruct (Ascii.eqb a c) eqn:Hac.
  - injection Hi as <-. apply Ascii.eqb_eq in Hac. subst a.
    exists s. repeat split.
  - destruct (strings.IndexByte s c) as [j |] eqn:Hj; [| discriminate].
    injection Hi as <-. destruct (IH j eq_refl) as [rest [Hs [Hlen Hnone]]].
    exists rest. simpl. rewrite Hac, Hnone, Hlen. repeat split.
    now rewrite <- Hs.
Qed.

End Suffixes.

(** ** Allowed domains and the username taken from the email *)

(** X1.  [checkAllowedDomains] lets a registration through exactly when no
    domain list is configured or the email as submitted ends with [@] and
    one of the comma-separated domains of the list. *)
Theorem allowed_domains_suffix
        (cfg : viper.Config) (userJSON : UsersController.userCreateJSON.t) :
  UsersController.checkAllowedDomains cfg userJSON = None
  <-> (viper.allowed_domains cfg = ""
       \/ exists domain mailbox,
           In domain (strings.Split (viper.allowed_domains cfg) ",")
           /\ UsersController.userCreateJSON.Email userJSON
              = mailbox ++ "@" ++ domain).
Proof.
  unfold UsersController.checkAllowedDomains.
  destruct (String.eqb_spec (viper.allowed_domains cfg) "") as [Hnone | Hsome];
    simpl.
  - split; [now left | reflexivity].
  - destruct (existsb _ _) eqn:Hany.
    + split; [| reflexivity]. intros _. right.
      apply existsb_exists in Hany. destruct Hany as [domain [Hin Hsuf]].
      apply HasSuffix_iff in Hsuf. destruct Hsuf as [mailbox Hmail].
      now exists domain, mailbox.
    + split; [discriminate |].
      intros [Hnone | [domain [mailbox [Hin Hmail]]]]; [contradiction |].
      apply Bool.not_true_iff_false in Hany. exfalso. apply Hany.
      apply existsb_exists. exists domain. split; [exact Hin |].
      apply HasSuffix_iff. exists mailbox. exact Hmail.
Qed.

Lemma allowed_domains_suffix_witness :
  UsersController.checkAllowedDomains Sample.cfgDomains Sample.erin = None.
Proof.
  apply (proj2 (allowed_domains_suffix Sample.cfgDomains Sample.erin)).
  right. exists "example.net", "erin". split; [right; left |]; reflexivity.
Defined.

(** X2.  With the username-from-email policy on and an [@] after the first
    byte of the email, the computed username is what precedes the first
    [@]: it is not empty, holds no [@], and the email is that username, an
    [@] and a remainder.  In every other case the computed username is the
    submitted one. *)
Theorem computeUsername_cuts_at_first_at
        (cfg : viper.Config) (userJSON : UsersController.userCreateJSON.t) :
  (forall i,
      viper.username_from_email cfg = true ->
      strings.IndexByte (UsersController.userCreateJSON.Email userJSON) "@"
      = Some i ->
      (0 < i)%nat ->
      exists rest,
        UsersController.userCreateJSON.Email userJSON
        = UsersController.computeUsername cfg userJSON ++ "@" ++ rest
        /\ String.length (UsersController.computeUsername cfg userJSON) = i
        /\ strings.IndexByte (UsersController.computeUsername cfg userJSON) "@"
           = None)
  /\ (viper.username_from_email cfg = false
      \/ strings.IndexByte (UsersController.userCreateJSON.Email userJSON) "@"
         = None
      \/ strings.IndexByte (UsersController.userCreateJSON.Email userJSON) "@"
         = Some 0%nat ->
      UsersController.computeUsername cfg userJSON
      = UsersController.userCreateJSON.Username userJSON).
Proof.
  unfold UsersController.computeUsername. split.
  - intros i Hpolicy Hat Hpos. rewrite Hpolicy, Hat.
    apply Nat.ltb_lt in Hpos. rewrite Hpos.
    destruct (IndexByte_cut "@" _ i Hat) as [rest [Hmail [Hlen Hnone]]].
    exists rest. now repeat split.
  - intros [Hpolicy | [Hat | Hat]].
    + now rewrite Hpolicy.
    + rewrite Hat. now destruct (viper.username_from_email cfg).
    + rewrite Hat. now destruct (viper.username_from_email cfg).
Qed.

Lemma computeUsername_cuts_at_first_at_witness :
  exists rest,
    UsersController.userCreateJSON.Email Sample.blanks
    = UsersController.computeUsername Sample.cfgFromEmail Sample.blanks
      ++ "@" ++ rest
    /\ String.length
         (UsersController.computeUsername Sample.cfgFromEmail Sample.blanks)
       = 5%nat
    /\ strings.IndexByte
         (UsersController.computeUsername Sample.cfgFromEmail Sample.blanks) "@"
       = None.
Proof.
  apply (proj1 (computeUsername_cuts_at_first_at Sample.cfgFromEmail
                  Sample.blanks) 5%nat); [reflexivity | reflexivity | lia].
Defined.

(** ** What a registration leaves behind *)

(** X3.  [Create] either replies something other than 201, and then the
    store is as before and no detached call is started; or it replies 201,
    and then exactly one user was added at the end of the users, with
    username of at least 3 bytes, fullname of at least 3 and email of at
    least 7, nothing else of the store changed, and the two detached calls
    are the verification mail, carrying the token persisted with the user,
    and the create event. *)
Theorem create_changes_only_when_created
        (cfg : viper.Config) (userJSON : UsersController.userCreateJSON.t)
        (st : models.Store) :
  (store (UsersController.Create cfg userJSON st) = st
   /\ spawned (UsersController.Create cfg userJSON st) = []
   /\ forall obj,
       response (UsersController.Create cfg userJSON st)
       <> gin.JSON http.StatusCreated obj)
  \/ (exists token,
         response (UsersController.Create cfg userJSON st)
         = Registration.created cfg (Registration.userIn cfg userJSON)
         /\ models.users (store (UsersController.Create cfg userJSON st))
            = (models.users st
               ++ [models.User.withToken (Registration.userIn cfg userJSON)
                     token])%list
         /\ models.topics (store (UsersController.Create cfg userJSON st))
            = models.topics st
         /\ models.presences (store (UsersController.Create cfg userJSON st))
            = models.presences st
         /\ spawned (UsersController.Create cfg userJSON st)
            = [SendVerifyEmail
                 (models.User.Username (Registration.userIn cfg userJSON))
                 (models.User.Email (Registration.userIn cfg userJSON))
                 token
                 (strings.TrimSpace
                    (UsersController.userCreateJSON.Callback userJSON));
               WSUser "create"
                 (models.User.Username (Registration.userIn cfg userJSON))]
         /\ (3 <= String.length
                    (models.User.Username (Registration.userIn cfg userJSON)))%nat
         /\ (3 <= String.length
                    (models.User.Fullname (Registration.userIn cfg userJSON)))%nat
         /\ (7 <= String.length
                    (models.User.Email (Registration.userIn cfg userJSON)))%nat).
Proof.
  rewrite Create_cases.
  destruct (Registration.short (Registration.userIn cfg userJSON)) eqn:Hshort;
    [left; repeat split; discriminate |].
  destruct (UsersController.checkAllowedDomains cfg userJSON);
    [left; repeat split; discriminate |].
  destruct (Registration.probes st userJSON);
    [left; repeat split; discriminate |].
  destruct (models.Insert st (Registration.userIn cfg userJSON))
    as [[st' token] |] eqn:Hinsert; [| left; repeat split; discriminate].
  right. exists token.
  unfold Registration.short in Hshort.
  apply orb_false_iff in Hshort. destruct Hshort as [Hshort Hemail].
  apply orb_false_iff in Hshort. destruct Hshort as [Husername Hfullname].
  apply Nat.ltb_ge in Husername, Hfullname, Hemail.
  pose proof (Insert_appends st _ _ _ Hinsert) as Husers.
  unfold models.Insert in Hinsert.
  destruct (models.uniqueIndexes st && _); [discriminate |].
  injection Hinsert as <- <-.
  repeat split; assumption.
Qed.

(** X4.  On an instance with a domain list, [Create] replies 201 only for
    an email that, as submitted, ends with [@] and a domain of the list. *)
Theorem created_only_under_allowed_domain
        (cfg : viper.Config) (userJSON : UsersController.userCreateJSON.t)
        (st : models.Store) (obj : gin.Body) :
  viper.allowed_domains cfg <> "" ->
  response (UsersController.Create cfg userJSON st)
  = gin.JSON http.StatusCreated obj ->
  exists domain mailbox,
    In domain (strings.Split (viper.allowed_domains cfg) ",")
    /\ UsersController.userCreateJSON.Email userJSON
       = mailbox ++ "@" ++ domain.
Proof.
  intros Hlist. rewrite Create_cases.
  destruct (Registration.short (Registration.userIn cfg userJSON));
    [discriminate |].
  destruct (UsersController.checkAllowedDomains cfg userJSON) eqn:Hallowed;
    [discriminate |].
  intros _. unfold UsersController.checkAllowedDomains in Hallowed.
  apply String.eqb_neq in Hlist. rewrite Hlist in Hallowed. simpl in Hallowed.
  destruct (existsb _ _) eqn:Hany; [| discriminate].
  apply existsb_exists in Hany. destruct Hany as [domain [Hin Hsuf]].
  apply HasSuffix_iff in Hsuf. destruct Hsuf as [mailbox Hmail].
  now exists domain, mailbox.
Qed.

Lemma created_only_under_allowed_domain_witness :
  viper.allowed_domains Sample.cfgDomains <> ""
  /\ response (UsersController.Create Sample.cfgDomains Sample.erin
                 (Sample.emptyStore false))
     = gin.JSON http.StatusCreated
         (gin.H [("info", "please check your mail to validate your account.")])
  /\ exists domain mailbox,
      In domain ["example.org"; "example.net"]
      /\ "erin@example.net" = mailbox ++ "@" ++ domain.
Proof.
  split; [discriminate | split; [reflexivity |]].
  apply (created_only_under_allowed_domain Sample.cfgDomains Sample.erin
           (Sample.emptyStore false)
           (gin.H [("info", "please check your mail to validate your account.")]));
    [discriminate | reflexivity].
Defined.

(** ** Listing presences *)

Section Listing.

Import models.

Lemma prefix_app (p r : string) : String.prefix p (p ++ r) = true.
Proof.
  induction p as [| c p IH]; simpl; [now destruct r |].
  destruct (Ascii.ascii_dec c c) as [_ | Hcc]; [exact IH | now elim Hcc].
Qed.

Lemma dm_prefix (username rest : string) :
  strings.HasPrefix (Visibility.dm username rest)
    ("/Private/" ++ username ++ "/DM/") = true.
Proof.
  unfold strings.HasPrefix, Visibility.dm.
  replace ("/Private/" ++ username ++ "/DM/" ++ rest)
    with (("/Private/" ++ username ++ "/DM/") ++ rest)
    by now rewrite !append_assoc.
  apply prefix_app.
Qed.

Lemma dm_inj (username a b : string) :
  Visibility.dm username a = Visibility.dm username b -> a = b.
Proof.
  unfold Visibility.dm. intros Heq.
  apply append_cancel in Heq. apply append_cancel in Heq.
  now apply append_cancel in Heq.
Qed.

Lemma dm_pieces (username rest : string) :
  strings.Split (Visibility.dm username rest) "/"
  = ([""; "Private"] ++ strings.Split username "/"
     ++ ["DM"] ++ strings.Split rest "/")%list.
Proof.
  unfold Visibility.dm.
  change ("/Private/" ++ username ++ "/DM/" ++ rest)
    with ("" ++ String "/"
            ("Private" ++ String "/"
               (username ++ String "/" ("DM" ++ String "/" rest)))).
  now rewrite !Split_app.
Qed.

(** A DM path has five pieces exactly when neither name holds a
    separator. *)
Lemma dm_five (username rest : string) :
  List.length (strings.Split (Visibility.dm username rest) "/") = 5%nat
  <-> strings.IndexByte username "/" = None
      /\ strings.IndexByte rest "/" = None.
Proof.
  rewrite dm_pieces, !length_app. cbn [List.length].
  pose proof (Split_length "/" username) as Hu.
  pose proof (Split_length "/" rest) as Hr.
  split.
  - intros Hfive. split; apply Split_single; lia.
  - intros [Husername Hrest].
    rewrite (Split_whole "/" _ Husername), (Split_whole "/" _ Hrest).
    reflexivity.
Qed.

Lemma oneOf_single (a value : string) :
  strings.IndexByte a "," = None -> oneOf a value = String.eqb value a.
Proof.
  intros Ha. unfold oneOf. rewrite (Split_whole "," a Ha). simpl.
  now rewrite orb_false_r.
Qed.

Lemma dm_comma_free (username peer : string) :
  strings.IndexByte username "," = None ->
  strings.IndexByte peer "," = None ->
  strings.IndexByte (Visibility.dm username peer) "," = None.
Proof.
  intros Husername Hpeer. unfold Visibility.dm.
  repeat apply IndexByte_app_None; auto.
Qed.

(** Two criteria with the same page and the same selection get the same
    reply. *)
Lemma query_ext (st : Store) (c c' : PresenceCriteria.t) :
  PresenceCriteria.Skip c = PresenceCriteria.Skip c' ->
  PresenceCriteria.Limit c = PresenceCriteria.Limit c' ->
  (forall p, selects c p = selects c' p) ->
  PresencesController.query st c = PresencesController.query st c'.
Proof.
  intros Hskip Hlimit Hselects.
  unfold PresencesController.query, ListPresences.
  rewrite Hskip, Hlimit, (filter_ext _ _ Hselects). reflexivity.
Qed.

End Listing.

(** X5.  For a cleared request whose normalized topic is
    [/Private/<requesting user>/DM/<rest>], the code decides on the
    separators alone: when neither the username nor the rest holds a [/]
    (the rest may be empty) the reply is the query on the path and its
    mirror; otherwise it is the 500 [Wrong topic name for DM:] abort.  So a
    user whose name holds a [/] never gets a list under its own DM
    prefix. *)
Theorem dm_expansion_decided_by_separators
        (ctx : gin.Context) (criteria : models.PresenceCriteria.t)
        (st : models.Store) (user : models.User.t) (topic : models.Topic.t)
        (rest : string) :
  Visibility.cleared ctx criteria st user topic ->
  PresencesController.normalize (models.PresenceCriteria.Topic criteria)
  = Visibility.dm (gin.CtxUsername ctx) rest ->
  (strings.IndexByte (gin.CtxUsername ctx) "/" = None
   /\ strings.IndexByte rest "/" = None ->
   PresencesController.listWithCriteria ctx criteria st
   = PresencesController.query st
       (models.PresenceCriteria.withTopic criteria
          (Visibility.dm (gin.CtxUsername ctx) rest ++ ","
           ++ Visibility.dm rest (gin.CtxUsername ctx))))
  /\ (~ (strings.IndexByte (gin.CtxUsername ctx) "/" = None
         /\ strings.IndexByte rest "/" = None) ->
      PresencesController.listWithCriteria ctx criteria st
      = reply st
          (gin.AbortWithError http.StatusInternalServerError
             ("Wrong topic name for DM:"
              ++ Visibility.dm (gin.CtxUsername ctx) rest))).
Proof.
  intros Hcleared Hpath.
  pose proof (dm_prefix (gin.CtxUsername ctx) rest) as Hprefix.
  rewrite <- Hpath in Hprefix. split.
  - intros Hfree. apply dm_five in Hfree. rewrite <- Hpath in Hfree.
    destruct (listWithCriteria_dm ctx criteria st user topic Hcleared Hprefix
                Hfree) as [peer [Hshape Hreply]].
    fold (Visibility.dm (gin.CtxUsername ctx) peer) in Hshape.
    rewrite Hpath in Hshape. apply dm_inj in Hshape. subst peer.
    rewrite Hreply, Hpath. reflexivity.
  - intros Hheld.
    rewrite (listWithCriteria_malformed ctx criteria st user topic Hcleared
               Hprefix).
    + now rewrite Hpath.
    + rewrite Hpath. intros Hfive. apply Hheld. now apply dm_five.
Qed.

Lemma dm_expansion_decided_by_separators_witness :
  Visibility.cleared (Sample.onTopic "alice" "Private/alice/DM/bob/extra")
    (Sample.window "Private/alice/DM/bob/extra") Sample.dmStore
    Sample.alice (Sample.own "/Private/alice/DM/bob/extra" "alice")
  /\ strings.IndexByte "bob/extra" "/" = Some 3%nat
  /\ response
       (PresencesController.listWithCriteria
          (Sample.onTopic "alice" "Private/alice/DM/bob/extra")
          (Sample.window "Private/alice/DM/bob/extra") Sample.dmStore)
     = gin.AbortWithError http.StatusInternalServerError
         "Wrong topic name for DM:/Private/alice/DM/bob/extra".
Proof.
  split; [repeat split | split; [reflexivity |]].
  rewrite (proj2 (dm_expansion_decided_by_separators
                    (Sample.onTopic "alice" "Private/alice/DM/bob/extra")
                    (Sample.window "Private/alice/DM/bob/extra")
                    Sample.dmStore Sample.alice
                    (Sample.own "/Private/alice/DM/bob/extra" "alice")
                    "bob/extra"
                    (conj eq_refl (conj eq_refl eq_refl)) eq_refl)).
  - reflexivity.
  - intros [_ Hrest]. discriminate Hrest.
Defined.

(** X6.  The two participants of a DM get the same reply: when both are
    cleared on their own side, neither name holds a [/] or a comma, and the
    other criteria are the same, listing [/Private/<a>/DM/<b>] as [a] and
    listing [/Private/<b>/DM/<a>] as [b] give the same count and the same
    presences. *)
Theorem dm_participants_same_reply
        (ctxA ctxB : gin.Context) (criteria : models.PresenceCriteria.t)
        (topicA topicB : string) (st : models.Store)
        (userA userB : models.User.t) (sideA sideB : models.Topic.t) :
  Visibility.cleared ctxA (models.PresenceCriteria.withTopic criteria topicA)
    st userA sideA ->
  Visibility.cleared ctxB (models.PresenceCriteria.withTopic criteria topicB)
    st userB sideB ->
  PresencesController.normalize topicA
  = Visibility.dm (gin.CtxUsername ctxA) (gin.CtxUsername ctxB) ->
  PresencesController.normalize topicB
  = Visibility.dm (gin.CtxUsername ctxB) (gin.CtxUsername ctxA) ->
  strings.IndexByte (gin.CtxUsername ctxA) "/" = None ->
  strings.IndexByte (gin.CtxUsername ctxB) "/" = None ->
  strings.IndexByte (gin.CtxUsername ctxA) "," = None ->
  strings.IndexByte (gin.CtxUsername ctxB) "," = None ->
  PresencesController.listWithCriteria ctxA
    (models.PresenceCriteria.withTopic criteria topicA) st
  = PresencesController.listWithCriteria ctxB
      (models.PresenceCriteria.withTopic criteria topicB) st.
Proof.
  intros HclearedA HclearedB HpathA HpathB HslashA HslashB HcommaA HcommaB.
  pose proof (dm_prefix (gin.CtxUsername ctxA) (gin.CtxUsername ctxB)) as HprefixA.
  pose proof (dm_prefix (gin.CtxUsername ctxB) (gin.CtxUsername ctxA)) as HprefixB.
  pose proof (proj2 (dm_five _ _) (conj HslashA HslashB)) as HfiveA.
  pose proof (proj2 (dm_five _ _) (conj HslashB HslashA)) as HfiveB.
  pose proof (dm_comma_free _ _ HcommaA HcommaB) as HfreeA.
  pose proof (dm_comma_free _ _ HcommaB HcommaA) as HfreeB.
  rewrite <- HpathA in HprefixA, HfiveA. rewrite <- HpathB in HprefixB, HfiveB.
  destruct (listWithCriteria_dm ctxA _ st userA sideA HclearedA HprefixA HfiveA)
    as [peerA [HshapeA HreplyA]].
  destruct (listWithCriteria_dm ctxB _ st userB sideB HclearedB HprefixB HfiveB)
    as [peerB [HshapeB HreplyB]].
  cbn [models.PresenceCriteria.Topic models.PresenceCriteria.withTopic]
    in HshapeA, HshapeB, HreplyA, HreplyB.
  fold (Visibility.dm (gin.CtxUsername ctxA) peerA) in HshapeA.
  fold (Visibility.dm (gin.CtxUsername ctxB) peerB) in HshapeB.
  rewrite HpathA in HshapeA. rewrite HpathB in HshapeB.
  apply dm_inj in HshapeA. apply dm_inj in HshapeB. subst peerA peerB.
  rewrite HreplyA, HreplyB, HpathA, HpathB.
  fold (Visibility.dm (gin.CtxUsername ctxB) (gin.CtxUsername ctxA)).
  fold (Visibility.dm (gin.CtxUsername ctxA) (gin.CtxUsername ctxB)).
  apply query_ext; [reflexivity | reflexivity |].
  intros p.
  change (models.selects
            (models.PresenceCriteria.withTopic criteria
               (Visibility.dm (gin.CtxUsername ctxA) (gin.CtxUsername ctxB)
                ++ ","
                ++ Visibility.dm (gin.CtxUsername ctxB) (gin.CtxUsername ctxA)))
            p
          = models.selects
              (models.PresenceCriteria.withTopic criteria
                 (Visibility.dm (gin.CtxUsername ctxB) (gin.CtxUsername ctxA)
                  ++ ","
                  ++ Visibility.dm (gin.CtxUsername ctxA)
                       (gin.CtxUsername ctxB)))
              p).
  rewrite !selects_topic, !unset_pair, !oneOf_pair by assumption.
  simpl. now rewrite orb_comm.
Qed.

Lemma dm_participants_same_reply_witness :
  PresencesController.listWithCriteria
    (Sample.onTopic "alice" "Private/alice/DM/bob")
    (models.PresenceCriteria.withTopic (Sample.window "") "Private/alice/DM/bob")
    Sample.dmStore
  = PresencesController.listWithCriteria
      (Sample.onTopic "bob" "Private/bob/DM/alice")
      (models.PresenceCriteria.withTopic (Sample.window "")
         "Private/bob/DM/alice")
      Sample.dmStore.
Proof.
  apply (dm_participants_same_reply
           (Sample.onTopic "alice" "Private/alice/DM/bob")
           (Sample.onTopic "bob" "Private/bob/DM/alice")
           (Sample.window "") "Private/alice/DM/bob" "Private/bob/DM/alice"
           Sample.dmStore Sample.alice Sample.bob
           (Sample.own "/Private/alice/DM/bob" "alice")
           (Sample.own "/Private/bob/DM/alice" "bob"));
    try reflexivity; repeat split.
Defined.

(** X7.  For a cleared request whose normalized topic is not empty, is not
    under the requesting user's DM prefix and holds no comma, the reply is
    the query on that path alone: no mirror path is added, and the
    criterion selects exactly the presences on the path (among those the
    other criteria keep).  This is the case of the peer's side of a DM:
    asked as [a], the path [/Private/<b>/DM/<a>] lists only itself. *)
Theorem plain_path_lists_itself
        (ctx : gin.Context) (criteria : models.PresenceCriteria.t)
        (st : models.Store) (user : models.User.t) (topic : models.Topic.t) :
  Visibility.cleared ctx criteria st user topic ->
  models.PresenceCriteria.Topic criteria <> "" ->
  strings.HasPrefix
    (PresencesController.normalize (models.PresenceCriteria.Topic criteria))
    ("/Private/" ++ gin.CtxUsername ctx ++ "/DM/") = false ->
  strings.IndexByte
    (PresencesController.normalize (models.PresenceCriteria.Topic criteria))
    "," = None ->
  PresencesController.listWithCriteria ctx criteria st
  = PresencesController.query st
      (models.PresenceCriteria.withTopic criteria
         (PresencesController.normalize
            (models.PresenceCriteria.Topic criteria)))
  /\ forall p,
      models.selects
        (models.PresenceCriteria.withTopic criteria
           (PresencesController.normalize
              (models.PresenceCriteria.Topic criteria))) p
      = String.eqb (models.Presence.Topic p)
          (PresencesController.normalize
             (models.PresenceCriteria.Topic criteria))
        && Visibility.others criteria p.
Proof.
  intros Hcleared Hnonempty Hprefix Hcomma. split.
  - now apply listWithCriteria_plain with (user := user) (topic := topic).
  - intros p. rewrite selects_topic, (oneOf_single _ _ Hcomma).
    assert (Hset : models.unset
                     (PresencesController.normalize
                        (models.PresenceCriteria.Topic criteria)) = false).
    { unfold models.unset, PresencesController.normalize.
      destruct (models.PresenceCriteria.Topic criteria) as [| a t];
        [now elim Hnonempty |].
      destruct a as [[] [] [] [] [] [] [] []]; reflexivity. }
    now rewrite Hset.
Qed.

Lemma plain_path_lists_itself_witness :
  Visibility.cleared (Sample.onTopic "bob" "Private/bob/DM/alice")
    (Sample.window "/Private/bob/DM/alice") Sample.dmStore Sample.bob
    (Sample.own "/Private/bob/DM/alice" "bob")
  /\ response
       (PresencesController.listWithCriteria
          (gin.mkContext "bob" [] [])
          (Sample.window "/Private/alice/DM/bob")
          (models.withTopics Sample.dmStore
             [models.Topic.mk "/Private/alice/DM/bob" ["bob"] ["alice"] [] []]))
     = gin.JSON http.StatusOK
         (gin.presencesJSON 1
            [Sample.seen "p1" "alice" "/Private/alice/DM/bob" 10]).
Proof.
  split; [repeat split |].
  rewrite (proj1 (plain_path_lists_itself
                    (gin.mkContext "bob" [] [])
                    (Sample.window "/Private/alice/DM/bob")
                    (models.withTopics Sample.dmStore
                       [models.Topic.mk "/Private/alice/DM/bob" ["bob"]
                          ["alice"] [] []])
                    Sample.bob
                    (models.Topic.mk "/Private/alice/DM/bob" ["bob"] ["alice"]
                       [] [])
                    (conj eq_refl (conj eq_refl eq_refl))
                    ltac:(discriminate) eq_refl eq_refl)).
  reflexivity.
Defined.

(** X8.  The leading separator of the topic is optional for a topic that
    exists: listing with the normalized topic gives the same reply as
    listing with the topic as routed.  (For a missing topic the two 400
    replies quote the topic as it was given.) *)
Theorem leading_separator_optional
        (ctx : gin.Context) (criteria : models.PresenceCriteria.t)
        (topic : string) (st : models.Store) (found : models.Topic.t) :
  models.FindByTopic st topic true = Some found ->
  PresencesController.listWithCriteria ctx
    (models.PresenceCriteria.withTopic criteria
       (PresencesController.normalize topic)) st
  = PresencesController.listWithCriteria ctx
      (models.PresenceCriteria.withTopic criteria topic) st.
Proof.
  intros Hfound.
  destruct topic as [| a t]; [reflexivity |].
  destruct (Ascii.eqb_spec a "/") as [-> | Hother]; [reflexivity |].
  assert (Hnormal : PresencesController.normalize (String a t)
                    = String "/" (String a t)).
  { unfold PresencesController.normalize.
    destruct a as [[] [] [] [] [] [] [] []]; try reflexivity.
    now elim Hother. }
  assert (Hrooted : models.rooted (String a t) = String "/" (String a t)).
  { unfold models.rooted.
    destruct a as [[] [] [] [] [] [] [] []]; try reflexivity.
    now elim Hother. }
  assert (Hfound' : models.FindByTopic st (String "/" (String a t)) true
                    = Some found).
  { unfold models.FindByTopic in *. now rewrite Hrooted in Hfound. }
  rewrite Hnormal.
  unfold PresencesController.listWithCriteria.
  cbn [models.PresenceCriteria.Topic models.PresenceCriteria.withTopic
       models.PresenceCriteria.Skip models.PresenceCriteria.Limit
       models.PresenceCriteria.IDPresence models.PresenceCriteria.Status
       models.PresenceCriteria.Username models.PresenceCriteria.DateMinPresence
       models.PresenceCriteria.DateMaxPresence].
  rewrite Hfound, Hfound', Hnormal. reflexivity.
Qed.

Lemma leading_separator_optional_witness :
  PresencesController.listWithCriteria
    (Sample.onTopic "alice" "Private/alice/DM/bob")
    (models.PresenceCriteria.withTopic (Sample.window "")
       "/Private/alice/DM/bob")
    Sample.dmStore
  = PresencesController.listWithCriteria
      (Sample.onTopic "alice" "Private/alice/DM/bob")
      (models.PresenceCriteria.withTopic (Sample.window "")
         "Private/alice/DM/bob")
      Sample.dmStore.
Proof.
  exact (leading_separator_optional
           (Sample.onTopic "alice" "Private/alice/DM/bob") (Sample.window "")
           "Private/alice/DM/bob" Sample.dmStore
           (Sample.own "/Private/alice/DM/bob" "alice") eq_refl).
Defined.

(** X9.  Listing presences reads only: whatever the request, [List] and
    [listWithCriteria] leave the store as it is and start no detached
    call. *)
Theorem presence_listing_reads_only
        (ctx : gin.Context) (criteria : models.PresenceCriteria.t)
        (st : models.Store) :
  store (PresencesController.listWithCriteria ctx criteria st) = st
  /\ spawned (PresencesController.listWithCriteria ctx criteria st) = []
  /\ store (PresencesController.List ctx st) = st
  /\ spawned (PresencesController.List ctx st) = [].
Proof.
  assert (Hreads : forall c,
             store (PresencesController.listWithCriteria ctx c st) = st
             /\ spawned (PresencesController.listWithCriteria ctx c st) = []).
  { intros c.
    unfold PresencesController.listWithCriteria, PresencesController.query,
      PresencesController.preCheckUser, models.ListPresences.
    destruct (models.FindByUsername st (gin.CtxUsername ctx)); [| now split].
    destruct (models.FindByTopic st (models.PresenceCriteria.Topic c) true)
      as [topic |]; [| now split].
    destruct (negb (models.IsUserReadAccess topic _)); [now split |].
    cbv zeta.
    destruct (strings.HasPrefix _ _); [| now split].
    destruct (negb _); now split. }
  split; [apply Hreads | split; [apply Hreads |]].
  unfold PresencesController.List.
  destruct (GetParam ctx "topic") as [written | topicIn]; [now split |].
  apply Hreads.
Qed.

(** ** What the private topics check touches *)

Section CheckTouches.

Import models.

Variable user : User.t.

Let name := UsersController.topicName user.

Lemma loop_without_fix :
  forall (names : list string) (info : string) (st : Store),
    snd (fold_left (UsersController.checkTopic false user) names (info, st))
    = st.
Proof.
  induction names as [| shortName names IH]; intros info st; cbn [fold_left];
    [reflexivity |].
  rewrite checkTopic_turn, IH. unfold CheckReport.settle.
  now destruct (CheckReport.present st _).
Qed.

Lemma present_settle_false (fixTopics : bool) (st : Store)
      (shortName other : string) :
  CheckReport.present (CheckReport.settle fixTopics user st shortName)
    (name other) = false ->
  CheckReport.present st (name other) = false.
Proof.
  intros Habsent.
  destruct (CheckReport.present st (name other)) eqn:Hpresent; [| reflexivity].
  pose proof (present_kept fixTopics user st shortName other Hpresent) as Hkept.
  exact (eq_trans (eq_sym Hkept) Habsent).
Qed.

Let fresh := CheckReport.fresh user.

Lemma loop_appends (fixTopics : bool) :
  forall (names : list string) (info : string) (st : Store),
    (forall shortName, In shortName names ->
                       In shortName UsersController.topicNames) ->
    exists added,
      topics (snd (fold_left (UsersController.checkTopic fixTopics user) names
                     (info, st)))
      = (topics st ++ added)%list
      /\ users (snd (fold_left (UsersController.checkTopic fixTopics user)
                       names (info, st))) = users st
      /\ presences (snd (fold_left (UsersController.checkTopic fixTopics user)
                           names (info, st))) = presences st
      /\ Forall (fresh st) added.
Proof.
  induction names as [| shortName names IH]; intros info st Hnames;
    cbn [fold_left].
  - exists []. rewrite app_nil_r. now repeat split.
  - rewrite checkTopic_turn. cbv zeta. unfold name in *.
    match goal with
    | |- context [fold_left _ names (?text, ?next)] =>
        destruct (IH text next)
          as [added [Htopics [Husers [Hpresences Hfresh]]]];
        [intros other Hin; apply Hnames; now right |]
    end.
    rewrite Htopics, Husers, Hpresences.
    assert (Hweaken : Forall (fresh st) added).
    { eapply Forall_impl; [| exact Hfresh].
      intros t [other [Hin [Hpath Habsent]]]. exists other.
      split; [exact Hin | split; [exact Hpath |]].
      now apply present_settle_false in Habsent. }
    unfold CheckReport.settle.
    destruct (CheckReport.present st (UsersController.topicName user shortName))
      eqn:Hpresent;
      [now exists added |].
    destruct fixTopics; [| now exists added].
    exists (Topic.mk (UsersController.topicName user shortName) []
              [User.Username user] [] [] :: added).
    cbn [topics users presences withTopics].
    rewrite <- app_assoc. repeat split.
    constructor; [| exact Hweaken].
    exists shortName. split; [apply Hnames; now left | now split].
Qed.

End CheckTouches.

(** X10.  A pass of [checkTopics] that does not fix leaves the store as it
    is.  A fixing pass only appends topics: the topics that were there stay
    in place, the users and the presences are untouched, and every topic
    added is one of the four canonical private topics of the user and was
    missing before. *)
Theorem check_topics_touches_only_missing
        (user : models.User.t) (st : models.Store) :
  snd (UsersController.checkTopics false user st) = st
  /\ exists added,
      models.topics (snd (UsersController.checkTopics true user st))
      = (models.topics st ++ added)%list
      /\ models.users (snd (UsersController.checkTopics true user st))
         = models.users st
      /\ models.presences (snd (UsersController.checkTopics true user st))
         = models.presences st
      /\ forall t,
          In t added ->
          In (models.Topic.Topic t) (CheckReport.canonical user)
          /\ CheckReport.present st (models.Topic.Topic t) = false.
Proof.
  unfold UsersController.checkTopics. split; [apply loop_without_fix |].
  destruct (loop_appends user true UsersController.topicNames "" st
              (fun _ Hin => Hin))
    as [added [Htopics [Husers [Hpresences Hfresh]]]].
  exists added. split; [exact Htopics |].
  split; [exact Husers | split; [exact Hpresences |]].
  intros t Hin. rewrite Forall_forall in Hfresh.
  destruct (Hfresh t Hin) as [shortName [Hcanonical [Hpath Habsent]]].
  rewrite Hpath. split; [| exact Habsent].
  unfold CheckReport.canonical. now apply in_map.
Qed.

Lemma check_topics_touches_only_missing_witness :
  exists added,
    models.topics
      (snd (UsersController.checkTopics true Sample.alice Sample.dmStore))
    = (models.topics Sample.dmStore ++ added)%list
    /\ List.length added = 4%nat.
Proof.
  destruct (proj2 (check_topics_touches_only_missing Sample.alice
                     Sample.dmStore))
    as [added [Htopics _]].
  exists added. split; [exact Htopics |].
  apply (f_equal (@List.length models.Topic.t)) in Htopics.
  rewrite length_app in Htopics.
  change (8 = 4 + List.length added)%nat in Htopics. lia.
Defined.

(** ** Granting admin rights and archiving *)

(** X11.  [SetAdmin] needs no reserved prefix and reads nothing but the
    username of the request: an unknown user is turned down with 400; a
    persisted user that is not an admin becomes one (201); asked again on
    the resulting store the request is turned down with 400 (already an
    admin user) and the store stays as it is. *)
Theorem set_admin_once
        (ctx : gin.Context) (username : string) (canWrite : bool)
        (st : models.Store) :
  (models.FindByUsername st username = None ->
   UsersController.SetAdmin ctx
     (UsersController.convertUserJSON.mk username canWrite) st
   = reply st (gin.AbortWithReturnError http.StatusBadRequest
                 ("user with username " ++ username ++ " does not exist")))
  /\ (forall user,
         models.FindByUsername st username = Some user ->
         models.User.IsAdmin user = false ->
         exists st',
           UsersController.SetAdmin ctx
             (UsersController.convertUserJSON.mk username canWrite) st
           = mkResult (gin.JSON http.StatusCreated (gin.Text "")) st' []
           /\ models.FindByUsername st' username
              = Some (models.User.withAdmin user)
           /\ UsersController.SetAdmin ctx
                (UsersController.convertUserJSON.mk username canWrite) st'
              = reply st'
                  (gin.AbortWithReturnError http.StatusBadRequest
                     ("user with username " ++ username
                      ++ " is already an admin user"))).
Proof.
  unfold UsersController.SetAdmin. cbn [UsersController.convertUserJSON.Username].
  split.
  - intros Hunknown. now rewrite Hunknown.
  - intros user Hfound Hplain.
    pose proof (FindByUsername_name st username user Hfound) as Hname.
    destruct (save_found st models.User.withAdmin username user Hfound Hname)
      as [st' [Hsave [Hfound' _]]].
    exists st'. rewrite Hfound, Hplain.
    unfold models.ConvertToAdmin. rewrite Hname, Hsave, Hfound'.
    now repeat split.
Qed.

Lemma set_admin_once_witness :
  exists st',
    store (UsersController.SetAdmin Sample.admin
             (UsersController.convertUserJSON.mk "robot" false)
             Sample.systemStore) = st'
    /\ option_map models.User.IsAdmin (models.FindByUsername st' "robot")
       = Some true
    /\ response (UsersController.SetAdmin Sample.admin
                   (UsersController.convertUserJSON.mk "robot" false) st')
       = gin.AbortWithReturnError http.StatusBadRequest
           "user with username robot is already an admin user".
Proof.
  destruct (proj2 (set_admin_once Sample.admin "robot" false Sample.systemStore)
              Sample.robot eq_refl eq_refl)
    as [st' [Hfirst [Hfound Hsecond]]].
  exists st'. rewrite Hfirst, Hfound, Hsecond.
  split; [reflexivity | split; reflexivity].
Defined.

(** X12.  [Archive] turns an unknown user down with 400; a persisted user
    that is not archived becomes archived (201) whatever its other flags;
    asked again on the resulting store the request is turned down with 400
    (already archived) and the store stays as it is. *)
Theorem archive_once
        (ctx : gin.Context) (username : string) (st : models.Store) :
  (models.FindByUsername st username = None ->
   UsersController.Archive ctx (UsersController.usernameUserJSON.mk username) st
   = reply st (gin.AbortWithReturnError http.StatusBadRequest
                 ("user with username " ++ username ++ " does not exist")))
  /\ (forall user,
         models.FindByUsername st username = Some user ->
         models.User.IsArchived user = false ->
         exists st',
           UsersController.Archive ctx
             (UsersController.usernameUserJSON.mk username) st
           = mkResult (gin.JSON http.StatusCreated (gin.Text "")) st' []
           /\ models.FindByUsername st' username
              = Some (models.User.withArchived user)
           /\ UsersController.Archive ctx
                (UsersController.usernameUserJSON.mk username) st'
              = reply st'
                  (gin.AbortWithReturnError http.StatusBadRequest
                     ("user with username " ++ username
                      ++ " is already archived"))).
Proof.
  unfold UsersController.Archive. cbn [UsersController.usernameUserJSON.Username].
  split.
  - intros Hunknown. now rewrite Hunknown.
  - intros user Hfound Hplain.
    pose proof (FindByUsername_name st username user Hfound) as Hname.
    destruct (save_found st models.User.withArchived username user Hfound Hname)
      as [st' [Hsave [Hfound' _]]].
    exists st'. rewrite Hfound, Hplain.
    unfold models.Archive. rewrite Hname, Hsave, Hfound'.
    now repeat split.
Qed.

Lemma archive_once_witness :
  exists st',
    store (UsersController.Archive Sample.admin
             (UsersController.usernameUserJSON.mk "robot") Sample.systemStore)
    = st'
    /\ option_map models.User.IsArchived (models.FindByUsername st' "robot")
       = Some true
    /\ response (UsersController.Archive Sample.admin
                   (UsersController.usernameUserJSON.mk "robot") st')
       = gin.AbortWithReturnError http.StatusBadRequest
           "user with username robot is already archived".
Proof.
  destruct (proj2 (archive_once Sample.admin "robot" Sample.systemStore)
              Sample.robot eq_refl eq_refl)
    as [st' [Hfirst [Hfound Hsecond]]].
  exists st'. rewrite Hfirst, Hfound, Hsecond.
  split; [reflexivity | split; reflexivity].
Defined.

(** ** A password drawn twice *)

(** X13.  After [Convert] made a user a system user, [ResetSystemUser] on
    the same username succeeds, and the password it returns differs from the
    one [Convert] returned; it is the one persisted afterwards. *)
Theorem convert_then_reset_new_password
        (cfg : viper.Config) (ctx : gin.Context) (username : string)
        (canWrite : bool) (st : models.Store) (user : models.User.t) :
  strings.HasPrefix username "tat.system" = true ->
  models.FindByUsername st username = Some user ->
  models.User.IsSystem user = false ->
  exists first second converted reset_,
    UsersController.Convert cfg ctx
      (UsersController.convertUserJSON.mk username canWrite) st
    = mkResult
        (gin.JSON http.StatusOK
           (gin.H [("message", "Verification successfull");
                   ("username", username);
                   ("password", first);
                   ("url", UsersController.exposedURL cfg)]))
        converted []
    /\ UsersController.ResetSystemUser cfg
         (UsersController.resetSystemUserJSON.mk username) converted
       = mkResult
           (gin.JSON http.StatusOK
              (gin.H [("message", "Reset password successfull");
                      ("username", username);
                      ("password", second);
                      ("url", UsersController.exposedURL cfg)]))
           reset_ []
    /\ first <> second
    /\ option_map models.User.Password (models.FindByUsername reset_ username)
       = Some second
    /\ option_map models.User.IsSystem (models.FindByUsername reset_ username)
       = Some true.
Proof.
  intros Hprefix Hfound Hplain.
  pose proof (FindByUsername_name st username user Hfound) as Hname.
  destruct (save_found st
              (fun u => models.User.withSystem u (gin.CtxUsername ctx) canWrite
                          (models.generate "password" (models.nonce st)))
              username user Hfound Hname)
    as [st1 [Hsave1 [Hfound1 [_ Hnonce1]]]].
  destruct (save_found (models.tick st1)
              (fun u => models.User.withPassword u
                          (models.generate "password" (S (models.nonce st))))
              username _ Hfound1 Hname)
    as [st2 [Hsave2 [Hfound2 _]]].
  exists (models.generate "password" (models.nonce st)),
    (models.generate "password" (S (models.nonce st))),
    (models.tick st1), (models.tick st2).
  split; [| split; [| split; [| split]]].
  - unfold UsersController.Convert. simpl.
    rewrite Hprefix, Hfound, Hplain. simpl.
    unfold models.ConvertToSystem. now rewrite Hname, Hsave1.
  - unfold UsersController.ResetSystemUser. simpl.
    rewrite Hprefix.
    change (models.FindByUsername (models.tick st1) username)
      with (models.FindByUsername st1 username).
    rewrite Hfound1. simpl.
    unfold models.ResetSystemUserPassword. simpl.
    rewrite Hname, Hnonce1.
    now rewrite Hsave2.
  - intros Hsame. apply generate_inj in Hsame. lia.
  - change (models.FindByUsername (models.tick st2) username)
      with (models.FindByUsername st2 username).
    now rewrite Hfound2.
  - change (models.FindByUsername (models.tick st2) username)
      with (models.FindByUsername st2 username).
    now rewrite Hfound2.
Qed.

Lemma convert_then_reset_new_password_witness :
  exists first second converted,
    response (UsersController.Convert Sample.cfg Sample.admin
                (UsersController.convertUserJSON.mk "tat.system.bob" true)
                Sample.systemStore)
    = gin.JSON http.StatusOK
        (gin.H [("message", "Verification successfull");
                ("username", "tat.system.bob");
                ("password", first);
                ("url", UsersController.exposedURL Sample.cfg)])
    /\ store (UsersController.Convert Sample.cfg Sample.admin
                (UsersController.convertUserJSON.mk "tat.system.bob" true)
                Sample.systemStore) = converted
    /\ response (UsersController.ResetSystemUser Sample.cfg
                   (UsersController.resetSystemUserJSON.mk "tat.system.bob")
                   converted)
       = gin.JSON http.StatusOK
           (gin.H [("message", "Reset password successfull");
                   ("username", "tat.system.bob");
                   ("password", second);
                   ("url", UsersController.exposedURL Sample.cfg)])
    /\ first <> second.
Proof.
  destruct (convert_then_reset_new_password Sample.cfg Sample.admin
              "tat.system.bob" true Sample.systemStore
              (Sample.person "tat.system.bob" "Bob Bot" "bot@example.org")
              eq_refl eq_refl eq_refl)
    as [first [second [converted [reset_ [Hconvert [Hreset [Hnew _]]]]]]].
  exists first, second, converted. rewrite Hconvert, Hreset.
  now repeat split.
Defined.

(** ** Notifications off and on again *)

(** X14.  For a routed topic and a persisted requesting user,
    [DisableNotificationsTopic] replies 200 without looking the topic up,
    and the persisted user is then the same user with the topic among the
    topics with notifications off; the topics of the store are as before.
    [EnableNotificationsTopic] on the resulting store undoes it only for a
    topic that exists and that the user may read (201, the topic is then
    out of that set); for a topic that does not exist it replies 400, for
    one the user may not read 403, and in both cases it leaves the store as
    it is, the topic still suppressed. *)
Theorem notifications_off_and_on
        (ctx : gin.Context) (st : models.Store) (topicIn : string)
        (user : models.User.t) :
  GetParam ctx "topic" = inr topicIn ->
  models.FindByUsername st (gin.CtxUsername ctx) = Some user ->
  exists off,
    UsersController.DisableNotificationsTopic ctx st
    = mkResult
        (gin.JSON http.StatusOK
           (gin.H [("info", "Notications disabled on topic " ++ topicIn)]))
        off []
    /\ models.FindByUsername off (gin.CtxUsername ctx)
       = Some (models.User.withOffNotificationsTopics user
                 (models.add (models.rooted topicIn)
                    (models.User.OffNotificationsTopics user)))
    /\ models.member (models.rooted topicIn)
         (models.add (models.rooted topicIn)
            (models.User.OffNotificationsTopics user)) = true
    /\ models.topics off = models.topics st
    /\ (models.FindByTopic st topicIn true = None ->
        UsersController.EnableNotificationsTopic ctx off
        = reply off (gin.AbortWithReturnError http.StatusBadRequest
                       ("topic " ++ topicIn ++ " does not exist")))
    /\ (forall topic,
           models.FindByTopic st topicIn true = Some topic ->
           models.IsUserReadAccess topic user = false ->
           UsersController.EnableNotificationsTopic ctx off
           = reply off (gin.AbortWithReturnError http.StatusForbidden
                          "No Read Access to this topic"))
    /\ (forall topic,
           models.FindByTopic st topicIn true = Some topic ->
           models.IsUserReadAccess topic user = true ->
           exists on_,
             UsersController.EnableNotificationsTopic ctx off
             = mkResult
                 (gin.JSON http.StatusCreated
                    (gin.H [("info", "Notications enabled on Topic "
                                     ++ models.rooted topicIn)]))
                 on_ []
             /\ models.FindByUsername on_ (gin.CtxUsername ctx)
                = Some (models.User.withOffNotificationsTopics user
                          (models.remove (models.rooted topicIn)
                             (models.add (models.rooted topicIn)
                                (models.User.OffNotificationsTopics user))))
             /\ models.member (models.rooted topicIn)
                  (models.remove (models.rooted topicIn)
                     (models.add (models.rooted topicIn)
                        (models.User.OffNotificationsTopics user))) = false
             /\ models.topics on_ = models.topics st).
Proof.
  intros Hrouted Hknown.
  pose proof (FindByUsername_name st _ user Hknown) as Hname.
  destruct (save_found_frame
              (fun u => models.User.withOffNotificationsTopics u
                          (models.add (models.rooted topicIn)
                             (models.User.OffNotificationsTopics u)))
              (fun u => eq_refl) st (gin.CtxUsername ctx) user Hknown)
    as [off [Hsave [Hknown' [Htopics _]]]].
  assert (Hlookup : models.FindByTopic off topicIn true
                    = models.FindByTopic st topicIn true).
  { unfold models.FindByTopic. now rewrite Htopics. }
  exists off.
  split; [| split; [exact Hknown' | split; [apply member_add |
    split; [exact Htopics | split; [| split]]]]].
  - unfold UsersController.DisableNotificationsTopic,
      models.DisableNotificationsTopic.
    now rewrite Hrouted, (PreCheckUser_known ctx st user Hknown), Hname, Hsave.
  - intros Hmissing. rewrite <- Hlookup in Hmissing.
    exact (EnableNotificationsTopic_missing ctx off topicIn _ Hrouted Hknown'
             Hmissing).
  - intros topic Hfound Hdenied. rewrite <- Hlookup in Hfound.
    exact (EnableNotificationsTopic_forbidden ctx off topicIn _ Hrouted Hknown'
             topic Hfound Hdenied).
  - intros topic Hfound Haccess.
    assert (Hpath : models.Topic.Topic topic = models.rooted topicIn).
    { unfold models.FindByTopic in Hfound. apply find_some in Hfound.
      now apply String.eqb_eq. }
    rewrite <- Hlookup in Hfound.
    destruct (save_found_frame
                (fun u => models.User.withOffNotificationsTopics u
                            (models.remove (models.rooted topicIn)
                               (models.User.OffNotificationsTopics u)))
                (fun u => eq_refl) off (gin.CtxUsername ctx) _ Hknown')
      as [on_ [Hsave' [Hheard [Htopics' _]]]].
    exists on_.
    split; [| split; [exact Hheard | split; [apply member_remove |
      now rewrite Htopics']]].
    unfold UsersController.EnableNotificationsTopic,
      models.EnableNotificationsTopic.
    rewrite Hrouted, (PreCheckUser_known ctx off _ Hknown'), Hfound.
    change (models.IsUserReadAccess topic
              (models.User.withOffNotificationsTopics user
                 (models.add (models.rooted topicIn)
                    (models.User.OffNotificationsTopics user))))
      with (models.IsUserReadAccess topic user).
    rewrite Haccess, Hpath.
    cbn [negb models.User.Username models.User.withOffNotificationsTopics].
    now rewrite Hname, Hsave'.
Qed.

Lemma notifications_off_and_on_witness :
  models.FindByTopic Sample.topicStore "Internal/Board" true
  = Some Sample.closed
  /\ models.IsUserReadAccess Sample.closed
       (models.User.withFavoritesTopics Sample.alice ["/Internal/Board"])
     = false
  /\ exists off,
      store (UsersController.DisableNotificationsTopic
               (Sample.onTopic "alice" "Internal/Board") Sample.topicStore)
      = off
      /\ UsersController.EnableNotificationsTopic
           (Sample.onTopic "alice" "Internal/Board") off
         = reply off (gin.AbortWithReturnError http.StatusForbidden
                        "No Read Access to this topic")
      /\ option_map models.User.OffNotificationsTopics
           (models.FindByUsername off "alice") = Some ["/Internal/Board"].
Proof.
  split; [reflexivity | split; [reflexivity |]].
  destruct (notifications_off_and_on
              (Sample.onTopic "alice" "Internal/Board") Sample.topicStore
              "Internal/Board"
              (models.User.withFavoritesTopics Sample.alice ["/Internal/Board"])
              eq_refl eq_refl)
    as [off [Hdisable [Hsilenced [_ [_ [_ [Hdenied _]]]]]]].
  exists off. rewrite Hdisable.
  split; [reflexivity |].
  split; [exact (Hdenied Sample.closed eq_refl eq_refl) |].
  change (gin.CtxUsername (Sample.onTopic "alice" "Internal/Board"))
    with "alice" in Hsilenced.
  rewrite Hsilenced. reflexivity.
Defined.

(** ** The default group check *)

Section DefaultGroup.

Variable cfg : viper.Config.

Lemma existsb_eqb_In (group : string) (l : list string) :
  existsb (fun g => String.eqb g group) l = true <-> In group l.
Proof.
  rewrite existsb_exists. split.
  - intros [g [Hin Heq]]. apply String.eqb_eq in Heq. now subst.
  - intros Hin. exists group. split; [exact Hin | apply String.eqb_refl].
Qed.

Lemma checkDefaultGroup_member (fixDefaultGroup : bool) (user persisted : models.User.t)
      (st : models.Store) :
  models.FindByUsername st (models.User.Username user) = Some persisted ->
  In (viper.default_group cfg) (models.User.Groups persisted) ->
  UsersController.checkDefaultGroup cfg fixDefaultGroup user st
  = ("user in " ++ viper.default_group cfg ++ " OK", st).
Proof.
  intros Hfound Hin. apply existsb_eqb_In in Hin.
  unfold UsersController.checkDefaultGroup, models.GetGroupsOnlyName.
  rewrite Hfound. cbn [option_map]. now rewrite Hin.
Qed.

End DefaultGroup.

(** X15.  [checkDefaultGroup] on a persisted user: in the default group it
    reports [user in <group> OK]; outside it and not fixing it reports
    [user in default group <group> KO]; in both cases the store stays as it
    is.  Outside it and fixing, it reports [user added in default group
    <group>], the persisted user is then the same user with the default
    group among its groups, and on the store it leaves every later check,
    fixing or not, reports OK and changes nothing. *)
Theorem check_default_group_settles
        (cfg : viper.Config) (user persisted : models.User.t)
        (st : models.Store) :
  models.FindByUsername st (models.User.Username user) = Some persisted ->
  (In (viper.default_group cfg) (models.User.Groups persisted) ->
   forall fixDefaultGroup,
     UsersController.checkDefaultGroup cfg fixDefaultGroup user st
     = ("user in " ++ viper.default_group cfg ++ " OK", st))
  /\ (~ In (viper.default_group cfg) (models.User.Groups persisted) ->
      UsersController.checkDefaultGroup cfg false user st
      = ("user in default group " ++ viper.default_group cfg ++ " KO", st)
      /\ exists st',
          UsersController.checkDefaultGroup cfg true user st
          = ("user added in default group " ++ viper.default_group cfg, st')
          /\ models.FindByUsername st' (models.User.Username user)
             = Some (models.User.withGroups persisted
                       (models.add (viper.default_group cfg)
                          (models.User.Groups persisted)))
          /\ In (viper.default_group cfg)
               (models.add (viper.default_group cfg)
                  (models.User.Groups persisted))
          /\ models.topics st' = models.topics st
          /\ forall fixDefaultGroup,
              UsersController.checkDefaultGroup cfg fixDefaultGroup user st'
              = ("user in " ++ viper.default_group cfg ++ " OK", st')).
Proof.
  intros Hfound. split.
  - intros Hin fixDefaultGroup.
    now apply checkDefaultGroup_member with (persisted := persisted).
  - intros Hout.
    assert (Hnot : existsb (fun g => String.eqb g (viper.default_group cfg))
                     (models.User.Groups persisted) = false).
    { apply Bool.not_true_iff_false. intros Hin. apply Hout.
      now apply existsb_eqb_In. }
    assert (Hjoined : In (viper.default_group cfg)
                        (models.add (viper.default_group cfg)
                           (models.User.Groups persisted))).
    { pose proof (member_add (viper.default_group cfg)
                    (models.User.Groups persisted)) as Hadded.
      unfold models.member in Hadded. apply existsb_exists in Hadded.
      destruct Hadded as [g [Hin Heq]]. apply String.eqb_eq in Heq.
      now subst g. }
    split.
    + unfold UsersController.checkDefaultGroup, models.GetGroupsOnlyName.
      rewrite Hfound. cbn [option_map]. now rewrite Hnot.
    + destruct (save_found_frame
                  (fun u => models.User.withGroups u
                              (models.add (viper.default_group cfg)
                                 (models.User.Groups u)))
                  (fun u => eq_refl) st (models.User.Username user) persisted
                  Hfound)
        as [st' [Hsave [Hfound' [Htopics _]]]].
      exists st'.
      split; [| split; [exact Hfound' | split; [exact Hjoined |
        split; [exact Htopics |]]]].
      * unfold UsersController.checkDefaultGroup, models.GetGroupsOnlyName,
          models.AddDefaultGroup.
        rewrite Hfound. cbn [option_map]. now rewrite Hnot, Hsave.
      * intros fixDefaultGroup.
        now apply checkDefaultGroup_member with (1 := Hfound').
Qed.

Lemma check_default_group_settles_witness :
  models.FindByUsername Sample.groupStore "carol" = Some Sample.carol
  /\ exists st',
      UsersController.checkDefaultGroup Sample.cfg true Sample.carol
        Sample.groupStore
      = ("user added in default group Everyone", st')
      /\ UsersController.checkDefaultGroup Sample.cfg false Sample.carol st'
         = ("user in Everyone OK", st').
Proof.
  split; [reflexivity |].
  destruct (proj2 (check_default_group_settles Sample.cfg Sample.carol
                     Sample.carol Sample.groupStore eq_refl)
              (fun Hin : In "Everyone" [] => Hin))
    as [_ [st' [Hfix [_ [_ [_ Hagain]]]]]].
  exists st'. split; [exact Hfix | exact (Hagain false)].
Defined.

(** ** What a reset request leaves behind *)

(** X16.  [Reset] either replies something other than 201, and then the
    store is as before and no mail is started; or it replies 201, and then
    a user was persisted under the trimmed username with the trimmed email,
    the trimmed username has at least 3 bytes and the trimmed email at
    least 7, the one detached call is the reset mail to those trimmed
    values, and the token it carries is the one persisted with that user;
    the topics and the presences are untouched. *)
Theorem reset_changes_only_when_created
        (userJSON : UsersController.userResetJSON.t) (st : models.Store) :
  (store (UsersController.Reset userJSON st) = st
   /\ spawned (UsersController.Reset userJSON st) = []
   /\ forall obj,
       response (UsersController.Reset userJSON st)
       <> gin.JSON http.StatusCreated obj)
  \/ (exists token persisted,
         response (UsersController.Reset userJSON st)
         = gin.JSON http.StatusCreated
             (gin.H [("info",
                      "please check your mail to validate your account")])
         /\ spawned (UsersController.Reset userJSON st)
            = [SendAskResetEmail
                 (strings.TrimSpace
                    (UsersController.userResetJSON.Username userJSON))
                 (strings.TrimSpace
                    (UsersController.userResetJSON.Email userJSON))
                 token
                 (strings.TrimSpace
                    (UsersController.userResetJSON.Callback userJSON))]
         /\ models.FindByUsername st
              (strings.TrimSpace
                 (UsersController.userResetJSON.Username userJSON))
            = Some persisted
         /\ models.User.Email persisted
            = strings.TrimSpace (UsersController.userResetJSON.Email userJSON)
         /\ models.FindByUsername (store (UsersController.Reset userJSON st))
              (strings.TrimSpace
                 (UsersController.userResetJSON.Username userJSON))
            = Some (models.User.withToken persisted token)
         /\ models.topics (store (UsersController.Reset userJSON st))
            = models.topics st
         /\ models.presences (store (UsersController.Reset userJSON st))
            = models.presences st
         /\ (3 <= String.length
                    (strings.TrimSpace
                       (UsersController.userResetJSON.Username userJSON)))%nat
         /\ (7 <= String.length
                    (strings.TrimSpace
                       (UsersController.userResetJSON.Email userJSON)))%nat).
Proof.
  unfold UsersController.Reset.
  cbn [models.User.Username models.User.Email models.User.withIdentity].
  destruct ((String.length
               (strings.TrimSpace
                  (UsersController.userResetJSON.Username userJSON)) <? 3)%nat
            || (String.length
                  (strings.TrimSpace
                     (UsersController.userResetJSON.Email userJSON)) <? 7)%nat)
    eqn:Hshort; [left; repeat split; discriminate |].
  apply orb_false_iff in Hshort. destruct Hshort as [Husername Hemail].
  apply Nat.ltb_ge in Husername, Hemail.
  unfold models.AskReset.
  cbn [models.User.Username models.User.Email models.User.withIdentity].
  destruct (models.FindByUsername st
              (strings.TrimSpace
                 (UsersController.userResetJSON.Username userJSON)))
    as [persisted |] eqn:Hfound; [| left; repeat split; discriminate].
  destruct (String.eqb_spec (models.User.Email persisted)
              (strings.TrimSpace (UsersController.userResetJSON.Email userJSON)))
    as [Hmail | Hmail]; [| left; repeat split; discriminate].
  pose proof (FindByUsername_name st _ persisted Hfound) as Hname.
  destruct (save_found st
              (fun u => models.User.withToken u
                          (models.generate "reset" (models.nonce st)))
              _ persisted Hfound Hname)
    as [st' [Hsave [Hfound' [Htopics _]]]].
  rewrite Hname, Hsave. cbn [option_map].
  right. exists (models.generate "reset" (models.nonce st)), persisted.
  cbn [response store spawned]. repeat split; try assumption.
  unfold models.save in Hsave.
  destruct (models.update _ _ (models.users st)); [| discriminate].
  injection Hsave as <-. reflexivity.
Qed.

Lemma reset_changes_only_when_created_witness :
  response (UsersController.Reset Sample.forgot Sample.topicStore)
  = gin.JSON http.StatusCreated
      (gin.H [("info", "please check your mail to validate your account")])
  /\ spawned (UsersController.Reset Sample.forgot Sample.topicStore)
     = [SendAskResetEmail "alice" "alice@example.org" "reset-0" ""].
Proof.
  destruct (reset_changes_only_when_created Sample.forgot Sample.topicStore)
    as [[_ [_ Hnot]] | [token [persisted [Hreply [Hmail _]]]]].
  - now elim (Hnot (gin.H [("info",
                            "please check your mail to validate your account")])).
  - split; [exact Hreply | reflexivity].
Defined.

(** ** Favorite tags *)

(** X17.  For a routed tag and a persisted requesting user,
    [AddFavoriteTag] replies 201 and the tag, exactly as routed, is then
    among the user's favorite tags; [RemoveFavoriteTag] on the resulting
    store replies 200 and the tag is gone.  Neither looks at the topics. *)
Theorem favorite_tag_round_trip
        (ctx : gin.Context) (st : models.Store) (tagIn : string)
        (user : models.User.t) :
  GetParam ctx "tag" = inr tagIn ->
  models.FindByUsername st (gin.CtxUsername ctx) = Some user ->
  exists added removed fan plain,
    UsersController.AddFavoriteTag ctx st
    = mkResult (gin.JSON http.StatusCreated (gin.Text "")) added []
    /\ models.FindByUsername added (gin.CtxUsername ctx) = Some fan
    /\ models.member tagIn (models.User.FavoritesTags fan) = true
    /\ UsersController.RemoveFavoriteTag ctx added
       = mkResult (gin.JSON http.StatusOK (gin.Text "")) removed []
    /\ models.FindByUsername removed (gin.CtxUsername ctx) = Some plain
    /\ models.member tagIn (models.User.FavoritesTags plain) = false
    /\ models.topics removed = models.topics st.
Proof.
  intros Hrouted Hknown.
  pose proof (FindByUsername_name st _ user Hknown) as Hname.
  destruct (save_found st
              (fun u => models.User.withFavoritesTags u
                          (models.add tagIn (models.User.FavoritesTags u)))
              (gin.CtxUsername ctx) user Hknown Hname)
    as [added [Hadd [Hfan [Htopics _]]]].
  destruct (save_found added
              (fun u => models.User.withFavoritesTags u
                          (models.remove tagIn (models.User.FavoritesTags u)))
              (gin.CtxUsername ctx) _ Hfan Hname)
    as [removed [Hremove [Hplain [Htopics' _]]]].
  exists added, removed. eexists. eexists.
  split; [| split; [exact Hfan | split; [apply member_add | split;
    [| split; [exact Hplain | split; [apply member_remove |]]]]]].
  - unfold UsersController.AddFavoriteTag, models.AddFavoriteTag.
    now rewrite Hrouted, (PreCheckUser_known ctx st user Hknown), Hname, Hadd.
  - unfold UsersController.RemoveFavoriteTag, models.RemoveFavoriteTag.
    rewrite Hrouted, (PreCheckUser_known ctx added _ Hfan).
    cbn [models.User.Username models.User.withFavoritesTags].
    now rewrite Hname, Hremove.
  - now rewrite Htopics', Htopics.
Qed.

Lemma favorite_tag_round_trip_witness :
  exists added removed plain,
    store (UsersController.AddFavoriteTag Sample.tagged Sample.topicStore)
    = added
    /\ store (UsersController.RemoveFavoriteTag Sample.tagged added) = removed
    /\ models.FindByUsername removed "alice" = Some plain
    /\ models.member "urgent" (models.User.FavoritesTags plain) = false.
Proof.
  destruct (favorite_tag_round_trip Sample.tagged Sample.topicStore "urgent"
              (models.User.withFavoritesTopics Sample.alice ["/Internal/Board"])
              eq_refl eq_refl)
    as [added [removed [fan [plain
         [Hadd [_ [_ [Hremove [Hplain [Hgone _]]]]]]]]]].
  exists added, removed, plain. rewrite Hadd, Hremove.
  split; [reflexivity | split; [reflexivity | split; assumption]].
Defined.
